(** * InspectorNumber: the numeric field controller of the inspector

    A shallow embedding of
    [src/components/Editor/inspector/fields/InspectorNumber.tsx].

    JavaScript numbers are IEEE-754 binary64 values; they are modelled by
    [spec_float] with precision 53 and maximal exponent 1024, so that the
    arithmetic, the comparisons and [NaN] behave as they do at run time.
    The built-ins the component calls ([parseFloat], [Number.prototype.toString],
    [Number.prototype.toFixed], [Math.*]) follow ECMA-262. *)

From Stdlib Require Import ZArith Lia Bool Ascii String List.
From Stdlib Require Import Floats.SpecFloat.
From stdpp Require Import gmap strings list.

Local Open Scope string_scope.
Local Open Scope Z_scope.

(** ** JavaScript numbers *)

Abbreviation number := spec_float.

Definition prec : Z := 53.
Definition emax : Z := 1024.

Definition NaN : number := S754_nan.
Definition Infinity : number := S754_infinity false.

Definition of_Z (z : Z) : number := binary_normalize prec emax z 0 false.

(** The arithmetic and relational operators on numbers. [x > y] is [lt y x]. *)
Definition add (x y : number) : number := SFadd prec emax x y.
Definition sub (x y : number) : number := SFsub prec emax x y.
Definition mul (x y : number) : number := SFmul prec emax x y.
Definition div (x y : number) : number := SFdiv prec emax x y.
Definition neg (x : number) : number := SFopp x.
Definition lt (x y : number) : bool := SFltb x y.
Definition le (x y : number) : bool := SFleb x y.
Definition gt (x y : number) : bool := SFltb y x.
Definition eq_num (x y : number) : bool := SFeqb x y.

Definition is_nan (x : number) : bool :=
  match x with S754_nan => true | _ => false end.

(** [p / q] rounded to the nearest number, ties to even. *)
Definition of_ratio (sign : bool) (p q : positive) : number :=
  let '(mz, ez, lz) := SFdiv_core_binary prec emax (Zpos p) 0 (Zpos q) 0 in
  binary_round_aux prec emax sign mz ez lz.

(** A finite number [m * 2^e] as the exact fraction [P / Q]. *)
Definition numerator (m : positive) (e : Z) : Z :=
  if 0 <=? e then Zpos m * 2 ^ e else Zpos m.
Definition denominator (e : Z) : Z :=
  if 0 <=? e then 1 else 2 ^ (- e).

(** ** Decimal digits *)

Definition digit_char (d : Z) : ascii :=
  ascii_of_nat (48 + Z.to_nat d).

Fixpoint digits_fuel (fuel : nat) (n : Z) (acc : string) : string :=
  match fuel with
  | O => acc
  | S fuel' =>
      let acc' := String (digit_char (n mod 10)) acc in
      if n <? 10 then acc' else digits_fuel fuel' (n / 10) acc'
  end.

(** The decimal representation of a non-negative integer. *)
Definition digits (n : Z) : string :=
  digits_fuel (S (Z.to_nat (Z.log2 n))) n "".

Fixpoint zeros (n : nat) : string :=
  match n with
  | O => ""
  | S n' => String "0" (zeros n')
  end.

Definition strlen (s : string) : Z := Z.of_nat (String.length s).

(** ** Number::toString, radix 10 (ECMA-262 6.1.6.1.20)

    For a positive finite [x = m * 2^e] the digits are those of the
    shortest decimal [j * 10^q] that rounds to [x]; among several of the
    same length the one closest to [x] is taken. All quantities are
    counted in units of [2^(e-2)]: [x] is [4m], the reals that round to
    [x] lie between [4m - 2] (or [4m - 1] just above a power of two) and
    [4m + 2], the end points included when [m] is even. *)

Record interval := {
  iv_lo : Z; iv_mid : Z; iv_hi : Z;
  iv_closed : bool;
  iv_exp : Z
}.

Definition rounding_interval (m : positive) (e : Z) : interval :=
  let boundary := (Zpos m =? 2 ^ 52) && (-1074 <? e) in
  {| iv_lo := 4 * Zpos m - (if boundary then 1 else 2);
     iv_mid := 4 * Zpos m;
     iv_hi := 4 * Zpos m + 2;
     iv_closed := Z.even (Zpos m);
     iv_exp := e - 2 |}.

(** [j * 10^q] against [N * 2^E] is [j * scaleA] against [N * scaleB]. *)
Definition scaleA (q E : Z) : Z := 10 ^ Z.max q 0 * 2 ^ Z.max (- E) 0.
Definition scaleB (q E : Z) : Z := 10 ^ Z.max (- q) 0 * 2 ^ Z.max E 0.

(** The least and the greatest [j] with [j * 10^q] in the interval. *)
Definition least_multiple (iv : interval) (q : Z) : Z :=
  let A := scaleA q (iv_exp iv) in
  let B := scaleB q (iv_exp iv) in
  if iv_closed iv then (iv_lo iv * B + A - 1) / A else iv_lo iv * B / A + 1.

Definition greatest_multiple (iv : interval) (q : Z) : Z :=
  let A := scaleA q (iv_exp iv) in
  let B := scaleB q (iv_exp iv) in
  if iv_closed iv then iv_hi iv * B / A else (iv_hi iv * B - 1) / A.

(** The integer closest to [x / 10^q], the even one in a tie. *)
Definition nearest_multiple (iv : interval) (q : Z) : Z :=
  let A := scaleA q (iv_exp iv) in
  let B := scaleB q (iv_exp iv) in
  let t := 2 * iv_mid iv * B + A in
  let j := t / (2 * A) in
  if (t mod (2 * A) =? 0) && Z.odd j then j - 1 else j.

Fixpoint shortest_from (fuel : nat) (iv : interval) (q : Z) : Z * Z :=
  let lo := least_multiple iv q in
  let hi := greatest_multiple iv q in
  if (lo <=? hi) && (1 <=? hi) then
    (Z.max lo (Z.min (nearest_multiple iv q) hi), q)
  else
    match fuel with
    | O => (0, q)
    | S fuel' => shortest_from fuel' iv (q - 1)
    end.

(** An exponent [q] above which no multiple of [10^q] is as small as [x]. *)
Definition first_exponent (iv : interval) : Z :=
  (Z.log2 (iv_hi iv) + 1 + iv_exp iv) * 30103 / 100000 + 2.

(** The descent starts at most 311 above and ends at least 1076 below
    zero; multiples of [10^q] are found once [10^q] is below the width of
    the interval. *)
Definition shortest (m : positive) (e : Z) : Z * Z :=
  let iv := rounding_interval m e in
  shortest_from 1500 iv (first_exponent iv).

Definition format_decimal (s : string) (k n : Z) : string :=
  if (-5 <=? n) && (n <=? 21) then
    if k <=? n then s +:+ zeros (Z.to_nat (n - k))
    else if 0 <? n then
      substring 0 (Z.to_nat n) s +:+ "." +:+
      substring (Z.to_nat n) (Z.to_nat (k - n)) s
    else "0." +:+ zeros (Z.to_nat (- n)) +:+ s
  else
    let e := n - 1 in
    let c := if 0 <=? e then "+" else "-" in
    if k =? 1 then s +:+ "e" +:+ c +:+ digits (Z.abs e)
    else substring 0 1 s +:+ "." +:+ substring 1 (Z.to_nat (k - 1)) s
         +:+ "e" +:+ c +:+ digits (Z.abs e).

Definition toString_pos (m : positive) (e : Z) : string :=
  let '(j, q) := shortest m e in
  let s := digits j in
  let k := strlen s in
  format_decimal s k (k + q).

Definition toString (x : number) : string :=
  match x with
  | S754_nan => "NaN"
  | S754_zero _ => "0"
  | S754_infinity s => if s then "-Infinity" else "Infinity"
  | S754_finite s m e => (if s then "-" else "") +:+ toString_pos m e
  end.

(** ** Number.prototype.toFixed (ECMA-262 21.1.3.3)

    [n] is the integer for which [n / 10^f - x] is closest to zero, the
    larger one in a tie. A [RangeError] is raised for more than 100
    fraction digits; the component only passes [_precision], the number of
    characters that follow the dot in a rendered number. *)

Definition toFixed_digits (n : Z) (f : nat) : string :=
  let m := digits n in
  if (f =? 0)%nat then m
  else
    let k := String.length m in
    let m := if (k <=? f)%nat then zeros (f + 1 - k) +:+ m else m in
    let k := String.length m in
    substring 0 (k - f) m +:+ "." +:+ substring (k - f) f m.

Definition toFixed (x : number) (f : nat) : string :=
  match x with
  | S754_finite s m e =>
      let P := numerator m e in
      let Q := denominator e in
      (if s then "-" else "") +:+
      (if 10 ^ 21 * Q <=? P then toString_pos m e
       else toFixed_digits ((2 * P * 10 ^ Z.of_nat f + Q) / (2 * Q)) f)
  | S754_zero _ => toFixed_digits 0 f
  | _ => toString x
  end.

(** ** parseFloat (ECMA-262 19.2.4)

    Leading white space is skipped and the longest prefix that is a
    [StrDecimalLiteral] is converted; [NaN] when there is none. Strings
    are sequences of 8-bit code units. *)

Definition is_digit (c : ascii) : bool :=
  let n := nat_of_ascii c in (48 <=? n)%nat && (n <=? 57)%nat.

Definition digit_value (c : ascii) : Z := Z.of_nat (nat_of_ascii c) - 48.

Definition is_whitespace (c : ascii) : bool :=
  let n := nat_of_ascii c in
  ((9 <=? n)%nat && (n <=? 13)%nat) || (n =? 32)%nat || (n =? 160)%nat.

Fixpoint trim_start (s : string) : string :=
  match s with
  | String c s' => if is_whitespace c then trim_start s' else s
  | EmptyString => s
  end.

(** A maximal run of decimal digits: the value read so far, the number
    of digits read, and the rest of the string. *)
Fixpoint read_digits (s : string) (acc n : Z) : Z * Z * string :=
  match s with
  | String c s' =>
      if is_digit c then read_digits s' (10 * acc + digit_value c) (n + 1)
      else (acc, n, s)
  | EmptyString => (acc, n, s)
  end.

Definition read_sign (s : string) : bool * string :=
  match s with
  | String "+" r => (false, r)
  | String "-" r => (true, r)
  | _ => (false, s)
  end.

(** The value of an optional [ExponentPart] at the head of [s]. *)
Definition read_exponent (s : string) : Z :=
  match s with
  | String c s' =>
      if Ascii.eqb c "e" || Ascii.eqb c "E" then
        let '(neg_exp, s'') := read_sign s' in
        let '(v, n, _) := read_digits s'' 0 0 in
        if n =? 0 then 0 else if neg_exp then - v else v
      else 0
  | EmptyString => 0
  end.

(** [d * 10^x] rounded to the nearest number. *)
Definition decimal_value (sign : bool) (d x : Z) : number :=
  match d with
  | Zpos p =>
      let magnitude := strlen (digits d) + x in
      if 310 <? magnitude then S754_infinity sign
      else if magnitude <? -330 then S754_zero sign
      else if 0 <=? x then of_ratio sign (p * Z.to_pos (10 ^ x)) 1
      else of_ratio sign p (Z.to_pos (10 ^ (- x)))
  | _ => S754_zero sign
  end.

Definition parseFloat (input : string) : number :=
  let '(sign, s1) := read_sign (trim_start input) in
  if String.prefix "Infinity" s1 then S754_infinity sign
  else
    let '(ip, ni, s2) := read_digits s1 0 0 in
    let '(fp, nf, s3) :=
      match s2 with
      | String "." r => read_digits r ip 0
      | _ => (ip, 0, s2)
      end in
    if (ni =? 0) && (nf =? 0) then NaN
    else decimal_value sign fp (read_exponent s3 - nf).

(** Number literals of the source are written through their text. *)
Definition num (literal : string) : number := parseFloat literal.

(** ** The IEEE-754 encoding of a number, for the bit-level steps of [Math.log] *)

Definition bits (x : number) : Z :=
  let sign_bit (s : bool) := if s then 2 ^ 63 else 0 in
  match x with
  | S754_zero s => sign_bit s
  | S754_infinity s => sign_bit s + 2047 * 2 ^ 52
  | S754_nan => 2047 * 2 ^ 52 + 2 ^ 51
  | S754_finite s m e =>
      if Zpos (digits2_pos m) =? prec
      then sign_bit s + (e + 1075) * 2 ^ 52 + (Zpos m - 2 ^ 52)
      else sign_bit s + Zpos m
  end.

Definition of_bits (b : Z) : number :=
  let s := Z.testbit b 63 in
  let ex := Z.land (Z.shiftr b 52) 2047 in
  let frac := Z.land b (2 ^ 52 - 1) in
  if ex =? 0 then
    match frac with
    | Zpos m => S754_finite s m (-1074)
    | _ => S754_zero s
    end
  else if ex =? 2047 then
    if frac =? 0 then S754_infinity s else S754_nan
  else
    match frac + 2 ^ 52 with
    | Zpos m => S754_finite s m (ex - 1075)
    | _ => S754_nan
    end.

(** The high word as a signed 32-bit integer, and the low word. *)
Definition high_word (x : number) : Z :=
  let h := Z.shiftr (bits x) 32 in
  if 2 ^ 31 <=? h then h - 2 ^ 32 else h.

Definition low_word (x : number) : Z := Z.land (bits x) (2 ^ 32 - 1).

Definition set_high_word (x : number) (h : Z) : number :=
  of_bits (Z.land h (2 ^ 32 - 1) * 2 ^ 32 + low_word x).

(** ** The Math object

    [floor], [round] and [abs] are exact. [pow10 y] is [Math.pow(10, y)],
    the only form in which the component calls [Math.pow]: the exact power
    rounded to the nearest number when [y] is integral (ECMA-262 leaves
    other exponents implementation-approximated; the component passes a
    result of [Math.floor] or a count of characters). [log] follows the
    algorithm of fdlibm's [e_log.c], the one V8 runs. *)

Module Math.

Definition abs (x : number) : number := SFabs x.

Definition floor (x : number) : number :=
  match x with
  | S754_finite s m e =>
      if 0 <=? e then x
      else
        let q := cond_Zopp s (Zpos m) / 2 ^ (- e) in
        if q =? 0 then S754_zero false else of_Z q
  | _ => x
  end.

(** The closest integer, the one nearer to [+Infinity] in a tie. *)
Definition round (x : number) : number :=
  match x with
  | S754_finite s m e =>
      if 0 <=? e then x
      else
        let d := 2 ^ (- e) in
        let q := (2 * cond_Zopp s (Zpos m) + d) / (2 * d) in
        if q =? 0 then S754_zero s else of_Z q
  | _ => x
  end.

(** The integer a number denotes, when it denotes one. *)
Definition integral (x : number) : option Z :=
  match x with
  | S754_zero _ => Some 0
  | S754_finite s m e =>
      if 0 <=? e then Some (cond_Zopp s (Zpos m * 2 ^ e))
      else if Zpos m mod 2 ^ (- e) =? 0
           then Some (cond_Zopp s (Zpos m / 2 ^ (- e)))
           else None
  | _ => None
  end.

Definition pow10 (y : number) : number :=
  match y with
  | S754_nan => NaN
  | S754_zero _ => of_Z 1
  | S754_infinity s => if s then S754_zero false else Infinity
  | S754_finite _ _ _ =>
      match integral y with
      | Some n =>
          if 400 <? n then Infinity
          else if n <? -400 then S754_zero false
          else if 0 <=? n then of_ratio false (Z.to_pos (10 ^ n)) 1
          else of_ratio false 1 (Z.to_pos (10 ^ (- n)))
      | None => NaN
      end
  end.

Definition LN10 : number := of_bits 0x40026BB1BBB55516.

Definition ln2_hi : number := of_bits 0x3FE62E42FEE00000.
Definition ln2_lo : number := of_bits 0x3DEA39EF35793C76.
Definition two54 : number := of_bits 0x4350000000000000.
Definition Lg1 : number := of_bits 0x3FE5555555555593.
Definition Lg2 : number := of_bits 0x3FD999999997FA04.
Definition Lg3 : number := of_bits 0x3FD2492494229359.
Definition Lg4 : number := of_bits 0x3FCC71C51D8E78AF.
Definition Lg5 : number := of_bits 0x3FC7466496CB03DE.
Definition Lg6 : number := of_bits 0x3FC39A09D078C69F.
Definition Lg7 : number := of_bits 0x3FC2F112DF3E5244.
Definition one_third : number := of_bits 0x3FD5555555555555.
Definition half : number := of_bits 0x3FE0000000000000.
Definition one : number := of_bits 0x3FF0000000000000.
Definition two : number := of_bits 0x4000000000000000.

(** [x] is positive and at least [2^-1022]; [k0] is the scaling already
    applied to it. *)
Definition log_normal (k0 : Z) (x : number) : number :=
  let hx := high_word x in
  if 0x7FF00000 <=? hx then add x x
  else
    let k := k0 + Z.shiftr hx 20 - 1023 in
    let hx := Z.land hx 0x000FFFFF in
    let i := Z.land (hx + 0x95F64) 0x100000 in
    let x := set_high_word x (Z.lor hx (Z.lxor i 0x3FF00000)) in
    let k := k + Z.shiftr i 20 in
    let f := sub x one in
    let dk := of_Z k in
    if Z.land 0x000FFFFF (2 + hx) <? 3 then
      if eq_num f (S754_zero false) then
        if k =? 0 then S754_zero false
        else add (mul dk ln2_hi) (mul dk ln2_lo)
      else
        let R := mul (mul f f) (sub half (mul one_third f)) in
        if k =? 0 then sub f R
        else sub (mul dk ln2_hi) (sub (sub R (mul dk ln2_lo)) f)
    else
      let s := div f (add two f) in
      let z := mul s s in
      let i := hx - 0x6147A in
      let w := mul z z in
      let j := 0x6B851 - hx in
      let t1 := mul w (add Lg2 (mul w (add Lg4 (mul w Lg6)))) in
      let t2 := mul z (add Lg1 (mul w (add Lg3 (mul w (add Lg5 (mul w Lg7)))))) in
      let R := add t2 t1 in
      if 0 <? Z.lor i j then
        let hfsq := mul (mul half f) f in
        if k =? 0 then sub f (sub hfsq (mul s (add hfsq R)))
        else sub (mul dk ln2_hi)
                 (sub (sub hfsq (add (mul s (add hfsq R)) (mul dk ln2_lo))) f)
      else
        if k =? 0 then sub f (mul s (sub f R))
        else sub (mul dk ln2_hi)
                 (sub (sub (mul s (sub f R)) (mul dk ln2_lo)) f).

Definition log (x : number) : number :=
  let hx := high_word x in
  if hx <? 0x00100000 then
    if Z.lor (Z.land hx 0x7FFFFFFF) (low_word x) =? 0
    then S754_infinity true
    else if hx <? 0 then NaN
    else log_normal (-54) (mul x two54)
  else log_normal 0 x.

End Math.

(** ** Values, objects and the heap

    The slot a numeric field is bound to holds a number, or is [null] or
    missing ([undefined]): the cases the component tells apart. An object
    is a finite map from property names to such values, the heap maps
    references to objects; a reference without an entry denotes an object
    without properties. *)

Inductive jsvalue :=
  | Undefined
  | Null
  | Num (x : number).

Abbreviation ref := positive.
Abbreviation ident := positive.
Abbreviation listener := nat.
Abbreviation jsobject := (gmap string jsvalue).
Abbreviation heap_t := (gmap ref (gmap string jsvalue)).

Definition get_property (h : heap_t) (o : ref) (p : string) : jsvalue :=
  default Undefined (default ∅ (h !! o) !! p).

Definition set_property (h : heap_t) (o : ref) (p : string) (v : jsvalue) : heap_t :=
  <[o := <[p := v]> (default ∅ (h !! o))]> h.

(** [typeof v === "number"] *)
Definition is_number (v : jsvalue) : bool :=
  match v with Num _ => true | _ => false end.

(** [a === b] *)
Definition strict_equals (a b : jsvalue) : bool :=
  match a, b with
  | Undefined, Undefined => true
  | Null, Null => true
  | Num x, Num y => eq_num x y
  | _, _ => false
  end.

(** [ToNumber], as the [+] of the drag gesture applies it. *)
Definition ToNumber (v : jsvalue) : number :=
  match v with
  | Undefined => NaN
  | Null => S754_zero false
  | Num x => x
  end.

(** [ToBoolean] of a number: [0], [-0] and [NaN] are falsy. *)
Definition ToBoolean (x : number) : bool :=
  match x with
  | S754_zero _ => false
  | S754_nan => false
  | _ => true
  end.


(** ** The component *)

Record IInspectorNumberProps := {
  object : ref;
  property : string;
  label : string;
  step : option number;
  min : option number;
  max : option number;
  noSlider : bool;
  noLabel : bool;
  defaultValue : option number;
  noUndoRedo : bool;
  (** whether the optional callbacks are supplied *)
  onChange : bool;
  onFinishChange : bool
}.

Record IInspectorNumberState := {
  value : string
}.

Record InspectorNumber := {
  (** the identity of the instance, what [this] denotes as a caller tag *)
  uid : ident;
  props : IInspectorNumberProps;
  state : IInspectorNumberState;
  _mouseMoveListener : option listener;
  _mouseUpListener : option listener;
  _inspectorName : option string;
  (** whether the reference to the input element is attached *)
  _input : bool;
  _precision : Z;
  _impliedStep : number;
  _isFocused : bool;
  _lastMousePosition : number;
  _initialValue : jsvalue
}.

(** What a handler does to the world outside the component. *)
Inductive target :=
  | TObject (r : ref)
  | TValue (v : jsvalue).

Inductive effect :=
  | CallOnChange (v : number)
  | CallOnFinishChange (v old : jsvalue)
  | CallNotifyChange (t : target) (caller : ident)
  | CallObserver (s : ident)
  | CallAddEventListener (type : string) (l : listener)
  | CallRemoveEventListener (type : string) (l : listener).

Record NotificationHandler := {
  subscriber : ident;
  observed : target
}.

Record State := {
  this : InspectorNumber;
  heap : heap_t;
  (** the other mounted [InspectorNumber] components *)
  mounted : gmap ident InspectorNumber;
  (** the registrations of [InspectorNotifier] *)
  handlers : list NotificationHandler;
  (** the listeners attached to the document *)
  document : list (string * listener);
  (** whether the input element of [this] has the focus *)
  focused : bool;
  (** the next unused listener identity *)
  fresh : listener;
  (** the effects so far, oldest first *)
  trace : list effect
}.

(** *** Field updates *)

Definition with_state (c : InspectorNumber) (s : IInspectorNumberState) : InspectorNumber :=
  {| uid := uid c; props := props c; state := s;
     _mouseMoveListener := _mouseMoveListener c;
     _mouseUpListener := _mouseUpListener c;
     _inspectorName := _inspectorName c; _input := _input c;
     _precision := _precision c; _impliedStep := _impliedStep c;
     _isFocused := _isFocused c;
     _lastMousePosition := _lastMousePosition c;
     _initialValue := _initialValue c |}.

Definition with_listeners (c : InspectorNumber) (move up : option listener) : InspectorNumber :=
  {| uid := uid c; props := props c; state := state c;
     _mouseMoveListener := move;
     _mouseUpListener := up;
     _inspectorName := _inspectorName c; _input := _input c;
     _precision := _precision c; _impliedStep := _impliedStep c;
     _isFocused := _isFocused c;
     _lastMousePosition := _lastMousePosition c;
     _initialValue := _initialValue c |}.

Definition with_mount (c : InspectorNumber) (name : option string) (input : bool) : InspectorNumber :=
  {| uid := uid c; props := props c; state := state c;
     _mouseMoveListener := _mouseMoveListener c;
     _mouseUpListener := _mouseUpListener c;
     _inspectorName := name; _input := input;
     _precision := _precision c; _impliedStep := _impliedStep c;
     _isFocused := _isFocused c;
     _lastMousePosition := _lastMousePosition c;
     _initialValue := _initialValue c |}.

Definition with_isFocused (c : InspectorNumber) (b : bool) : InspectorNumber :=
  {| uid := uid c; props := props c; state := state c;
     _mouseMoveListener := _mouseMoveListener c;
     _mouseUpListener := _mouseUpListener c;
     _inspectorName := _inspectorName c; _input := _input c;
     _precision := _precision c; _impliedStep := _impliedStep c;
     _isFocused := b;
     _lastMousePosition := _lastMousePosition c;
     _initialValue := _initialValue c |}.

Definition with_lastMousePosition (c : InspectorNumber) (y : number) : InspectorNumber :=
  {| uid := uid c; props := props c; state := state c;
     _mouseMoveListener := _mouseMoveListener c;
     _mouseUpListener := _mouseUpListener c;
     _inspectorName := _inspectorName c; _input := _input c;
     _precision := _precision c; _impliedStep := _impliedStep c;
     _isFocused := _isFocused c;
     _lastMousePosition := y;
     _initialValue := _initialValue c |}.

Definition with_initialValue (c : InspectorNumber) (v : jsvalue) : InspectorNumber :=
  {| uid := uid c; props := props c; state := state c;
     _mouseMoveListener := _mouseMoveListener c;
     _mouseUpListener := _mouseUpListener c;
     _inspectorName := _inspectorName c; _input := _input c;
     _precision := _precision c; _impliedStep := _impliedStep c;
     _isFocused := _isFocused c;
     _lastMousePosition := _lastMousePosition c;
     _initialValue := v |}.

Definition set_this (c : InspectorNumber) (st : State) : State :=
  {| this := c; heap := heap st; mounted := mounted st;
     handlers := handlers st; document := document st;
     focused := focused st; fresh := fresh st; trace := trace st |}.

Definition set_heap (h : heap_t) (st : State) : State :=
  {| this := this st; heap := h; mounted := mounted st;
     handlers := handlers st; document := document st;
     focused := focused st; fresh := fresh st; trace := trace st |}.

Definition set_mounted (m : gmap ident InspectorNumber) (st : State) : State :=
  {| this := this st; heap := heap st; mounted := m;
     handlers := handlers st; document := document st;
     focused := focused st; fresh := fresh st; trace := trace st |}.

Definition set_handlers (hs : list NotificationHandler) (st : State) : State :=
  {| this := this st; heap := heap st; mounted := mounted st;
     handlers := hs; document := document st;
     focused := focused st; fresh := fresh st; trace := trace st |}.

Definition set_document (d : list (string * listener)) (st : State) : State :=
  {| this := this st; heap := heap st; mounted := mounted st;
     handlers := handlers st; document := d;
     focused := focused st; fresh := fresh st; trace := trace st |}.

Definition set_fresh (n : listener) (st : State) : State :=
  {| this := this st; heap := heap st; mounted := mounted st;
     handlers := handlers st; document := document st;
     focused := focused st; fresh := n; trace := trace st |}.

Definition set_focused (b : bool) (st : State) : State :=
  {| this := this st; heap := heap st; mounted := mounted st;
     handlers := handlers st; document := document st;
     focused := b; fresh := fresh st; trace := trace st |}.

Definition emit (e : effect) (st : State) : State :=
  {| this := this st; heap := heap st; mounted := mounted st;
     handlers := handlers st; document := document st;
     focused := focused st; fresh := fresh st; trace := trace st ++ [e] |}.

(** [this.setState({ value })] *)
Definition setState (v : string) (st : State) : State :=
  set_this (with_state (this st) {| value := v |}) st.

(** [this.props.object[this.props.property]] *)
Definition read_bound (c : InspectorNumber) (h : heap_t) : jsvalue :=
  get_property h (object (props c)) (property (props c)).

(** *** The document *)

Definition same_listener (type : string) (l : listener) (e : string * listener) : bool :=
  String.eqb (fst e) type && Nat.eqb (snd e) l.

Definition addEventListener (type : string) (l : listener) (st : State) : State :=
  emit (CallAddEventListener type l)
       (set_document (document st ++ [(type, l)]) st).

(** Removing a listener that is not attached changes nothing. *)
Definition removeEventListener (type : string) (l : listener) (st : State) : State :=
  emit (CallRemoveEventListener type l)
       (set_document (List.filter (fun e => negb (same_listener type l e)) (document st)) st).

(** A new function object, as an arrow function evaluates to. *)
Definition new_listener (st : State) : listener * State :=
  (fresh st, set_fresh (S (fresh st)) st).

(** *** Static helpers *)

(** [s.indexOf(c)], [-1] when [c] does not occur. *)
Fixpoint indexOf (s : string) (c : ascii) : Z :=
  match s with
  | EmptyString => -1
  | String a s' =>
      if Ascii.eqb a c then 0
      else let i := indexOf s' c in if i <? 0 then -1 else i + 1
  end.

Definition _NumDecimals (value : number) : Z :=
  let valueString := toString value in
  let dotIndex := indexOf valueString "." in
  if -1 <? dotIndex then strlen valueString - dotIndex - 1 else 0.

Definition _RoundToDecimal (value : number) (decimals : Z) : number :=
  let tenTo := Math.pow10 (of_Z decimals) in
  div (Math.round (mul value tenTo)) tenTo.

(** *** Methods *)

Definition _getFinalValueString (c : InspectorNumber) (value : jsvalue) : string :=
  match value with
  | Undefined | Null => "0"
  | Num v =>
      let decimals := _NumDecimals v in
      if _precision c <? decimals then toFixed v (Z.to_nat (_precision c))
      else toString v
  end.

Inductive result (A : Type) :=
  | Ok (a : A)
  | Throw (message : string).
Arguments Ok {A} a.
Arguments Throw {A} message.

(** [new InspectorNumber(props)]: the instance and the heap, which is
    written when the default value is installed. *)
Definition constructor (u : ident) (p : IInspectorNumberProps) (h : heap_t)
  : result (InspectorNumber * heap_t) :=
  let value := get_property h (object p) (property p) in
  let '(value, h) :=
    match defaultValue p with
    | Some d =>
        if negb (is_number value)
        then (Num d, set_property h (object p) (property p) (Num d))
        else (value, h)
    | None => (value, h)
    end in
  match value with
  | Num v =>
      let derived :=
        if eq_num v (of_Z 0) then of_Z 1
        else div (Math.pow10 (Math.floor (div (Math.log (Math.abs v)) Math.LN10)))
                 (of_Z 10) in
      let impliedStep :=
        match step p with
        | Some s => if ToBoolean s then s else derived
        | None => derived
        end in
      let c :=
        {| uid := u; props := p; state := {| value := "" |};
           _mouseMoveListener := None; _mouseUpListener := None;
           _inspectorName := None; _input := false;
           _precision := _NumDecimals impliedStep;
           _impliedStep := impliedStep;
           _isFocused := false;
           _lastMousePosition := of_Z 0;
           _initialValue := Num v |} in
      Ok (with_state c {| value := _getFinalValueString c (Num v) |}, h)
  | _ => Throw "Only number are supported for InspectorNumber components."
  end.

(** The callback [componentDidMount] registers with the notifier. *)
Definition componentDidMount_callback (c : InspectorNumber) (h : heap_t) : InspectorNumber :=
  let value := read_bound c h in
  with_state c {| value := _getFinalValueString c value |}.

(** [InspectorNotifier] is imported from [../notifier], which is not
    among the sources; its three operations follow section 4.1 of the
    specification. A registration is owned by a subscriber and names a
    target. The callback of an [InspectorNumber] is the one its
    [componentDidMount] registers; what the callbacks of other subscribers
    do is outside the model, their invocation is recorded. *)
Module InspectorNotifier.

(** Modelled from the spec: the notifier's comparison of targets, which
    is by identity: the same object, or the same primitive value. *)
Definition same_target (a b : target) : bool :=
  match a, b with
  | TObject r, TObject r' => Pos.eqb r r'
  | TValue v, TValue v' => strict_equals v v'
  | _, _ => false
  end.

Definition owned_by (s : ident) (h : NotificationHandler) : bool :=
  Pos.eqb (subscriber h) s.

(** Modelled from the spec: [Register] of the missing notifier records
    the callback for the target under the subscriber, replacing any
    previous registration of that subscriber. *)
Definition Register (s : ident) (t : target) (hs : list NotificationHandler)
  : list NotificationHandler :=
  let h := {| subscriber := s; observed := t |} in
  if existsb (owned_by s) hs
  then map (fun h' => if owned_by s h' then h else h') hs
  else hs ++ [h].

(** Modelled from the spec: [Unregister] of the missing notifier removes
    every registration the subscriber owns, and is a no-op when there is
    none. *)
Definition Unregister (s : ident) (hs : list NotificationHandler)
  : list NotificationHandler :=
  List.filter (fun h => negb (owned_by s h)) hs.

(** Modelled from the spec: the invocation of one registered callback,
    which re-reads the property and updates the display of its owner. *)
Definition invoke (h : NotificationHandler) (st : State) : State :=
  let st := emit (CallObserver (subscriber h)) st in
  if Pos.eqb (subscriber h) (uid (this st))
  then set_this (componentDidMount_callback (this st) (heap st)) st
  else set_mounted
         (alter (fun c => componentDidMount_callback c (heap st))
                (subscriber h) (mounted st)) st.

Definition notified (t : target) (caller : ident) (h : NotificationHandler) : bool :=
  same_target (observed h) t && negb (owned_by caller h).

(** Modelled from the spec: [NotifyChange] of the missing notifier
    invokes, before it returns and in registration order, every callback
    registered for the target except the one owned by the caller. *)
Definition NotifyChange (t : target) (caller : ident) (st : State) : State :=
  fold_left (fun st h => if notified t caller h then invoke h st else st)
            (handlers st)
            (emit (CallNotifyChange t caller) st).

End InspectorNotifier.

(** *** Life cycle *)

(** [componentDidMount]; the name of the current inspector is an
    external datum. *)
Definition componentDidMount (currentInspectorName : option string) (st : State) : State :=
  let c := this st in
  let st := set_this (with_mount c currentInspectorName (_input c)) st in
  set_handlers
    (InspectorNotifier.Register (uid c) (TObject (object (props c))) (handlers st)) st.

Definition componentWillUnmount (st : State) : State :=
  set_handlers (InspectorNotifier.Unregister (uid (this st)) (handlers st)) st.

(** The [ref] callback of [render], which stores the input element. *)
Definition attach_input (st : State) : State :=
  let c := this st in
  set_this (with_mount c (_inspectorName c) true) st.

(** *** Event handlers *)

Definition _handleInputFocused (st : State) : State :=
  set_this (with_isFocused (this st) true) st.

Definition _handleValueChanged (value : string) (fromMouseEvent : bool) (st : State) : State :=
  let c := this st in
  if String.eqb value "" then setState value st
  else
    let parsedValue := parseFloat value in
    let parsedValue :=
      match min (props c) with
      | Some m => if lt parsedValue m then m else parsedValue
      | None => parsedValue
      end in
    let parsedValue :=
      match max (props c) with
      | Some M => if gt parsedValue M then M else parsedValue
      | None => parsedValue
      end in
    let st := set_heap (set_property (heap st) (object (props c)) (property (props c))
                                     (Num parsedValue)) st in
    let st :=
      if fromMouseEvent
      then setState (toString (_RoundToDecimal parsedValue (_precision c))) st
      else setState value st in
    let st := if onChange (props c) then emit (CallOnChange parsedValue) st else st in
    InspectorNotifier.NotifyChange (TValue (read_bound c (heap st))) (uid c) st.

Definition _handleSliderChanged (v : number) (st : State) : State :=
  _handleValueChanged (toString v) true st.

Definition _handleValueFinishChanged (st : State) : State :=
  let c := this st in
  let value := read_bound c (heap st) in
  if strict_equals value (_initialValue c) then st
  else
    let st :=
      if onFinishChange (props c)
      then emit (CallOnFinishChange value (_initialValue c)) st
      else st in
    let st := InspectorNotifier.NotifyChange (TObject (object (props c))) (uid c) st in
    let st := set_this (with_initialValue (this st) value) st in
    setState (_getFinalValueString (this st) value) st.

Definition _handleInputBlurred (st : State) : State :=
  let st := set_this (with_isFocused (this st) false) st in
  _handleValueFinishChanged st.

(** The listener [_handleInputClicked] attaches for [mousemove]. *)
Definition mouseMoveListener (pageY : number) (st : State) : State :=
  let c := this st in
  let delta := sub (_lastMousePosition c) pageY in
  let newValue := add (ToNumber (read_bound c (heap st))) (mul delta (_impliedStep c)) in
  let st := _handleValueChanged (toString newValue) true st in
  set_this (with_lastMousePosition (this st) pageY) st.

Definition _handleInputClicked (pageY : number) (st : State) : State :=
  if negb (_isFocused (this st)) then st
  else
    let st := set_this (with_lastMousePosition (this st) pageY) st in
    let '(move, st) := new_listener st in
    let st := set_this (with_listeners (this st) (Some move) (_mouseUpListener (this st))) st in
    let st := addEventListener "mousemove" move st in
    let '(up, st) := new_listener st in
    let st := set_this (with_listeners (this st) (_mouseMoveListener (this st)) (Some up)) st in
    addEventListener "mouseup" up st.

Definition _handleMouseUp (st : State) : State :=
  let st :=
    match _mouseMoveListener (this st) with
    | Some l => removeEventListener "mousemove" l st
    | None => st
    end in
  let st :=
    match _mouseUpListener (this st) with
    | Some l => removeEventListener "mouseup" l st
    | None => st
    end in
  let st := set_this (with_listeners (this st) None None) st in
  _handleValueFinishChanged st.

(** [HTMLElement.blur()]: an element that has the focus loses it, and the
    [blur] event reaches the [onBlur] handler before the call returns. *)
Definition blur (st : State) : State :=
  if focused st then _handleInputBlurred (set_focused false st) else st.

Definition _handleEnterKeyPressed (st : State) : State :=
  let st := if _input (this st) then blur st else st in
  _handleValueFinishChanged st.

(** *** The wiring of [render] and of the document listeners *)

Inductive event :=
  | Focus
  | Blur
  | Input (text : string)
  | Slide (v : number)
  | MouseDown (pageY : number)
  | KeyDown (key : string)
  | MouseMove (pageY : number)
  | MouseUp.

(** The slider is rendered when both bounds are given and it is not
    switched off. *)
Definition has_slider (p : IInspectorNumberProps) : bool :=
  match min p, max p with
  | Some _, Some _ => negb (noSlider p)
  | _, _ => false
  end.

(** An event on the document runs the listeners attached for its type
    when it is dispatched, those removed in the meantime left out. Every
    listener this component attaches for a type has the same body. *)
Definition dispatch_document (type : string) (body : State -> State) (st : State) : State :=
  fold_left
    (fun st e =>
       if String.eqb (fst e) type && existsb (same_listener type (snd e)) (document st)
       then body st else st)
    (document st) st.

Definition dispatch (e : event) (st : State) : State :=
  match e with
  | Focus => _handleInputFocused (set_focused true st)
  | Blur => blur st
  | Input text => _handleValueChanged text false st
  | Slide v => if has_slider (props (this st)) then _handleSliderChanged v st else st
  | MouseDown pageY => _handleInputClicked pageY st
  | KeyDown key => if String.eqb key "Enter" then _handleEnterKeyPressed st else st
  | MouseMove pageY => dispatch_document "mousemove" (mouseMoveListener pageY) st
  | MouseUp => dispatch_document "mouseup" _handleMouseUp st
  end.

Definition run (es : list event) (st : State) : State :=
  fold_left (fun st e => dispatch e st) es st.

(** A world with one freshly constructed component. *)
Definition initial (c : InspectorNumber) (h : heap_t) : State :=
  {| this := c; heap := h; mounted := ∅; handlers := [];
     document := []; focused := false; fresh := O; trace := [] |}.

(** ** Specification-level notions *)

(** [clamp(v, m, M)] for a range [m <= M]. *)
Definition clamp (v m M : number) : number :=
  if lt v m then m else if lt M v then M else v.

(** What the two bound checks of [_handleValueChanged] make of a parsed
    value, for bounds that may be absent. *)
Definition apply_bounds (lo hi : option number) (v : number) : number :=
  let v := match lo with Some m => if lt v m then m else v | None => v end in
  match hi with Some M => if gt v M then M else v | None => v end.

(** The number a text denotes for the component. *)
Definition parsed (c : InspectorNumber) (text : string) : number :=
  apply_bounds (min (props c)) (max (props c)) (parseFloat text).

(** The three origins of a value change, the text each hands to
    [_handleValueChanged], and the handler each runs. *)
Inductive origin :=
  | Keyboard (text : string)
  | Slider (v : number)
  | Drag (pageY : number).

Definition text_of (o : origin) (st : State) : string :=
  match o with
  | Keyboard text => text
  | Slider v => toString v
  | Drag pageY =>
      toString (add (ToNumber (read_bound (this st) (heap st)))
                    (mul (sub (_lastMousePosition (this st)) pageY)
                         (_impliedStep (this st))))
  end.

Definition from_gesture (o : origin) : bool :=
  match o with Keyboard _ => false | _ => true end.

Definition change (o : origin) (st : State) : State :=
  match o with
  | Keyboard text => _handleValueChanged text false st
  | Slider v => _handleSliderChanged v st
  | Drag pageY => mouseMoveListener pageY st
  end.

(** Projections of a trace. *)
Definition onChange_calls (t : list effect) : list number :=
  omap (fun e => match e with CallOnChange v => Some v | _ => None end) t.

Definition onFinishChange_calls (t : list effect) : list (jsvalue * jsvalue) :=
  omap (fun e => match e with CallOnFinishChange v old => Some (v, old) | _ => None end) t.

Definition notifications (t : list effect) : list (target * ident) :=
  omap (fun e => match e with CallNotifyChange tg c => Some (tg, c) | _ => None end) t.

Definition observer_calls (t : list effect) : list ident :=
  omap (fun e => match e with CallObserver s => Some s | _ => None end) t.

Definition removals (t : list effect) : list (string * listener) :=
  omap (fun e => match e with CallRemoveEventListener ty l => Some (ty, l) | _ => None end) t.

(** The effects a handler adds to the trace. *)
Definition emitted (before after : State) : list effect :=
  drop (length (trace before)) (trace after).

(** [Number.isInteger] *)
Definition isInteger (x : number) : bool :=
  match Math.integral x with Some _ => true | None => false end.

Definition contains_dot (s : string) : bool := -1 <? indexOf s ".".

(** *** A component for the examples: [{ x: 1 }] edited between 0 and 10 *)

Definition demo_props : IInspectorNumberProps :=
  {| object := 1%positive; property := "x"; label := "X";
     step := None; min := Some (num "0"); max := Some (num "10");
     noSlider := false; noLabel := false; defaultValue := None;
     noUndoRedo := false; onChange := true; onFinishChange := true |}.

Definition demo_heap : heap_t := set_property ∅ 1%positive "x" (Num (num "1")).

Definition demo_component : InspectorNumber :=
  {| uid := 7%positive; props := demo_props; state := {| value := "1" |};
     _mouseMoveListener := None; _mouseUpListener := None;
     _inspectorName := None; _input := false;
     _precision := 1; _impliedStep := num "0.1";
     _isFocused := false; _lastMousePosition := num "0";
     _initialValue := Num (num "1") |}.

(** A second component on the same property, already mounted. *)
Definition demo_peer : InspectorNumber :=
  {| uid := 8%positive; props := demo_props; state := {| value := "1" |};
     _mouseMoveListener := None; _mouseUpListener := None;
     _inspectorName := None; _input := true;
     _precision := 1; _impliedStep := num "0.1";
     _isFocused := false; _lastMousePosition := num "0";
     _initialValue := Num (num "1") |}.

Definition demo : State :=
  componentDidMount None (attach_input (initial demo_component demo_heap)).

Definition demo_shared : State :=
  componentDidMount None
    (attach_input
       {| this := demo_component; heap := demo_heap;
          mounted := {[ 8%positive := demo_peer ]};
          handlers := [ {| subscriber := 8%positive; observed := TObject 1%positive |} ];
          document := []; focused := false; fresh := O; trace := [] |}).

(** The statements of [_handleMouseUp] that precede the commit step. *)
Definition teardown (st : State) : State :=
  let st :=
    match _mouseMoveListener (this st) with
    | Some l => removeEventListener "mousemove" l st
    | None => st
    end in
  let st :=
    match _mouseUpListener (this st) with
    | Some l => removeEventListener "mouseup" l st
    | None => st
    end in
  set_this (with_listeners (this st) None None) st.

Definition present (type : string) (l : option listener) : list (string * listener) :=
  match l with Some l => [(type, l)] | None => [] end.

Definition detached (rs : list (string * listener)) (e : string * listener) : bool :=
  negb (existsb (fun r => same_listener (fst r) (snd r) e) rs).

(** Variations of the example: an explicit step, and a property that is 0. *)
Definition with_step (p : IInspectorNumberProps) (s : option number) : IInspectorNumberProps :=
  {| object := object p; property := property p; label := label p;
     step := s; min := min p; max := max p;
     noSlider := noSlider p; noLabel := noLabel p; defaultValue := defaultValue p;
     noUndoRedo := noUndoRedo p; onChange := onChange p;
     onFinishChange := onFinishChange p |}.

Definition zero_heap : heap_t := set_property ∅ 1%positive "x" (Num (num "0")).


(** The implied step derived from an initial value. *)
Definition derived_step (v : number) : number :=
  div (Math.pow10 (Math.floor (div (Math.log (Math.abs v)) Math.LN10))) (of_Z 10).







(** A component of precision 0, as a property that is 0 gives. *)
Definition whole_component : InspectorNumber :=
  {| uid := 7%positive; props := demo_props; state := {| value := "0" |};
     _mouseMoveListener := None; _mouseUpListener := None;
     _inspectorName := None; _input := false;
     _precision := 0; _impliedStep := num "1";
     _isFocused := false; _lastMousePosition := num "0";
     _initialValue := Num (num "0") |}.

Definition tiny_heap : heap_t := set_property ∅ 1%positive "x" (Num (num "1e-7")).

(** Whether some multiple of [10^q] rounds to the number. *)
Definition hit (iv : interval) (q : Z) : bool :=
  (least_multiple iv q <=? greatest_multiple iv q) && (1 <=? greatest_multiple iv q).

(** The decimal count of a rendering, as [_NumDecimals] reads it off. *)
Definition decimals_of (s : string) : Z :=
  if -1 <? indexOf s "." then strlen s - indexOf s "." - 1 else 0.

(** ** Notions for the properties of event sequences *)

(** What no event changes: the identity, the props, and the two fields
    the constructor derives. *)
Definition same_configuration (c c' : InspectorNumber) : Prop :=
  uid c' = uid c /\ props c' = props c /\
  _precision c' = _precision c /\ _impliedStep c' = _impliedStep c.

(** A step that keeps the configuration and the registrations, writes
    at most the bound property, and keeps a number there. *)
Definition confined (st st' : State) : Prop :=
  same_configuration (this st) (this st') /\
  handlers st' = handlers st /\
  (forall o q, object (props (this st)) <> o \/ property (props (this st)) <> q ->
               get_property (heap st') o q = get_property (heap st) o q) /\
  (is_number (read_bound (this st) (heap st)) = true ->
   is_number (read_bound (this st) (heap st')) = true).

(** Every listener attached to the document is older than the next
    listener identity. *)
Definition listeners_known (st : State) : bool :=
  forallb (fun e => Nat.ltb (snd e) (fresh st)) (document st).

(** A variation of the example: a default value. *)
Definition with_default (p : IInspectorNumberProps) (d : option number) : IInspectorNumberProps :=
  {| object := object p; property := property p; label := label p;
     step := step p; min := min p; max := max p;
     noSlider := noSlider p; noLabel := noLabel p; defaultValue := d;
     noUndoRedo := noUndoRedo p; onChange := onChange p;
     onFinishChange := onFinishChange p |}.

(** The example component after the property was set to 8 from
    outside. *)
Definition stale_component : State :=
  set_heap (set_property demo_heap 1%positive "x" (Num (num "8")))
           (attach_input (initial demo_component demo_heap)).

(** * Properties *)

Local Open Scope list_scope.
Local Open Scope Z_scope.

(** The built-ins are evaluated on concrete numbers only. *)
Arguments toString : simpl never.
Arguments toFixed : simpl never.
Arguments parseFloat : simpl never.
Arguments of_Z : simpl never.
Arguments add : simpl never.
Arguments sub : simpl never.
Arguments mul : simpl never.
Arguments div : simpl never.
Arguments lt : simpl never.
Arguments gt : simpl never.
Arguments le : simpl never.
Arguments eq_num : simpl never.
Arguments Math.log : simpl never.
Arguments Math.pow10 : simpl never.
Arguments Math.floor : simpl never.
Arguments Math.round : simpl never.
Arguments Math.abs : simpl never.
Arguments _NumDecimals : simpl never.
Arguments _RoundToDecimal : simpl never.
Arguments _getFinalValueString : simpl never.
Arguments shortest : simpl never.
Arguments digits : simpl never.
Arguments digit_char : simpl never.

(** ** Numbers *)

Lemma SFcompare_antisym (x y : number) :
  SFcompare y x = option_map CompOpp (SFcompare x y).
Proof.
  destruct x as [sx|sx| |sx mx ex], y as [sy|sy| |sy my ey]; simpl;
    try reflexivity; try (destruct sx, sy; reflexivity);
    try (destruct sx; reflexivity); try (destruct sy; reflexivity).
  destruct sx, sy; simpl; try reflexivity;
    rewrite (Z.compare_antisym ey ex);
    destruct (ey ?= ex) eqn:E; simpl; try reflexivity;
    rewrite (Pos.compare_cont_antisym _ _ Eq); simpl;
    try rewrite CompOpp_involutive; reflexivity.
Qed.

Lemma le_not_gt (m M : number) : le m M = true -> lt M m = false.
Proof.
  unfold le, lt, SFleb, SFltb. rewrite (SFcompare_antisym m M).
  destruct (SFcompare m M) as [[]|]; simpl; congruence.
Qed.

Lemma lt_nan_l (x : number) : lt NaN x = false.
Proof. reflexivity. Qed.

Lemma lt_nan_r (x : number) : lt x NaN = false.
Proof. destruct x; reflexivity. Qed.

Lemma apply_bounds_nan (lo hi : option number) : apply_bounds lo hi NaN = NaN.
Proof.
  unfold apply_bounds, gt. destruct lo as [m|], hi as [M|];
    rewrite ?lt_nan_l, ?lt_nan_r; reflexivity.
Qed.

Lemma eq_num_refl (x : number) : is_nan x = false -> eq_num x x = true.
Proof.
  unfold eq_num, SFeqb. pose proof (SFcompare_antisym x x) as H.
  destruct x as [s|s| |s m e]; simpl in *; try congruence;
    try (destruct s; reflexivity).
  intros _. destruct s; rewrite Z.compare_refl;
    change (Pos.compare_cont Eq m m) with (m ?= m)%positive;
    rewrite Pos.compare_refl; reflexivity.
Qed.

Lemma strict_equals_refl (v : jsvalue) :
  v <> Num NaN -> strict_equals v v = true.
Proof.
  destruct v as [| |x]; simpl; try reflexivity.
  intros H. apply eq_num_refl. destruct x; try reflexivity.
  exfalso. apply H. reflexivity.
Qed.

(** The two checks of the handler clamp, for a range that is one. *)
Lemma apply_bounds_clamp (v m M : number) :
  le m M = true -> apply_bounds (Some m) (Some M) v = clamp v m M.
Proof.
  intros Hle. apply le_not_gt in Hle.
  unfold apply_bounds, clamp, gt, lt in *.
  destruct (SFltb v m); [|reflexivity].
  rewrite Hle. reflexivity.
Qed.

(** ** The heap *)

Lemma get_set_property (h : heap_t) (o : ref) (p : string) (v : jsvalue) :
  get_property (set_property h o p v) o p = v.
Proof.
  unfold get_property, set_property.
  rewrite lookup_insert_eq. simpl. rewrite lookup_insert_eq. reflexivity.
Qed.

Lemma get_set_property_other (h : heap_t) (o o' : ref) (p p' : string) (v : jsvalue) :
  o <> o' \/ p <> p' ->
  get_property (set_property h o p v) o' p' = get_property h o' p'.
Proof.
  intros H. unfold get_property, set_property.
  destruct (decide (o = o')) as [->|Ho].
  - rewrite lookup_insert_eq. simpl.
    rewrite lookup_insert_ne by (destruct H; congruence). reflexivity.
  - rewrite lookup_insert_ne by assumption. reflexivity.
Qed.

(** ** The notifier

    A notification leaves the heap, the document and the registrations
    alone; it adds the call and one invocation per notified observer to
    the trace; and it does not touch the component that is its caller. *)

Section Notify.
Variables (t : target) (caller : ident).

Let step_ (st : State) (h : NotificationHandler) : State :=
  if InspectorNotifier.notified t caller h then InspectorNotifier.invoke h st else st.

Lemma invoke_frame (h : NotificationHandler) (st : State) :
  heap (InspectorNotifier.invoke h st) = heap st /\
  handlers (InspectorNotifier.invoke h st) = handlers st /\
  document (InspectorNotifier.invoke h st) = document st /\
  focused (InspectorNotifier.invoke h st) = focused st /\
  fresh (InspectorNotifier.invoke h st) = fresh st /\
  uid (this (InspectorNotifier.invoke h st)) = uid (this st) /\
  trace (InspectorNotifier.invoke h st) = trace st ++ [CallObserver (subscriber h)].
Proof.
  unfold InspectorNotifier.invoke. simpl.
  destruct (Pos.eqb (subscriber h) (uid (this st))); simpl; repeat split; reflexivity.
Qed.

Lemma invoke_other (h : NotificationHandler) (st : State) :
  subscriber h <> uid (this st) ->
  this (InspectorNotifier.invoke h st) = this st.
Proof.
  intros Hne. unfold InspectorNotifier.invoke. simpl.
  destruct (Pos.eqb_spec (subscriber h) (uid (this st))); [contradiction|reflexivity].
Qed.

Lemma notify_fold_frame (hs : list NotificationHandler) (st : State) :
  let st' := fold_left step_ hs st in
  heap st' = heap st /\
  handlers st' = handlers st /\
  document st' = document st /\
  focused st' = focused st /\
  fresh st' = fresh st /\
  uid (this st') = uid (this st) /\
  trace st' =
    trace st ++ map (fun h => CallObserver (subscriber h))
                    (List.filter (InspectorNotifier.notified t caller) hs).
Proof.
  revert st. induction hs as [|h hs IH]; intros st; simpl.
  - rewrite app_nil_r. repeat split; reflexivity.
  - specialize (IH (step_ st h)). simpl in IH.
    destruct IH as (Hh & Hhs & Hd & Hf & Hn & Hu & Ht).
    rewrite Hh, Hhs, Hd, Hf, Hn, Hu, Ht. unfold step_.
    destruct (InspectorNotifier.notified t caller h); simpl.
    + destruct (invoke_frame h st) as (-> & -> & -> & -> & -> & -> & ->).
      rewrite <- app_assoc. repeat split; reflexivity.
    + repeat split; reflexivity.
Qed.

Lemma notify_fold_this (hs : list NotificationHandler) (st : State) :
  caller = uid (this st) ->
  this (fold_left step_ hs st) = this st.
Proof.
  revert st. induction hs as [|h hs IH]; intros st Hc; simpl; [reflexivity|].
  assert (Hstep : this (step_ st h) = this st).
  { unfold step_, InspectorNotifier.notified, InspectorNotifier.owned_by.
    destruct (InspectorNotifier.same_target (observed h) t); simpl; [|reflexivity].
    destruct (Pos.eqb_spec (subscriber h) caller) as [E|E]; simpl; [reflexivity|].
    apply invoke_other. congruence. }
  rewrite IH; [exact Hstep|]. rewrite Hstep. exact Hc.
Qed.

Lemma NotifyChange_frame (st : State) :
  let st' := InspectorNotifier.NotifyChange t caller st in
  heap st' = heap st /\
  handlers st' = handlers st /\
  document st' = document st /\
  focused st' = focused st /\
  fresh st' = fresh st /\
  uid (this st') = uid (this st) /\
  trace st' =
    trace st ++ CallNotifyChange t caller ::
      map (fun h => CallObserver (subscriber h))
          (List.filter (InspectorNotifier.notified t caller) (handlers st)).
Proof.
  unfold InspectorNotifier.NotifyChange.
  pose proof (notify_fold_frame (handlers st) (emit (CallNotifyChange t caller) st)) as H.
  simpl in H. destruct H as (Hh & Hhs & Hd & Hf & Hn & Hu & Ht).
  simpl. fold step_. rewrite Hh, Hhs, Hd, Hf, Hn, Hu, Ht, <- app_assoc.
  repeat split; reflexivity.
Qed.

Lemma NotifyChange_this (st : State) :
  caller = uid (this st) ->
  this (InspectorNotifier.NotifyChange t caller st) = this st.
Proof.
  intros Hc. unfold InspectorNotifier.NotifyChange. fold step_.
  rewrite notify_fold_this; [reflexivity | exact Hc].
Qed.

End Notify.

Lemma Unregister_idempotent (s : ident) (hs : list NotificationHandler) :
  InspectorNotifier.Unregister s (InspectorNotifier.Unregister s hs) =
  InspectorNotifier.Unregister s hs.
Proof.
  unfold InspectorNotifier.Unregister.
  induction hs as [|h hs IH]; simpl; [reflexivity|].
  destruct (InspectorNotifier.owned_by s h) eqn:E; simpl; [exact IH|].
  rewrite E. simpl. rewrite IH. reflexivity.
Qed.

Lemma Unregister_others (s : ident) (hs : list NotificationHandler) (h : NotificationHandler) :
  subscriber h <> s -> In h hs -> In h (InspectorNotifier.Unregister s hs).
Proof.
  intros Hne Hin. unfold InspectorNotifier.Unregister.
  apply filter_In. split; [exact Hin|].
  unfold InspectorNotifier.owned_by.
  destruct (Pos.eqb_spec (subscriber h) s); [contradiction|reflexivity].
Qed.

(** ** The value-change handler *)

Lemma handleValueChanged_empty (fromMouseEvent : bool) (st : State) :
  _handleValueChanged "" fromMouseEvent st = setState "" st.
Proof. reflexivity. Qed.

(** What the handler does with a text that is not empty: one write, one
    display update, the optional callback, one notification. *)
Lemma handleValueChanged_nonempty (text : string) (fromMouseEvent : bool) (st : State) :
  text <> "" ->
  let c := this st in
  let v := parsed c text in
  let st' := _handleValueChanged text fromMouseEvent st in
  heap st' = set_property (heap st) (object (props c)) (property (props c)) (Num v) /\
  this st' =
    with_state c {| value := if fromMouseEvent
                             then toString (_RoundToDecimal v (_precision c))
                             else text |} /\
  trace st' =
    trace st ++ (if onChange (props c) then [CallOnChange v] else []) ++
    CallNotifyChange (TValue (Num v)) (uid c) ::
      map (fun h => CallObserver (subscriber h))
          (List.filter (InspectorNotifier.notified (TValue (Num v)) (uid c)) (handlers st)) /\
  handlers st' = handlers st /\
  document st' = document st /\
  focused st' = focused st /\
  fresh st' = fresh st.
Proof.
  intros Hne c v st'. subst st'. unfold _handleValueChanged.
  apply String.eqb_neq in Hne. rewrite Hne. fold c.
  change (match max (props c) with
          | Some M =>
              if gt (match min (props c) with
                     | Some m => if lt (parseFloat text) m then m else parseFloat text
                     | None => parseFloat text
                     end) M
              then M
              else match min (props c) with
                   | Some m => if lt (parseFloat text) m then m else parseFloat text
                   | None => parseFloat text
                   end
          | None => match min (props c) with
                    | Some m => if lt (parseFloat text) m then m else parseFloat text
                    | None => parseFloat text
                    end
          end) with v.
  set (st1 := set_heap _ st).
  set (st2 := if fromMouseEvent then _ else _).
  set (st3 := if onChange (props c) then _ else _).
  assert (H3 : heap st3 = set_property (heap st) (object (props c)) (property (props c)) (Num v)
               /\ this st3 = with_state c {| value := if fromMouseEvent
                                                  then toString (_RoundToDecimal v (_precision c))
                                                  else text |}
               /\ trace st3 = trace st ++ (if onChange (props c) then [CallOnChange v] else [])
               /\ handlers st3 = handlers st /\ document st3 = document st
               /\ focused st3 = focused st /\ fresh st3 = fresh st).
  { subst st3 st2 st1.
    destruct (onChange (props c)), fromMouseEvent; simpl;
      rewrite ?app_nil_r; repeat split; reflexivity. }
  destruct H3 as (Hh & Hthis & Htr & Hhs & Hd & Hf & Hn).
  assert (Hread : read_bound c (heap st3) = Num v).
  { rewrite Hh. apply get_set_property. }
  rewrite Hread.
  destruct (NotifyChange_frame (TValue (Num v)) (uid c) st3)
    as (Hh' & Hhs' & Hd' & Hf' & Hn' & _ & Htr').
  rewrite Hh', Hhs', Hd', Hf', Hn', Htr', Htr, Hhs, <- app_assoc.
  rewrite NotifyChange_this by (rewrite Hthis; reflexivity).
  repeat split; assumption.
Qed.

Lemma emitted_app (st st' : State) (es : list effect) :
  trace st' = trace st ++ es -> emitted st st' = es.
Proof. intros H. unfold emitted. rewrite H. apply drop_app_length. Qed.

Lemma omap_observers {A : Type} (f : effect -> option A) (hs : list NotificationHandler) :
  (forall s, f (CallObserver s) = None) ->
  omap f (map (fun h => CallObserver (subscriber h)) hs) = [].
Proof.
  intros Hf. induction hs as [|h hs IH]; simpl; [reflexivity|].
  rewrite Hf. exact IH.
Qed.

Lemma change_nonempty (o : origin) (st : State) :
  text_of o st <> "" ->
  let c := this st in
  let v := parsed c (text_of o st) in
  let st' := change o st in
  heap st' = set_property (heap st) (object (props c)) (property (props c)) (Num v) /\
  value (state (this st')) =
    (if from_gesture o then toString (_RoundToDecimal v (_precision c)) else text_of o st) /\
  trace st' =
    trace st ++ (if onChange (props c) then [CallOnChange v] else []) ++
    CallNotifyChange (TValue (Num v)) (uid c) ::
      map (fun h => CallObserver (subscriber h))
          (List.filter (InspectorNotifier.notified (TValue (Num v)) (uid c)) (handlers st)).
Proof.
  intros Hne c v st'. subst st'.
  destruct o as [text|x|pageY]; simpl in *.
  - destruct (handleValueChanged_nonempty text false st Hne) as (Hh & Ht & Htr & _).
    rewrite Hh, Ht, Htr. repeat split; reflexivity.
  - unfold _handleSliderChanged.
    destruct (handleValueChanged_nonempty (toString x) true st Hne) as (Hh & Ht & Htr & _).
    rewrite Hh, Ht, Htr. repeat split; reflexivity.
  - unfold mouseMoveListener. simpl.
    destruct (handleValueChanged_nonempty _ true st Hne) as (Hh & Ht & Htr & _).
    rewrite Hh, Ht, Htr. repeat split; reflexivity.
Qed.

(** A change writes the bound property and nothing else. *)
Lemma change_writes_only_the_bound_property (o : origin) (st : State) (r : ref) (p : string) :
  text_of o st <> "" ->
  object (props (this st)) <> r \/ property (props (this st)) <> p ->
  get_property (heap (change o st)) r p = get_property (heap st) r p.
Proof.
  intros Hne Hother. destruct (change_nonempty o st Hne) as (Hh & _).
  rewrite Hh. apply get_set_property_other. exact Hother.
Qed.

(** C2. With [min = m] and [max = M] configured as a range, a text that
    is not empty, typed or produced by the slider or by a drag, makes the
    handler write [clamp(v, m, M)] into [object[property]], [v] being the
    number the text parses to; the [onChange] callback, when supplied, is
    called once, with the same clamped number. *)
Theorem written_value_is_clamped (o : origin) (st : State) (m M : number) :
  min (props (this st)) = Some m ->
  max (props (this st)) = Some M ->
  le m M = true ->
  text_of o st <> "" ->
  read_bound (this st) (heap (change o st)) = Num (clamp (parseFloat (text_of o st)) m M) /\
  (onChange (props (this st)) = true ->
   onChange_calls (emitted st (change o st)) = [clamp (parseFloat (text_of o st)) m M]).
Proof.
  intros Hmin Hmax Hle Hne.
  destruct (change_nonempty o st Hne) as (Hh & _ & Htr).
  unfold parsed in *. rewrite Hmin, Hmax, (apply_bounds_clamp _ _ _ Hle) in *.
  split.
  - unfold read_bound. rewrite Hh. apply get_set_property.
  - intros Hcb. rewrite (emitted_app _ _ _ Htr), Hcb.
    unfold onChange_calls. rewrite omap_app. simpl.
    rewrite omap_observers by reflexivity. reflexivity.
Qed.

Lemma written_value_is_clamped_witness :
  (min (props (this demo)) = Some (num "0") /\
   max (props (this demo)) = Some (num "10") /\
   le (num "0") (num "10") = true /\
   text_of (Keyboard "12") demo <> "") /\
  read_bound (this demo) (heap (change (Keyboard "12") demo)) =
    Num (clamp (parseFloat "12") (num "0") (num "10")) /\
  (onChange (props (this demo)) = true ->
   onChange_calls (emitted demo (change (Keyboard "12") demo)) =
     [clamp (parseFloat "12") (num "0") (num "10")]).
Proof.
  assert (H1 : min (props (this demo)) = Some (num "0")) by reflexivity.
  assert (H2 : max (props (this demo)) = Some (num "10")) by reflexivity.
  assert (H3 : le (num "0") (num "10") = true) by (vm_compute; reflexivity).
  assert (H4 : text_of (Keyboard "12") demo <> "") by discriminate.
  split; [repeat split; assumption|].
  exact (written_value_is_clamped (Keyboard "12") demo (num "0") (num "10") H1 H2 H3 H4).
Defined.

(** The slider hands over a number; when its rendering parses back to it,
    the number written is its clamp. *)
Lemma slider_written_value (x : number) (st : State) (m M : number) :
  min (props (this st)) = Some m ->
  max (props (this st)) = Some M ->
  le m M = true ->
  parseFloat (toString x) = x ->
  read_bound (this st) (heap (_handleSliderChanged x st)) = Num (clamp x m M).
Proof.
  intros Hmin Hmax Hle Hrt.
  assert (Hne : text_of (Slider x) st <> "").
  { simpl. intros E. rewrite E in Hrt. vm_compute in Hrt. subst x. discriminate E. }
  destruct (change_nonempty (Slider x) st Hne) as (Hh & _).
  unfold parsed in Hh. simpl in Hh.
  rewrite Hmin, Hmax, (apply_bounds_clamp _ _ _ Hle), Hrt in Hh.
  unfold read_bound. rewrite Hh. apply get_set_property.
Qed.

(** C6. After the handler has run on a text that is not empty, the
    displayed string is the raw text when the change was typed, and the
    rendering of the clamped value rounded to [_precision] decimals when it
    came from the slider or from a drag. *)
Theorem displayed_string_after_change (o : origin) (st : State) :
  text_of o st <> "" ->
  value (state (this (change o st))) =
    if from_gesture o
    then toString (_RoundToDecimal (parsed (this st) (text_of o st)) (_precision (this st)))
    else text_of o st.
Proof.
  intros Hne. destruct (change_nonempty o st Hne) as (_ & Hv & _). exact Hv.
Qed.

Lemma displayed_string_after_change_witness :
  text_of (Slider (num "3.14159")) demo <> "" /\
  value (state (this (change (Slider (num "3.14159")) demo))) = "3.1" /\
  value (state (this (change (Keyboard "3.14159") demo))) = "3.14159".
Proof.
  assert (H : text_of (Slider (num "3.14159")) demo <> "") by (vm_compute; discriminate).
  split; [exact H|]. split.
  - rewrite (displayed_string_after_change (Slider (num "3.14159")) demo H).
    vm_compute. reflexivity.
  - rewrite (displayed_string_after_change (Keyboard "3.14159") demo) by discriminate.
    reflexivity.
Defined.

(** ** The commit step *)

Lemma commit_unchanged (st : State) :
  strict_equals (read_bound (this st) (heap st)) (_initialValue (this st)) = true ->
  _handleValueFinishChanged st = st.
Proof. intros H. unfold _handleValueFinishChanged. rewrite H. reflexivity. Qed.

Lemma commit_changed (st : State) :
  let c := this st in
  let v := read_bound c (heap st) in
  let st' := _handleValueFinishChanged st in
  strict_equals v (_initialValue c) = false ->
  heap st' = heap st /\
  this st' = with_state (with_initialValue c v) {| value := _getFinalValueString c v |} /\
  trace st' =
    trace st ++
    (if onFinishChange (props c) then [CallOnFinishChange v (_initialValue c)] else []) ++
    CallNotifyChange (TObject (object (props c))) (uid c) ::
      map (fun h => CallObserver (subscriber h))
          (List.filter (InspectorNotifier.notified (TObject (object (props c))) (uid c))
                       (handlers st)) /\
  handlers st' = handlers st /\
  document st' = document st /\
  focused st' = focused st /\
  fresh st' = fresh st.
Proof.
  intros c v st' Hdiff. subst st'. unfold _handleValueFinishChanged.
  fold c. fold v. rewrite Hdiff.
  set (st1 := if onFinishChange (props c) then _ else _).
  assert (H1 : heap st1 = heap st /\ this st1 = c
               /\ trace st1 = trace st ++
                    (if onFinishChange (props c)
                     then [CallOnFinishChange v (_initialValue c)] else [])
               /\ handlers st1 = handlers st /\ document st1 = document st
               /\ focused st1 = focused st /\ fresh st1 = fresh st).
  { subst st1. destruct (onFinishChange (props c)); simpl;
      rewrite ?app_nil_r; repeat split; reflexivity. }
  destruct H1 as (Hh & Hthis & Htr & Hhs & Hd & Hf & Hn).
  destruct (NotifyChange_frame (TObject (object (props c))) (uid c) st1)
    as (Hh' & Hhs' & Hd' & Hf' & Hn' & _ & Htr').
  simpl. rewrite Hh', Hhs', Hd', Hf', Hn', Htr', Htr, Hhs, <- app_assoc.
  rewrite NotifyChange_this by (rewrite Hthis; reflexivity).
  rewrite Hthis. repeat split; assumption.
Qed.

(** The commit step never writes to the heap. *)
Lemma commit_heap (st : State) : heap (_handleValueFinishChanged st) = heap st.
Proof.
  destruct (strict_equals (read_bound (this st) (heap st)) (_initialValue (this st))) eqn:E.
  - rewrite commit_unchanged by exact E. reflexivity.
  - apply (commit_changed st E).
Qed.

(** A commit right after a commit that fired does nothing, unless the
    committed value is [NaN]. *)
Lemma commit_twice (st : State) :
  read_bound (this st) (heap st) <> Num NaN ->
  _handleValueFinishChanged (_handleValueFinishChanged st) = _handleValueFinishChanged st.
Proof.
  intros Hnan.
  destruct (strict_equals (read_bound (this st) (heap st)) (_initialValue (this st))) eqn:E.
  - rewrite !(commit_unchanged st E). reflexivity.
  - destruct (commit_changed st E) as (Hh & Ht & _).
    apply commit_unchanged. rewrite Hh, Ht. simpl.
    apply strict_equals_refl. exact Hnan.
Qed.

Lemma enter_commits_once (st : State) :
  read_bound (this st) (heap st) <> Num NaN ->
  _handleEnterKeyPressed st =
    if _input (this st) && focused st
    then _handleValueFinishChanged
           (set_this (with_isFocused (this st) false) (set_focused false st))
    else _handleValueFinishChanged st.
Proof.
  intros Hnan. unfold _handleEnterKeyPressed, blur, _handleInputBlurred.
  destruct (_input (this st)), (focused st); simpl; try reflexivity.
  apply commit_twice. exact Hnan.
Qed.

(** What a commit adds to the trace: no call of [onChange], no removal of
    a listener. *)
Lemma commit_trace (st : State) :
  exists es, trace (_handleValueFinishChanged st) = trace st ++ es /\
             removals es = [] /\ onChange_calls es = [].
Proof.
  destruct (strict_equals (read_bound (this st) (heap st)) (_initialValue (this st))) eqn:E.
  - exists []. rewrite (commit_unchanged st E), app_nil_r. repeat split; reflexivity.
  - destruct (commit_changed st E) as (_ & _ & Htr & _).
    eexists. split; [exact Htr|].
    unfold removals, onChange_calls. rewrite !omap_app. simpl.
    rewrite !omap_observers by reflexivity.
    destruct (onFinishChange (props (this st))); split; reflexivity.
Qed.

(** ** The drag gesture *)

Lemma removals_of_removes (rs : list (string * listener)) :
  removals (map (fun r => CallRemoveEventListener (fst r) (snd r)) rs) = rs.
Proof.
  induction rs as [|[ty l] rs IH]; [reflexivity|].
  unfold removals in *. simpl. f_equal. exact IH.
Qed.

Lemma teardown_spec (st : State) :
  let rs := present "mousemove" (_mouseMoveListener (this st)) ++
            present "mouseup" (_mouseUpListener (this st)) in
  trace (teardown st) = trace st ++ map (fun r => CallRemoveEventListener (fst r) (snd r)) rs /\
  document (teardown st) = List.filter (detached rs) (document st) /\
  this (teardown st) = with_listeners (this st) None None /\
  heap (teardown st) = heap st.
Proof.
  unfold teardown.
  destruct (_mouseMoveListener (this st)) as [l1|], (_mouseUpListener (this st)) as [l2|] eqn:E2;
    simpl; rewrite ?E2; simpl; rewrite ?app_nil_r, <- ?app_assoc; repeat split;
    try reflexivity.
  - induction (document st) as [|e d IH]; simpl; [reflexivity|].
    unfold detached. simpl.
    destruct (same_listener "mousemove" l1 e); simpl; [exact IH|].
    destruct (same_listener "mouseup" l2 e); simpl; [exact IH|]. rewrite IH. reflexivity.
  - induction (document st) as [|e d IH]; simpl; [reflexivity|].
    unfold detached. simpl.
    destruct (same_listener "mousemove" l1 e); simpl; [exact IH|]. rewrite IH. reflexivity.
  - induction (document st) as [|e d IH]; simpl; [reflexivity|].
    unfold detached. simpl.
    destruct (same_listener "mouseup" l2 e); simpl; [exact IH|]. rewrite IH. reflexivity.
  - induction (document st) as [|e d IH]; simpl; [reflexivity|].
    rewrite <- IH at 1. reflexivity.
Qed.

(** C9. [_handleMouseUp] removes the [mousemove] and the [mouseup]
    listener from the document exactly when the component holds a
    reference to them, and then clears both references; a second call
    therefore removes nothing and leaves the document as it is; in both
    calls the commit step runs after the teardown. The handler is total:
    no path of it raises. *)
Theorem mouse_up_teardown_is_guarded (st : State) :
  let st1 := _handleMouseUp st in
  let st2 := _handleMouseUp st1 in
  let rs := present "mousemove" (_mouseMoveListener (this st)) ++
            present "mouseup" (_mouseUpListener (this st)) in
  removals (emitted st st1) = rs /\
  document st1 = List.filter (detached rs) (document st) /\
  _mouseMoveListener (this st1) = None /\
  _mouseUpListener (this st1) = None /\
  removals (emitted st1 st2) = [] /\
  document st2 = document st1 /\
  _mouseMoveListener (this st2) = None /\
  _mouseUpListener (this st2) = None /\
  st1 = _handleValueFinishChanged (teardown st) /\
  st2 = _handleValueFinishChanged (teardown st1).
Proof.
  assert (Hup : forall s, _handleMouseUp s = _handleValueFinishChanged (teardown s))
    by reflexivity.
  assert (Hfields : forall s,
             _mouseMoveListener (this s) = None -> _mouseUpListener (this s) = None ->
             _mouseMoveListener (this (_handleValueFinishChanged s)) = None /\
             _mouseUpListener (this (_handleValueFinishChanged s)) = None /\
             document (_handleValueFinishChanged s) = document s).
  { intros s H1 H2.
    destruct (strict_equals (read_bound (this s) (heap s)) (_initialValue (this s))) eqn:E.
    - rewrite (commit_unchanged s E). auto.
    - destruct (commit_changed s E) as (_ & Ht & _ & _ & Hd & _).
      rewrite Ht, Hd. simpl. auto. }
  assert (Hone : forall s,
             let rs := present "mousemove" (_mouseMoveListener (this s)) ++
                       present "mouseup" (_mouseUpListener (this s)) in
             removals (emitted s (_handleMouseUp s)) = rs /\
             document (_handleMouseUp s) = List.filter (detached rs) (document s) /\
             _mouseMoveListener (this (_handleMouseUp s)) = None /\
             _mouseUpListener (this (_handleMouseUp s)) = None).
  { intros s rs. rewrite Hup.
    destruct (teardown_spec s) as (Htr & Hd & Ht & _). fold rs in Htr, Hd.
    destruct (commit_trace (teardown s)) as (es & Hes & Hrm & _).
    destruct (Hfields (teardown s)) as (H1 & H2 & H3); try (rewrite Ht; reflexivity).
    rewrite H3, Hd. repeat split; try assumption.
    assert (Htr' : trace (_handleValueFinishChanged (teardown s)) =
                   trace s ++ (map (fun r => CallRemoveEventListener (fst r) (snd r)) rs ++ es))
      by (rewrite Hes, Htr, <- app_assoc; reflexivity).
    rewrite (emitted_app _ _ _ Htr').
    unfold removals in *. rewrite omap_app, Hrm, app_nil_r.
    apply removals_of_removes. }
  intros st1 st2 rs.
  destruct (Hone st) as (Ha & Hb & Hc & Hd).
  destruct (Hone st1) as (Ha' & Hb' & Hc' & Hd').
  fold st1 in Ha, Hb, Hc, Hd, Ha', Hb', Hc', Hd'. fold st2 in Ha', Hb', Hc', Hd'.
  rewrite Hc, Hd in Ha', Hb'. unfold present in Ha', Hb'. cbn [app] in Ha', Hb'.
  repeat split; try assumption; try reflexivity.
  rewrite Hb'. clear. induction (document st1) as [|e d IH]; simpl; [reflexivity|].
  rewrite IH. reflexivity.
Qed.

(** ** The display string *)

Lemma constructor_display (u : ident) (p : IInspectorNumberProps) (h h' : heap_t)
      (c : InspectorNumber) :
  constructor u p h = Ok (c, h') ->
  props c = p /\ uid c = u /\ is_number (read_bound c h') = true /\
  _initialValue c = read_bound c h' /\
  value (state c) = _getFinalValueString c (read_bound c h').
Proof.
  unfold constructor, read_bound. intros H.
  destruct (defaultValue p) as [d|].
  - destruct (get_property h (object p) (property p)) as [| |x] eqn:E; simpl in H;
      injection H as <- <-; simpl; rewrite ?get_set_property, ?E; repeat split; reflexivity.
  - destruct (get_property h (object p) (property p)) as [| |x] eqn:E; simpl in H;
      try discriminate H.
    injection H as <- <-. simpl. rewrite E. repeat split; reflexivity.
Qed.

(** C8. A change that comes from a gesture stores the clamped parsed
    number itself and rounds only the displayed string; refreshing the
    display, by the callback registered with the notifier or by the commit
    step, leaves the heap as it is, so that [object[property]] still reads
    the stored number. *)
Theorem display_rounding_keeps_stored_value (o : origin) (st : State) :
  from_gesture o = true ->
  text_of o st <> "" ->
  let c := this st in
  let v := parsed c (text_of o st) in
  let st' := change o st in
  read_bound c (heap st') = Num v /\
  value (state (this st')) = toString (_RoundToDecimal v (_precision c)) /\
  (forall h, heap (InspectorNotifier.invoke h st') = heap st') /\
  (forall t caller, heap (InspectorNotifier.NotifyChange t caller st') = heap st') /\
  heap (_handleValueFinishChanged st') = heap st' /\
  read_bound c (heap (_handleValueFinishChanged st')) = Num v.
Proof.
  intros Hg Hne c v st'.
  destruct (change_nonempty o st Hne) as (Hh & Hv & _). fold c v st' in Hh, Hv.
  rewrite Hg in Hv.
  assert (Hread : read_bound c (heap st') = Num v).
  { unfold read_bound. rewrite Hh. apply get_set_property. }
  repeat split.
  - exact Hread.
  - exact Hv.
  - intros h. apply (invoke_frame h st').
  - intros t caller. apply (NotifyChange_frame t caller st').
  - apply commit_heap.
  - rewrite commit_heap. exact Hread.
Qed.

Lemma display_rounding_keeps_stored_value_witness :
  (from_gesture (Slider (num "3.14159")) = true /\
   text_of (Slider (num "3.14159")) demo <> "") /\
  read_bound (this demo) (heap (change (Slider (num "3.14159")) demo)) = Num (num "3.14159") /\
  value (state (this (change (Slider (num "3.14159")) demo))) = "3.1" /\
  read_bound (this demo)
    (heap (_handleValueFinishChanged (change (Slider (num "3.14159")) demo))) =
    Num (num "3.14159").
Proof.
  assert (H1 : from_gesture (Slider (num "3.14159")) = true) by reflexivity.
  assert (H2 : text_of (Slider (num "3.14159")) demo <> "") by (vm_compute; discriminate).
  destruct (display_rounding_keeps_stored_value (Slider (num "3.14159")) demo H1 H2)
    as (Ha & Hb & _ & _ & _ & Hc).
  split; [split; assumption|]. split; [|split].
  - rewrite Ha. vm_compute. reflexivity.
  - rewrite Hb. vm_compute. reflexivity.
  - rewrite Hc. vm_compute. reflexivity.
Defined.

(** ** Text that does not parse *)

(** A text that is not empty and does not parse is not held back: [NaN]
    passes both bound checks and is written, reported and notified. *)
Lemma unparseable_text_written (text : string) (fromMouseEvent : bool) (st : State) :
  text <> "" ->
  parseFloat text = NaN ->
  let st' := _handleValueChanged text fromMouseEvent st in
  read_bound (this st) (heap st') = Num NaN /\
  notifications (emitted st st') = [(TValue (Num NaN), uid (this st))] /\
  (onChange (props (this st)) = true -> onChange_calls (emitted st st') = [NaN]).
Proof.
  intros Hne Hnan st'.
  destruct (handleValueChanged_nonempty text fromMouseEvent st Hne) as (Hh & _ & Htr & _).
  fold st' in Hh, Htr.
  assert (Hv : parsed (this st) text = NaN).
  { unfold parsed. rewrite Hnan. apply apply_bounds_nan. }
  rewrite Hv in Hh, Htr. rewrite (emitted_app _ _ _ Htr).
  unfold read_bound, notifications, onChange_calls. rewrite Hh, get_set_property, !omap_app.
  simpl. rewrite !omap_observers by reflexivity.
  split; [reflexivity|]. split.
  - destruct (onChange (props (this st))); reflexivity.
  - intros ->. reflexivity.
Qed.

(** The empty text only updates the displayed string. *)
Lemma empty_text_is_local (fromMouseEvent : bool) (st : State) :
  let st' := _handleValueChanged "" fromMouseEvent st in
  heap st' = heap st /\ trace st' = trace st /\ value (state (this st')) = "".
Proof. repeat split; reflexivity. Qed.

(** C7, at the text ["-"], the first key of every negative number: the
    handler replaces the [1] in [object[property]] by [NaN], calls
    [onChange] with [NaN] and emits a notification. *)
Theorem unparseable_text_reaches_the_object :
  parseFloat "-" = NaN /\
  read_bound (this demo) (heap demo) = Num (num "1") /\
  read_bound (this demo) (heap (_handleValueChanged "-" false demo)) = Num NaN /\
  onChange_calls (emitted demo (_handleValueChanged "-" false demo)) = [NaN] /\
  notifications (emitted demo (_handleValueChanged "-" false demo)) =
    [(TValue (Num NaN), 7%positive)].
Proof.
  assert (Hne : "-" <> "") by discriminate.
  assert (Hnan : parseFloat "-" = NaN) by (vm_compute; reflexivity).
  destruct (unparseable_text_written "-" false demo Hne Hnan) as (H1 & H2 & H3).
  split; [exact Hnan|]. split; [vm_compute; reflexivity|].
  split; [exact H1|]. split; [apply H3; reflexivity|exact H2].
Qed.

(** ** The target of the notifications *)

(** The notification of a value change names the number just written; a
    registration for an object is never notified by it. *)
Lemma change_notifies_the_value (o : origin) (st : State) :
  text_of o st <> "" ->
  let v := parsed (this st) (text_of o st) in
  notifications (emitted st (change o st)) = [(TValue (Num v), uid (this st))] /\
  (forall h r, observed h = TObject r ->
               InspectorNotifier.notified (TValue (Num v)) (uid (this st)) h = false).
Proof.
  intros Hne v. destruct (change_nonempty o st Hne) as (_ & _ & Htr).
  rewrite (emitted_app _ _ _ Htr). split.
  - unfold notifications. rewrite omap_app. simpl.
    rewrite omap_observers by reflexivity.
    destruct (onChange (props (this st))); reflexivity.
  - intros h r Hobs. unfold InspectorNotifier.notified. rewrite Hobs. reflexivity.
Qed.

(** The notification of a commit names the object, and reaches the other
    components registered for it. *)
Lemma commit_notifies_the_object (st : State) :
  strict_equals (read_bound (this st) (heap st)) (_initialValue (this st)) = false ->
  notifications (emitted st (_handleValueFinishChanged st)) =
    [(TObject (object (props (this st))), uid (this st))].
Proof.
  intros H. destruct (commit_changed st H) as (_ & _ & Htr & _).
  rewrite (emitted_app _ _ _ Htr). unfold notifications. rewrite omap_app. simpl.
  rewrite omap_observers by reflexivity.
  destruct (onFinishChange (props (this st))); reflexivity.
Qed.

(** C3, with two components bound to [x] of the same object, the second
    one registered for that object: typing ["2.5"] into the first one
    emits a notification whose target is the number [2.5], not the object;
    no observer is invoked and the second component keeps displaying
    ["1"] although the property is [2.5]. The commit that follows notifies
    the object, and only then the second component is refreshed. *)
Theorem typed_change_notifies_the_number :
  let typed := _handleValueChanged "2.5" false demo_shared in
  let committed := _handleValueFinishChanged typed in
  handlers demo_shared =
    [ {| subscriber := 8%positive; observed := TObject 1%positive |};
      {| subscriber := 7%positive; observed := TObject 1%positive |} ] /\
  notifications (emitted demo_shared typed) = [(TValue (Num (num "2.5")), 7%positive)] /\
  observer_calls (emitted demo_shared typed) = [] /\
  read_bound demo_peer (heap typed) = Num (num "2.5") /\
  value <$> (state <$> (mounted typed !! 8%positive)) = Some "1" /\
  notifications (emitted typed committed) = [(TObject 1%positive, 7%positive)] /\
  observer_calls (emitted typed committed) = [8%positive] /\
  value <$> (state <$> (mounted committed !! 8%positive)) = Some "2.5".
Proof. vm_compute. repeat split; reflexivity. Qed.

(** ** A transaction that ends on [NaN] *)

(** C1, at the transaction "focus, type [-], press Enter": the Enter key
    runs the commit step twice, through the blur it triggers and through
    the explicit call; the property holds [NaN], which never equals the
    baseline, so both commits call [onFinishChange] and notify. *)
Theorem enter_on_nan_finishes_twice :
  let st := run [Focus; Input "-"; KeyDown "Enter"] demo in
  read_bound (this demo) (heap st) = Num NaN /\
  onFinishChange_calls (trace st) =
    [(Num NaN, Num (num "1")); (Num NaN, Num NaN)] /\
  notifications (trace st) =
    [(TValue (Num NaN), 7%positive); (TObject 1%positive, 7%positive);
     (TObject 1%positive, 7%positive)].
Proof. vm_compute. repeat split; reflexivity. Qed.

(** With any other value the same transaction finishes once. *)
Example enter_on_number_finishes_once :
  let st := run [Focus; Input "2.5"; KeyDown "Enter"] demo in
  onFinishChange_calls (trace st) = [(Num (num "2.5"), Num (num "1"))] /\
  _initialValue (this st) = Num (num "2.5").
Proof. vm_compute. split; reflexivity. Qed.

(** ** The implied step and the precision *)

Lemma constructor_fields (u : ident) (p : IInspectorNumberProps) (h h' : heap_t)
      (c : InspectorNumber) :
  constructor u p h = Ok (c, h') ->
  exists v,
    read_bound c h' = Num v /\
    _impliedStep c =
      match step p with
      | Some s =>
          if ToBoolean s then s
          else if eq_num v (of_Z 0) then of_Z 1 else derived_step v
      | None => if eq_num v (of_Z 0) then of_Z 1 else derived_step v
      end /\
    _precision c = _NumDecimals (_impliedStep c).
Proof.
  unfold constructor, read_bound. intros H.
  destruct (defaultValue p) as [d|].
  - destruct (get_property h (object p) (property p)) as [| |x] eqn:E; simpl in H;
      injection H as <- <-; simpl; rewrite ?get_set_property, ?E;
      eexists; repeat split; reflexivity.
  - destruct (get_property h (object p) (property p)) as [| |x] eqn:E; simpl in H;
      try discriminate H.
    injection H as <- <-. simpl. rewrite E. eexists. repeat split; reflexivity.
Qed.








(** The three cases on concrete components. *)
Example implied_step_examples :
  (exists c h, constructor 7%positive (with_step demo_props (Some (num "0.25"))) demo_heap
               = Ok (c, h) /\ toString (_impliedStep c) = "0.25" /\ _precision c = 2) /\
  (exists c h, constructor 7%positive demo_props zero_heap = Ok (c, h) /\
               toString (_impliedStep c) = "1" /\ _precision c = 0) /\
  (exists c h, constructor 7%positive demo_props demo_heap = Ok (c, h) /\
               toString (_impliedStep c) = "0.1" /\ _precision c = 1).
Proof.
  repeat split; eexists; eexists; (split; [vm_compute; reflexivity|]);
    split; vm_compute; reflexivity.
Qed.

(** On doubles the quotient of the logarithms of 1000 falls just below
    3, and the implied step of 1000 is 10. *)
Example implied_step_of_1000 :
  toString (div (Math.log (num "1000")) Math.LN10) = "2.9999999999999996" /\
  toString (derived_step (num "1000")) = "10".
Proof. split; vm_compute; reflexivity. Qed.

(** ** The decimal count *)

Lemma indexOf_ge (s : string) (c : ascii) : -1 <= indexOf s c.
Proof.
  induction s as [|a s IH]; simpl; [lia|].
  destruct (Ascii.eqb a c); [lia|].
  destruct (indexOf s c <? 0) eqn:E; [lia|]. apply Z.ltb_ge in E. lia.
Qed.

Lemma contains_dot_false (s : string) :
  contains_dot s = false -> indexOf s "." = -1.
Proof.
  unfold contains_dot. intros H. apply Z.ltb_ge in H.
  pose proof (indexOf_ge s "."). lia.
Qed.

Lemma length_append (s1 s2 : string) :
  String.length (s1 +:+ s2) = (String.length s1 + String.length s2)%nat.
Proof.
  induction s1 as [|a s1 IH]; simpl; [reflexivity|]. rewrite IH. reflexivity.
Qed.

Lemma strlen_append (s1 s2 : string) : strlen (s1 +:+ s2) = strlen s1 + strlen s2.
Proof. unfold strlen. rewrite length_append. lia. Qed.

Lemma indexOf_first_dot (pre post : string) :
  contains_dot pre = false ->
  indexOf (pre +:+ String "." post) "." = strlen pre.
Proof.
  unfold contains_dot, strlen. induction pre as [|a pre IH]; simpl; [reflexivity|].
  destruct (Ascii.eqb a ".") eqn:Ea; [discriminate|].
  intros H.
  assert (Hpre : (-1 <? indexOf pre ".") = false).
  { destruct (indexOf pre "." <? 0) eqn:E; [|apply Z.ltb_ge in E, H; lia].
    apply Z.ltb_lt in E. apply Z.ltb_ge. lia. }
  rewrite (IH Hpre).
  destruct (Z.of_nat (String.length pre) <? 0) eqn:E; [apply Z.ltb_lt in E; lia|lia].
Qed.

Lemma NumDecimals_no_dot (x : number) :
  contains_dot (toString x) = false -> _NumDecimals x = 0.
Proof.
  intros H. unfold _NumDecimals. rewrite (contains_dot_false _ H). reflexivity.
Qed.

Lemma NumDecimals_after_dot (x : number) (pre post : string) :
  toString x = pre +:+ "." +:+ post ->
  contains_dot pre = false ->
  _NumDecimals x = strlen post.
Proof.
  intros Hs Hpre. unfold _NumDecimals. rewrite Hs.
  change (pre +:+ "." +:+ post) with (pre +:+ String "." post).
  rewrite (indexOf_first_dot pre post Hpre), strlen_append.
  assert (Hlen : strlen (String "." post) = 1 + strlen post).
  { unfold strlen. simpl String.length. lia. }
  rewrite Hlen.
  destruct (-1 <? strlen pre) eqn:E; [lia|].
  apply Z.ltb_ge in E. unfold strlen in E. lia.
Qed.

Lemma contains_dot_cons (c : ascii) (s : string) :
  Ascii.eqb c "." = false -> contains_dot s = false -> contains_dot (String c s) = false.
Proof.
  unfold contains_dot. cbn [indexOf]. intros -> H.
  apply Z.ltb_ge in H. pose proof (indexOf_ge s ".").
  destruct (indexOf s "." <? 0) eqn:E; [reflexivity|].
  apply Z.ltb_ge in E. lia.
Qed.

(** Decimal digits are not dots. *)
Lemma digit_char_not_dot (d : Z) :
  0 <= d < 10 -> Ascii.eqb (digit_char d) "." = false.
Proof.
  intros H.
  assert (E : d = 0 \/ d = 1 \/ d = 2 \/ d = 3 \/ d = 4 \/
              d = 5 \/ d = 6 \/ d = 7 \/ d = 8 \/ d = 9) by lia.
  repeat (destruct E as [->|E]; [reflexivity|]). subst d. reflexivity.
Qed.

Lemma digits_fuel_no_dot (fuel : nat) (n : Z) (acc : string) :
  contains_dot acc = false -> contains_dot (digits_fuel fuel n acc) = false.
Proof.
  revert n acc. induction fuel as [|fuel IH]; intros n acc Hacc; cbn [digits_fuel];
    [exact Hacc|].
  assert (Hacc' : contains_dot (String (digit_char (n mod 10)) acc) = false).
  { apply contains_dot_cons; [|exact Hacc].
    apply digit_char_not_dot. apply Z.mod_pos_bound. lia. }
  destruct (n <? 10); [exact Hacc'|]. apply IH. exact Hacc'.
Qed.

Lemma digits_no_dot (n : Z) : contains_dot (digits n) = false.
Proof. apply digits_fuel_no_dot. reflexivity. Qed.

(** With no fraction digits [toFixed] renders a whole number, when the
    magnitude is below [10^21]. *)
Lemma toFixed_0_whole (s : bool) (m : positive) (e : Z) :
  numerator m e < 10 ^ 21 * denominator e ->
  contains_dot (toFixed (S754_finite s m e) 0) = false.
Proof.
  intros H. unfold toFixed.
  apply Z.leb_gt in H. rewrite H.
  unfold toFixed_digits. cbn [Nat.eqb].
  set (n := (2 * numerator m e * 10 ^ Z.of_nat 0 + denominator e) / (2 * denominator e)).
  destruct s; cbn [append].
  - apply contains_dot_cons; [reflexivity|apply digits_no_dot].
  - apply digits_no_dot.
Qed.

Lemma contains_dot_append (s1 s2 : string) :
  contains_dot s1 = false -> contains_dot s2 = false -> contains_dot (s1 +:+ s2) = false.
Proof.
  induction s1 as [|a s1 IH]; cbn [append]; intros H1 H2; [exact H2|].
  unfold contains_dot in H1. cbn [indexOf] in H1.
  destruct (Ascii.eqb a ".") eqn:Ea; [discriminate H1|].
  apply contains_dot_cons; [exact Ea|]. apply IH; [|exact H2].
  unfold contains_dot. destruct (indexOf s1 "." <? 0) eqn:E.
  - apply Z.ltb_lt in E. apply Z.ltb_ge. lia.
  - apply Z.ltb_ge in E, H1. lia.
Qed.

Lemma zeros_no_dot (n : nat) : contains_dot (zeros n) = false.
Proof.
  induction n as [|n IH]; [reflexivity|]. cbn [zeros].
  apply contains_dot_cons; [reflexivity|exact IH].
Qed.

(** The length of the digits of [n] bounds [n] from below. *)
Lemma digits_fuel_length (fuel : nat) (n : Z) (acc : string) :
  1 <= n < 2 ^ Z.of_nat fuel ->
  strlen acc + 1 <= strlen (digits_fuel fuel n acc) /\
  10 ^ (strlen (digits_fuel fuel n acc) - strlen acc - 1) <= n.
Proof.
  revert n acc. induction fuel as [|fuel IH]; intros n acc Hn.
  - simpl in Hn. lia.
  - cbn [digits_fuel].
    assert (Hacc : strlen (String (digit_char (n mod 10)) acc) = strlen acc + 1).
    { unfold strlen. cbn [String.length]. lia. }
    destruct (n <? 10) eqn:E.
    + rewrite Hacc. replace (strlen acc + 1 - strlen acc - 1) with 0 by lia.
      simpl. lia.
    + apply Z.ltb_ge in E.
      assert (Hdiv : 1 <= n / 10 < 2 ^ Z.of_nat fuel).
      { split.
        - apply Z.div_le_lower_bound; lia.
        - apply Z.div_lt_upper_bound; [lia|].
          rewrite Nat2Z.inj_succ, Z.pow_succ_r in Hn by lia. lia. }
      destruct (IH (n / 10) (String (digit_char (n mod 10)) acc) Hdiv) as [H1 H2].
      rewrite Hacc in H1, H2. split; [lia|].
      set (r := strlen (digits_fuel fuel (n / 10) (String (digit_char (n mod 10)) acc))) in *.
      replace (r - strlen acc - 1) with (Z.succ (r - (strlen acc + 1) - 1)) by lia.
      rewrite Z.pow_succ_r by lia.
      pose proof (Z.mul_div_le n 10 ltac:(lia)). lia.
Qed.

Lemma digits_length (n : Z) :
  1 <= n -> 1 <= strlen (digits n) /\ 10 ^ (strlen (digits n) - 1) <= n.
Proof.
  intros Hn. unfold digits.
  assert (Hf : 1 <= n < 2 ^ Z.of_nat (S (Z.to_nat (Z.log2 n)))).
  { split; [exact Hn|].
    rewrite Nat2Z.inj_succ, Z2Nat.id by apply Z.log2_nonneg.
    apply Z.log2_spec. lia. }
  destruct (digits_fuel_length _ n "" Hf) as [H1 H2].
  change (strlen "") with 0 in *. rewrite Z.sub_0_r in H2. split; [lia|exact H2].
Qed.

(** *** Integers are rendered without a dot *)

(** The descent stops at the first exponent with a multiple in the
    interval, when its fuel reaches down to one. *)
Lemma shortest_from_spec (fuel : nat) (iv : interval) (q q0 : Z) :
  q0 <= q <= q0 + Z.of_nat fuel ->
  hit iv q0 = true ->
  exists j q',
    shortest_from fuel iv q = (j, q') /\ q0 <= q' <= q /\ hit iv q' = true /\
    j = Z.max (least_multiple iv q') (Z.min (nearest_multiple iv q') (greatest_multiple iv q')).
Proof.
  revert q. induction fuel as [|fuel IH]; intros q Hq H0.
  - assert (q = q0) by lia. subst q. cbn [shortest_from].
    unfold hit in H0. rewrite H0. eexists _, q0. repeat split; try lia. exact H0.
  - cbn [shortest_from]. fold (hit iv q).
    destruct (hit iv q) eqn:Hh.
    + eexists _, q. repeat split; try lia. exact Hh.
    + assert (q <> q0) by (intros ->; congruence).
      destruct (IH (q - 1) ltac:(lia) H0) as (j & q' & Hs & Hq' & Hhit & Hj).
      exists j, q'. repeat split; try assumption; lia.
Qed.

Lemma pow2_pos (z : Z) : 0 < 2 ^ Z.max z 0.
Proof. apply Z.pow_pos_nonneg; lia. Qed.

Section Integer.
Variables (m : positive) (e : Z) (x : Z).
Hypothesis Hnormal : 2 ^ 52 <= Zpos m < 2 ^ 53.
Hypothesis Hx : x * 2 ^ Z.max (- (e - 2)) 0 = 4 * Zpos m * 2 ^ Z.max (e - 2) 0.
Hypothesis Hbound : x < 10 ^ 21.

Let iv := rounding_interval m e.
Let a0 := 2 ^ Z.max (- (e - 2)) 0.
Let b0 := 2 ^ Z.max (e - 2) 0.

Lemma a0_pos : 0 < a0. Proof. apply pow2_pos. Qed.
Lemma b0_pos : 0 < b0. Proof. apply pow2_pos. Qed.

Lemma x_pos : 1 <= x.
Proof.
  pose proof a0_pos. pose proof b0_pos. fold a0 b0 in Hx.
  assert (0 < x * a0) by (rewrite Hx; nia). nia.
Qed.

Lemma scale_0 : scaleA 0 (iv_exp iv) = a0 /\ scaleB 0 (iv_exp iv) = b0.
Proof.
  unfold scaleA, scaleB, iv, rounding_interval, a0, b0. cbn [iv_exp].
  change (Z.max 0 0) with 0. change (Z.max (- 0) 0) with 0.
  rewrite Z.pow_0_r. split; lia.
Qed.

Lemma scale_nonneg (q : Z) :
  0 <= q -> scaleA q (iv_exp iv) = 10 ^ q * a0 /\ scaleB q (iv_exp iv) = b0.
Proof.
  intros Hq. unfold scaleA, scaleB, iv, rounding_interval, a0, b0. cbn [iv_exp].
  rewrite (Z.max_l q 0) by lia. rewrite (Z.max_r (- q) 0) by lia.
  rewrite Z.pow_0_r. split; lia.
Qed.

Lemma lo_lt_mid : 0 < iv_lo iv < iv_mid iv /\ iv_mid iv = 4 * Zpos m /\ iv_hi iv = 4 * Zpos m + 2.
Proof.
  unfold iv, rounding_interval. cbn [iv_lo iv_mid iv_hi].
  destruct ((Zpos m =? 2 ^ 52) && (-1074 <? e)); lia.
Qed.

Lemma hit_0 : hit iv 0 = true.
Proof.
  pose proof a0_pos as Ha. pose proof b0_pos as Hb. pose proof x_pos as Hx1.
  destruct scale_0 as [HA HB]. destruct lo_lt_mid as (Hlo & Hmid & Hhi).
  fold a0 b0 in Hx.
  assert (Hg : x <= greatest_multiple iv 0).
  { unfold greatest_multiple. rewrite HA, HB, Hhi.
    destruct (iv_closed iv); apply Z.div_le_lower_bound; nia. }
  assert (Hl : least_multiple iv 0 <= x).
  { unfold least_multiple. rewrite HA, HB.
    destruct (iv_closed iv).
    - assert (H : (iv_lo iv * b0 + a0 - 1) / a0 < x + 1); [|lia].
      apply Z.div_lt_upper_bound; nia.
    - assert (H : iv_lo iv * b0 / a0 < x); [|lia].
      apply Z.div_lt_upper_bound; nia. }
  unfold hit. apply andb_true_intro. split; apply Z.leb_le; lia.
Qed.

Lemma first_exponent_range : 0 <= first_exponent iv <= 400.
Proof.
  pose proof a0_pos as Ha. pose proof b0_pos as Hb. pose proof x_pos as Hx1.
  destruct lo_lt_mid as (_ & _ & Hhi).
  unfold first_exponent. rewrite Hhi. unfold iv, rounding_interval. cbn [iv_exp].
  assert (Hlog : 54 <= Z.log2 (4 * Zpos m + 2) <= 55).
  { split.
    - apply Z.log2_le_pow2; lia.
    - assert (Z.log2 (4 * Zpos m + 2) < 56); [|lia].
      apply Z.log2_lt_pow2; lia. }
  assert (He : -53 < e).
  { destruct (Z.le_gt_cases e (-53)) as [Hle|]; [|lia]. exfalso.
    fold a0 b0 in Hx. unfold a0, b0 in *.
    rewrite (Z.max_l (- (e - 2)) 0) in * by lia.
    rewrite (Z.max_r (e - 2) 0) in * by lia.
    rewrite Z.pow_0_r in *.
    assert (2 ^ 55 <= 2 ^ (- (e - 2))) by (apply Z.pow_le_mono_r; lia).
    nia. }
  assert (Hemax : e <= 68).
  { destruct (Z.le_gt_cases e 68) as [|Hgt]; [assumption|]. exfalso.
    fold a0 b0 in Hx. unfold a0, b0 in *.
    rewrite (Z.max_r (- (e - 2)) 0) in * by lia.
    rewrite (Z.max_l (e - 2) 0) in * by lia.
    rewrite Z.pow_0_r in *.
    assert (2 ^ 67 <= 2 ^ (e - 2)) by (apply Z.pow_le_mono_r; lia).
    nia. }
  split.
  - assert (0 <= (Z.log2 (4 * Zpos m + 2) + 1 + (e - 2)) * 30103 / 100000); [|lia].
    apply Z.div_pos; lia.
  - assert ((Z.log2 (4 * Zpos m + 2) + 1 + (e - 2)) * 30103 / 100000 <= 398); [|lia].
    apply Z.div_le_upper_bound; lia.
Qed.

Lemma shortest_integer :
  exists j q,
    shortest m e = (j, q) /\ 0 <= q /\ 1 <= j /\ strlen (digits j) + q <= 21.
Proof.
  pose proof a0_pos as Ha. pose proof b0_pos as Hb. pose proof x_pos as Hx1.
  destruct lo_lt_mid as (Hlo & Hmid & Hhi).
  destruct (shortest_from_spec 1500 iv (first_exponent iv) 0) as (j & q & Hs & Hq & Hhit & Hj).
  { pose proof first_exponent_range. lia. }
  { exact hit_0. }
  exists j, q. split; [exact Hs|]. clear Hs. split; [lia|].
  destruct (scale_nonneg q ltac:(lia)) as [HA HB].
  assert (H10 : 0 < 10 ^ q) by (apply Z.pow_pos_nonneg; lia).
  assert (HApos : 0 < 10 ^ q * a0) by nia.
  unfold hit in Hhit. apply andb_prop in Hhit. destruct Hhit as [Hle Hge].
  apply Z.leb_le in Hle, Hge.
  assert (Hleast : 1 <= least_multiple iv q).
  { unfold least_multiple. rewrite HA, HB. destruct (iv_closed iv).
    - apply Z.div_le_lower_bound; nia.
    - assert (0 <= iv_lo iv * b0 / (10 ^ q * a0)); [|lia].
      apply Z.div_pos; nia. }
  assert (Hj1 : least_multiple iv q <= j <= greatest_multiple iv q) by lia.
  split; [lia|].
  assert (Hmul : j * (10 ^ q * a0) <= iv_hi iv * b0).
  { assert (Hg : greatest_multiple iv q <= iv_hi iv * b0 / (10 ^ q * a0)).
    { unfold greatest_multiple. rewrite HA, HB. destruct (iv_closed iv); [lia|].
      apply Z.div_le_mono; lia. }
    pose proof (Z.mul_div_le (iv_hi iv * b0) (10 ^ q * a0) HApos). nia. }
  destruct (digits_length j ltac:(lia)) as [Hk1 Hk].
  set (k := strlen (digits j)) in *.
  destruct (Z.le_gt_cases (k + q) 21) as [|Hbig]; [assumption|]. exfalso.
  assert (Hpow : 10 ^ 21 <= j * 10 ^ q).
  { assert (10 ^ 21 <= 10 ^ (k - 1 + q)) by (apply Z.pow_le_mono_r; lia).
    rewrite Z.pow_add_r in * by lia. nia. }
  fold a0 b0 in Hx. rewrite Hhi in Hmul.
  assert (Hfin : 10 ^ 21 * a0 <= x * a0 + 2 * b0) by nia.
  destruct (Z.le_gt_cases (e - 2) 0) as [Hneg|Hposi].
  - unfold a0, b0 in *.
    rewrite (Z.max_r (e - 2) 0) in * by lia. rewrite Z.pow_0_r in *.
    set (a := 2 ^ Z.max (- (e - 2)) 0) in *. nia.
  - unfold a0, b0 in *.
    rewrite (Z.max_r (- (e - 2)) 0) in * by lia.
    rewrite (Z.max_l (e - 2) 0) in * by lia. rewrite Z.pow_0_r in *.
    assert (He : e - 2 <= 15).
    { destruct (Z.le_gt_cases (e - 2) 15) as [|Hgt]; [assumption|]. exfalso.
      assert (2 ^ 16 <= 2 ^ (e - 2)) by (apply Z.pow_le_mono_r; lia). nia. }
    assert (Hcases : e - 2 = 1 \/ e - 2 = 2 \/ e - 2 = 3 \/ e - 2 = 4 \/ e - 2 = 5 \/
                     e - 2 = 6 \/ e - 2 = 7 \/ e - 2 = 8 \/ e - 2 = 9 \/ e - 2 = 10 \/
                     e - 2 = 11 \/ e - 2 = 12 \/ e - 2 = 13 \/ e - 2 = 14 \/ e - 2 = 15)
      by lia.
    repeat (destruct Hcases as [Hc|Hcases]; [rewrite Hc in *; simpl in *; lia|]).
    rewrite Hcases in *. simpl in *. lia.
Qed.

End Integer.

Lemma digits2_pos_log2 (m : positive) : Zpos (digits2_pos m) = Z.log2 (Zpos m) + 1.
Proof.
  assert (H : forall p, digits2_pos p = Pos.size p).
  { induction p as [p IH|p IH|]; simpl; rewrite ?IH; reflexivity. }
  rewrite H. destruct m; simpl; lia.
Qed.

(** At the exponent [min 0 (e - 2)] the multiples of [10^q] are no
    farther apart than a quarter of the gap between doubles, and the
    interval holds one. *)
Lemma hit_low (m : positive) (e : Z) :
  hit (rounding_interval m e) (Z.min 0 (e - 2)) = true.
Proof.
  set (iv := rounding_interval m e). set (q := Z.min 0 (e - 2)).
  assert (Hlo : 1 <= iv_lo iv /\ iv_lo iv + 3 <= iv_hi iv).
  { unfold iv, rounding_interval. cbn [iv_lo iv_hi].
    destruct ((Zpos m =? 2 ^ 52) && (-1074 <? e)); lia. }
  assert (HAB : 0 < scaleA q (iv_exp iv) <= scaleB q (iv_exp iv)).
  { unfold scaleA, scaleB, iv, rounding_interval, q. cbn [iv_exp].
    destruct (Z.le_gt_cases 0 (e - 2)).
    - rewrite (Z.min_l 0 (e - 2)) by lia.
      change (Z.max 0 0) with 0. change (Z.max (- 0) 0) with 0.
      rewrite (Z.max_r (- (e - 2)) 0), (Z.max_l (e - 2) 0), !Z.pow_0_r by lia.
      assert (0 < 2 ^ (e - 2)) by (apply Z.pow_pos_nonneg; lia). lia.
    - rewrite (Z.min_r 0 (e - 2)) by lia.
      rewrite (Z.max_r (e - 2) 0), (Z.max_l (- (e - 2)) 0), Z.pow_0_r by lia.
      assert (0 < 2 ^ (- (e - 2))) by (apply Z.pow_pos_nonneg; lia).
      assert (2 ^ (- (e - 2)) <= 10 ^ (- (e - 2))) by (apply Z.pow_le_mono_l; lia).
      lia. }
  set (A := scaleA q (iv_exp iv)) in *. set (B := scaleB q (iv_exp iv)) in *.
  assert (Hfloor : iv_lo iv * B / A + 2 <= (iv_hi iv * B - 1) / A).
  { replace (iv_lo iv * B / A + 2) with ((iv_lo iv * B + 2 * A) / A)
      by (rewrite Z.div_add by lia; reflexivity).
    apply Z.div_le_mono; nia. }
  assert (Hmono : (iv_hi iv * B - 1) / A <= iv_hi iv * B / A) by (apply Z.div_le_mono; lia).
  assert (Hceil : (iv_lo iv * B + A - 1) / A <= iv_lo iv * B / A + 1).
  { replace (iv_lo iv * B / A + 1) with ((iv_lo iv * B + 1 * A) / A)
      by (rewrite Z.div_add by lia; reflexivity).
    apply Z.div_le_mono; lia. }
  assert (Hnonneg : 0 <= iv_lo iv * B / A) by (apply Z.div_pos; nia).
  unfold hit, least_multiple, greatest_multiple. fold A B.
  apply andb_true_intro. destruct (iv_closed iv); split; apply Z.leb_le; lia.
Qed.

Lemma bounded_range (m : positive) (e : Z) :
  bounded prec emax m e = true -> Zpos m < 2 ^ 53 /\ -1074 <= e <= 971.
Proof.
  unfold bounded, canonical_mantissa, fexp, emin, prec, emax. intros H.
  apply andb_prop in H. destruct H as [Hc He].
  apply Z.eqb_eq in Hc. apply Z.leb_le in He.
  rewrite digits2_pos_log2 in Hc.
  pose proof (Z.log2_spec (Zpos m) ltac:(lia)) as [_ Hlog].
  assert (Z.log2 (Zpos m) <= 52) by lia.
  assert (2 ^ Z.succ (Z.log2 (Zpos m)) <= 2 ^ 53) by (apply Z.pow_le_mono_r; lia).
  lia.
Qed.

(** For every double the descent finds a decimal that rounds to it. *)
Lemma shortest_finds (m : positive) (e : Z) :
  bounded prec emax m e = true ->
  exists j q,
    shortest m e = (j, q) /\
    hit (rounding_interval m e) q = true /\
    least_multiple (rounding_interval m e) q <= j <= greatest_multiple (rounding_interval m e) q /\
    1 <= j.
Proof.
  intros Hb. destruct (bounded_range m e Hb) as [Hm He].
  set (iv := rounding_interval m e).
  assert (Hhi : iv_hi iv = 4 * Zpos m + 2 /\ iv_exp iv = e - 2 /\ 1 <= iv_lo iv).
  { unfold iv, rounding_interval. cbn [iv_lo iv_hi iv_exp].
    destruct ((Zpos m =? 2 ^ 52) && (-1074 <? e)); lia. }
  destruct Hhi as (Hhi & Hexp & Hlo).
  assert (Hlog : 2 <= Z.log2 (iv_hi iv) <= 55).
  { rewrite Hhi. split.
    - apply Z.log2_le_pow2; lia.
    - assert (Z.log2 (4 * Zpos m + 2) < 56); [|lia]. apply Z.log2_lt_pow2; lia. }
  assert (Hq0 : Z.min 0 (e - 2) <= first_exponent iv <= Z.min 0 (e - 2) + Z.of_nat 1500).
  { unfold first_exponent. rewrite Hexp.
    set (t := Z.log2 (iv_hi iv) + 1 + (e - 2)) in *.
    assert (Hd1 : Z.min 0 (e - 2) - 2 <= t * 30103 / 100000).
    { apply Z.div_le_lower_bound; lia. }
    assert (Hd2 : t * 30103 / 100000 <= 310).
    { apply Z.div_le_upper_bound; lia. }
    lia. }
  destruct (shortest_from_spec 1500 iv (first_exponent iv) (Z.min 0 (e - 2)) Hq0 (hit_low m e))
    as (j & q & Hs & _ & Hhit & Hj).
  exists j, q. split; [exact Hs|]. split; [exact Hhit|].
  unfold hit in Hhit. apply andb_prop in Hhit. destruct Hhit as [H1 H2].
  apply Z.leb_le in H1, H2. split; [lia|].
  assert (Hleast : 1 <= least_multiple iv q).
  { unfold least_multiple.
    assert (HA : 0 < scaleA q (iv_exp iv)).
    { unfold scaleA. apply Z.mul_pos_pos; apply Z.pow_pos_nonneg; lia. }
    assert (HB : 0 < scaleB q (iv_exp iv)).
    { unfold scaleB. apply Z.mul_pos_pos; apply Z.pow_pos_nonneg; lia. }
    destruct (iv_closed iv).
    - apply Z.div_le_lower_bound; nia.
    - assert (0 <= iv_lo iv * scaleB q (iv_exp iv) / scaleA q (iv_exp iv)); [|lia].
      apply Z.div_pos; nia. }
  lia.
Qed.


(** A double that is a non-zero integer is a normal number. *)
Lemma integral_finite (s : bool) (m : positive) (e : Z) (N : Z) :
  valid_binary prec emax (S754_finite s m e) = true ->
  Math.integral (S754_finite s m e) = Some N ->
  2 ^ 52 <= Zpos m < 2 ^ 53 /\
  Z.abs N * 2 ^ Z.max (- (e - 2)) 0 = 4 * Zpos m * 2 ^ Z.max (e - 2) 0.
Proof.
  unfold valid_binary, bounded, canonical_mantissa, fexp, emin, prec, emax.
  intros Hv Hi. apply andb_prop in Hv. destruct Hv as [Hc _].
  apply Z.eqb_eq in Hc. rewrite digits2_pos_log2 in Hc.
  pose proof (Z.log2_spec (Zpos m) ltac:(lia)) as Hlog.
  unfold Math.integral in Hi.
  destruct (0 <=? e) eqn:He.
  - apply Z.leb_le in He. injection Hi as <-.
    assert (Hl : Z.log2 (Zpos m) = 52) by lia.
    rewrite Hl in Hlog. split; [simpl in Hlog; lia|].
    assert (Habs : Z.abs (cond_Zopp s (Zpos m * 2 ^ e)) = Zpos m * 2 ^ e).
    { assert (0 < 2 ^ e) by (apply Z.pow_pos_nonneg; lia).
      destruct s; simpl; lia. }
    rewrite Habs.
    destruct (Z.le_gt_cases 2 e).
    + rewrite (Z.max_r (- (e - 2)) 0), (Z.max_l (e - 2) 0), Z.pow_0_r by lia.
      replace e with (2 + (e - 2)) at 1 by lia. rewrite Z.pow_add_r by lia. lia.
    + rewrite (Z.max_l (- (e - 2)) 0), (Z.max_r (e - 2) 0), Z.pow_0_r by lia.
      assert (e = 0 \/ e = 1) as [-> | ->] by lia; simpl; lia.
  - apply Z.leb_gt in He.
    destruct (Zpos m mod 2 ^ (- e) =? 0) eqn:Hm; [|discriminate Hi].
    apply Z.eqb_eq in Hm. injection Hi as <-.
    assert (Hpow : 0 < 2 ^ (- e)) by (apply Z.pow_pos_nonneg; lia).
    assert (Hdiv : Zpos m = 2 ^ (- e) * (Zpos m / 2 ^ (- e))).
    { pose proof (Z.div_mod (Zpos m) (2 ^ (- e)) ltac:(lia)). lia. }
    assert (Hq : 1 <= Zpos m / 2 ^ (- e)).
    { apply Z.div_le_lower_bound; [lia|]. apply Z.divide_pos_le; [lia|].
      exists (Zpos m / 2 ^ (- e)). lia. }
    assert (Hl : Z.log2 (Zpos m) = 52).
    { destruct (Z.max_spec (Z.log2 (Zpos m) + 1 + e - 53) (3 - 1024 - 53)) as [[_ Hmax]|[_ Hmax]];
        [|lia].
      exfalso. rewrite Hmax in Hc.
      assert (e = -1074) by lia. subst e.
      assert (2 ^ 53 <= 2 ^ (- -1074)) by (apply Z.pow_le_mono_r; lia).
      assert (Zpos m < 2 ^ 53).
      { destruct Hlog as [_ Hlt].
        assert (2 ^ Z.succ (Z.log2 (Zpos m)) <= 2 ^ 53) by (apply Z.pow_le_mono_r; lia).
        lia. }
      nia. }
    rewrite Hl in Hlog. split; [simpl in Hlog; lia|].
    assert (Habs : Z.abs (cond_Zopp s (Zpos m / 2 ^ (- e))) = Zpos m / 2 ^ (- e)).
    { destruct s; simpl; lia. }
    rewrite Habs.
    rewrite (Z.max_l (- (e - 2)) 0), (Z.max_r (e - 2) 0), Z.pow_0_r by lia.
    replace (- (e - 2)) with (2 + - e) by lia. rewrite Z.pow_add_r by lia.
    rewrite Hdiv at 2. simpl (2 ^ 2). lia.
Qed.

(** An integer below [10^21] is rendered without a dot. *)
Lemma integer_renders_without_dot (x : number) (N : Z) :
  valid_binary prec emax x = true ->
  Math.integral x = Some N ->
  Z.abs N < 10 ^ 21 ->
  contains_dot (toString x) = false.
Proof.
  intros Hv Hi Hb. destruct x as [s|s| |s m e]; try discriminate Hi; [reflexivity|].
  destruct (integral_finite s m e N Hv Hi) as [Hn Hx].
  destruct (shortest_integer m e (Z.abs N) Hn Hx Hb) as (j & q & Hs & Hq & Hj & Hk).
  destruct (digits_length j Hj) as [Hk1 _].
  assert (Hpos : contains_dot (toString_pos m e) = false).
  { unfold toString_pos. rewrite Hs. unfold format_decimal.
    set (k := strlen (digits j)) in *.
    assert (H1 : (-5 <=? k + q) && (k + q <=? 21) = true).
    { apply andb_true_intro. split; apply Z.leb_le; lia. }
    assert (H2 : (k <=? k + q) = true) by (apply Z.leb_le; lia).
    rewrite H1, H2. apply contains_dot_append; [apply digits_no_dot|apply zeros_no_dot]. }
  unfold toString. destruct s; cbn [append].
  - apply contains_dot_cons; [reflexivity|exact Hpos].
  - exact Hpos.
Qed.

(** *** The fraction digits of [toFixed] *)

Lemma NumDecimals_decimals_of (x : number) : _NumDecimals x = decimals_of (toString x).
Proof. reflexivity. Qed.

Lemma substring_no_dot (n k : nat) (s : string) :
  contains_dot s = false -> contains_dot (substring n k s) = false.
Proof.
  revert n k. induction s as [|a s IH]; intros n k H.
  - destruct n, k; reflexivity.
  - unfold contains_dot in H. cbn [indexOf] in H.
    destruct (Ascii.eqb a ".") eqn:Ea; [discriminate H|].
    assert (Hs : contains_dot s = false).
    { unfold contains_dot. destruct (indexOf s "." <? 0) eqn:E.
      - apply Z.ltb_lt in E. apply Z.ltb_ge. lia.
      - apply Z.ltb_ge in E, H. lia. }
    destruct n as [|n]; cbn [substring].
    + destruct k as [|k]; [reflexivity|].
      apply contains_dot_cons; [exact Ea|]. apply IH. exact Hs.
    + apply IH. exact Hs.
Qed.

Lemma length_substring (n k : nat) (s : string) :
  (n + k <= String.length s)%nat -> String.length (substring n k s) = k.
Proof.
  revert n k. induction s as [|a s IH]; intros n k H; cbn [String.length] in H.
  - assert (n = O /\ k = O) as [-> ->] by lia. reflexivity.
  - destruct n as [|n]; cbn [substring].
    + destruct k as [|k]; [reflexivity|]. cbn [String.length]. rewrite IH by lia. reflexivity.
    + apply IH. lia.
Qed.

Lemma length_zeros (n : nat) : String.length (zeros n) = n.
Proof. induction n as [|n IH]; [reflexivity|]. cbn [zeros String.length]. rewrite IH. reflexivity. Qed.

Lemma decimals_of_split (a b : string) :
  contains_dot a = false -> decimals_of (a +:+ "." +:+ b) = strlen b.
Proof.
  intros Ha. unfold decimals_of.
  change (a +:+ "." +:+ b) with (a +:+ String "." b).
  rewrite (indexOf_first_dot a b Ha), strlen_append.
  assert (Hlen : strlen (String "." b) = 1 + strlen b).
  { unfold strlen. cbn [String.length]. lia. }
  rewrite Hlen. destruct (-1 <? strlen a) eqn:E; [lia|].
  apply Z.ltb_ge in E. unfold strlen in E. lia.
Qed.

Lemma toFixed_digits_split (n : Z) (f : nat) :
  f <> O ->
  exists a b, toFixed_digits n f = a +:+ "." +:+ b /\
              contains_dot a = false /\ String.length b = f.
Proof.
  intros Hf. unfold toFixed_digits.
  destruct (Nat.eqb_spec f 0) as [|_]; [contradiction|].
  set (m0 := digits n).
  set (m1 := if (String.length m0 <=? f)%nat then zeros (f + 1 - String.length m0) +:+ m0 else m0).
  assert (Hdot : contains_dot m1 = false).
  { subst m1. destruct (String.length m0 <=? f)%nat.
    - apply contains_dot_append; [apply zeros_no_dot|apply digits_no_dot].
    - apply digits_no_dot. }
  assert (Hlen : (f + 1 <= String.length m1)%nat).
  { subst m1. destruct (Nat.leb_spec (String.length m0) f).
    - rewrite length_append, length_zeros. lia.
    - lia. }
  eexists _, _. split; [reflexivity|]. split.
  - apply substring_no_dot. exact Hdot.
  - apply length_substring. lia.
Qed.

(** Below [10^21], [toFixed] with [f > 0] fraction digits renders exactly
    [f] characters after the dot. *)
Lemma toFixed_decimals (x : number) (f : nat) :
  match x with
  | S754_finite _ m e => numerator m e < 10 ^ 21 * denominator e
  | S754_zero _ => True
  | _ => False
  end ->
  f <> O ->
  decimals_of (toFixed x f) = Z.of_nat f.
Proof.
  intros Hx Hf. destruct x as [s|s| |s m e]; try contradiction.
  - unfold toFixed. destruct (toFixed_digits_split 0 f Hf) as (a & b & -> & Ha & Hb).
    rewrite (decimals_of_split a b Ha). unfold strlen. rewrite Hb. reflexivity.
  - unfold toFixed. apply Z.leb_gt in Hx. rewrite Hx.
    set (n := (2 * numerator m e * 10 ^ Z.of_nat f + denominator e) / (2 * denominator e)).
    destruct (toFixed_digits_split n f Hf) as (a & b & -> & Ha & Hb).
    destruct s.
    + change ("-" +:+ a +:+ "." +:+ b) with (String "-" a +:+ "." +:+ b).
      rewrite decimals_of_split by (apply contains_dot_cons; [reflexivity|exact Ha]).
      unfold strlen. rewrite Hb. reflexivity.
    + change ("" +:+ a +:+ "." +:+ b) with (a +:+ "." +:+ b).
      rewrite (decimals_of_split a b Ha). unfold strlen. rewrite Hb. reflexivity.
Qed.

(** C5. The display-string rule: ["0"] for [null] and [undefined]; for a
    number whose decimal count exceeds [_precision], the number in fixed
    notation with [_precision] decimals, which below [10^21] has exactly
    that many characters after the dot, and no dot when [_precision] is
    [0]; otherwise its rendering. The rule gives the displayed string at
    construction, after a commit that fired and after a notification from
    another component. *)
Theorem display_string_rule (c : InspectorNumber) :
  _getFinalValueString c Null = "0" /\
  _getFinalValueString c Undefined = "0" /\
  (forall x, _precision c < _NumDecimals x ->
             _getFinalValueString c (Num x) = toFixed x (Z.to_nat (_precision c))) /\
  (forall s m e,
      _precision c < _NumDecimals (S754_finite s m e) ->
      numerator m e < 10 ^ 21 * denominator e ->
      (0 < _precision c ->
       decimals_of (_getFinalValueString c (Num (S754_finite s m e))) = _precision c) /\
      (_precision c = 0 ->
       contains_dot (_getFinalValueString c (Num (S754_finite s m e))) = false)) /\
  (forall x, _NumDecimals x <= _precision c ->
             _getFinalValueString c (Num x) = toString x) /\
  (forall u p h h', constructor u p h = Ok (c, h') ->
                    value (state c) = _getFinalValueString c (read_bound c h')) /\
  (forall st, this st = c ->
              strict_equals (read_bound c (heap st)) (_initialValue c) = false ->
              value (state (this (_handleValueFinishChanged st))) =
                _getFinalValueString c (read_bound c (heap st))) /\
  (forall h, value (state (componentDidMount_callback c h)) =
               _getFinalValueString c (read_bound c h)).
Proof.
  assert (Hfix : forall x, _precision c < _NumDecimals x ->
                           _getFinalValueString c (Num x) = toFixed x (Z.to_nat (_precision c))).
  { intros x H. unfold _getFinalValueString. apply Z.ltb_lt in H. rewrite H. reflexivity. }
  split; [reflexivity|]. split; [reflexivity|]. split; [exact Hfix|].
  split.
  { intros s m e Hd Hb. rewrite (Hfix _ Hd). split.
    - intros Hp. rewrite (toFixed_decimals (S754_finite s m e)); [lia|exact Hb|lia].
    - intros ->. apply toFixed_0_whole. exact Hb. }
  split.
  { intros x H. unfold _getFinalValueString. apply Z.ltb_ge in H. rewrite H. reflexivity. }
  split.
  { intros u p h h' H. apply (constructor_display u p h h' c H). }
  split; [|reflexivity].
  intros st <- H. destruct (commit_changed st H) as (_ & -> & _). reflexivity.
Qed.

Lemma display_string_rule_witness :
  (_precision demo_component < _NumDecimals (num "2.567") /\
   numerator 5780370121730032 (-51) < 10 ^ 21 * denominator (-51) /\
   0 < _precision demo_component /\
   _NumDecimals (num "2.5") <= _precision demo_component /\
   constructor 7%positive demo_props demo_heap = Ok (demo_component, demo_heap)) /\
  _getFinalValueString demo_component (Num (num "2.567")) = "2.6" /\
  decimals_of (_getFinalValueString demo_component (Num (num "2.567"))) =
    _precision demo_component /\
  _getFinalValueString demo_component (Num (num "2.5")) = "2.5" /\
  value (state demo_component) = "1".
Proof.
  assert (Hnum : num "2.567" = S754_finite false 5780370121730032 (-51))
    by (vm_compute; reflexivity).
  assert (H1 : _precision demo_component < _NumDecimals (num "2.567"))
    by (vm_compute; reflexivity).
  assert (H2 : _NumDecimals (num "2.5") <= _precision demo_component)
    by (vm_compute; discriminate).
  assert (H3 : constructor 7%positive demo_props demo_heap = Ok (demo_component, demo_heap))
    by (vm_compute; reflexivity).
  assert (H4 : numerator 5780370121730032 (-51) < 10 ^ 21 * denominator (-51))
    by (vm_compute; reflexivity).
  assert (H5 : 0 < _precision demo_component) by (vm_compute; reflexivity).
  destruct (display_string_rule demo_component) as (_ & _ & Hfix & Hdec & Hstr & Hctor & _).
  split; [repeat split; assumption|]. split; [|split; [|split]].
  - rewrite (Hfix _ H1). vm_compute. reflexivity.
  - rewrite Hnum in *. apply (Hdec _ _ _ H1 H4). exact H5.
  - rewrite (Hstr _ H2). vm_compute. reflexivity.
  - rewrite (Hctor _ _ _ _ H3). vm_compute. reflexivity.
Defined.

Lemma refresh_with_precision_0 (c : InspectorNumber) (h : heap_t) (x : number) :
  _precision c = 0 ->
  read_bound c h = Num x ->
  value (state (componentDidMount_callback c h)) =
    if 0 <? _NumDecimals x then toFixed x 0 else toString x.
Proof.
  intros Hp Hx. unfold componentDidMount_callback. simpl.
  rewrite Hx. unfold _getFinalValueString. rewrite Hp. reflexivity.
Qed.

(** C10, as the code has it. The decimal count is read off the
    rendering: [0] when it has no dot, as for every integer of magnitude
    below [10^21] and for [1e-7] (rendered ["1e-7"]) and [1e21] (rendered
    ["1e+21"]); otherwise the number of characters after the first dot,
    [4] for [1.5e-7] and [5] for the integer [1.5e21], rendered
    ["1.5e+21"]. A component whose implied step renders without a dot has
    precision [0]; a refresh then displays a number with a positive
    decimal count through [toFixed(0)], a whole number when the magnitude
    is below [10^21], and any other number in its rendering. *)
Theorem decimal_count_follows_rendering :
  (forall x, contains_dot (toString x) = false -> _NumDecimals x = 0) /\
  (forall x pre post,
      toString x = pre +:+ "." +:+ post -> contains_dot pre = false ->
      _NumDecimals x = strlen post) /\
  (forall x N,
      valid_binary prec emax x = true -> Math.integral x = Some N ->
      Z.abs N < 10 ^ 21 -> _NumDecimals x = 0) /\
  (toString (num "1e-7") = "1e-7" /\ _NumDecimals (num "1e-7") = 0) /\
  (toString (num "1e21") = "1e+21" /\ _NumDecimals (num "1e21") = 0) /\
  (toString (num "1.5e-7") = "1.5e-7" /\ _NumDecimals (num "1.5e-7") = 4) /\
  (isInteger (num "1.5e21") = true /\ toString (num "1.5e21") = "1.5e+21" /\
   _NumDecimals (num "1.5e21") = 5) /\
  (forall u p h c h',
      constructor u p h = Ok (c, h') ->
      contains_dot (toString (_impliedStep c)) = false -> _precision c = 0) /\
  (forall c h x,
      _precision c = 0 -> read_bound c h = Num x ->
      value (state (componentDidMount_callback c h)) =
        if 0 <? _NumDecimals x then toFixed x 0 else toString x) /\
  (forall s m e,
      numerator m e < 10 ^ 21 * denominator e ->
      contains_dot (toFixed (S754_finite s m e) 0) = false).
Proof.
  split; [exact NumDecimals_no_dot|].
  split; [exact NumDecimals_after_dot|].
  split.
  { intros x N Hv Hi Hb. apply NumDecimals_no_dot.
    exact (integer_renders_without_dot x N Hv Hi Hb). }
  split; [split; vm_compute; reflexivity|].
  split; [split; vm_compute; reflexivity|].
  split; [split; vm_compute; reflexivity|].
  split; [repeat split; vm_compute; reflexivity|].
  split; [|split; [exact refresh_with_precision_0|exact toFixed_0_whole]].
  intros u p h c h' H Hdot.
  destruct (constructor_fields u p h h' c H) as (v & _ & _ & ->).
  apply NumDecimals_no_dot. exact Hdot.
Qed.

Lemma decimal_count_follows_rendering_witness :
  (contains_dot (toString (num "1e-7")) = false /\
   toString (num "1.5e-7") = "1" +:+ "." +:+ "5e-7" /\
   contains_dot "1" = false /\
   valid_binary prec emax (num "1000") = true /\
   Math.integral (num "1000") = Some 1000 /\
   Z.abs 1000 < 10 ^ 21 /\
   constructor 7%positive demo_props zero_heap = Ok (whole_component, zero_heap) /\
   contains_dot (toString (_impliedStep whole_component)) = false /\
   read_bound whole_component demo_heap = Num (num "1")) /\
  _NumDecimals (num "1e-7") = 0 /\
  _NumDecimals (num "1.5e-7") = strlen "5e-7" /\
  _NumDecimals (num "1000") = 0 /\
  _precision whole_component = 0 /\
  value (state (componentDidMount_callback whole_component demo_heap)) =
    if 0 <? _NumDecimals (num "1") then toFixed (num "1") 0 else toString (num "1").
Proof.
  assert (H1 : contains_dot (toString (num "1e-7")) = false) by (vm_compute; reflexivity).
  assert (H2 : toString (num "1.5e-7") = "1" +:+ "." +:+ "5e-7") by (vm_compute; reflexivity).
  assert (H3 : contains_dot "1" = false) by reflexivity.
  assert (H4 : constructor 7%positive demo_props zero_heap = Ok (whole_component, zero_heap))
    by (vm_compute; reflexivity).
  assert (H5 : contains_dot (toString (_impliedStep whole_component)) = false)
    by (vm_compute; reflexivity).
  assert (H6 : read_bound whole_component demo_heap = Num (num "1")) by (vm_compute; reflexivity).
  assert (H7 : valid_binary prec emax (num "1000") = true) by (vm_compute; reflexivity).
  assert (H8 : Math.integral (num "1000") = Some 1000) by (vm_compute; reflexivity).
  assert (H9 : Z.abs 1000 < 10 ^ 21) by (vm_compute; reflexivity).
  destruct decimal_count_follows_rendering
    as (Ha & Hb & Hi & _ & _ & _ & _ & Hc & Hd & _).
  split; [repeat split; assumption|].
  split; [exact (Ha _ H1)|].
  split; [exact (Hb _ _ _ H2 H3)|].
  split; [exact (Hi _ _ H7 H8 H9)|].
  split; [exact (Hc _ _ _ _ _ H4 H5)|].
  exact (Hd whole_component demo_heap (num "1") eq_refl H6).
Defined.

(** Two places where the rendering decides otherwise: the
    integer [1.5e21] is rendered with a dot and has decimal count [5];
    and a component of precision [0] displays [1e-7], whose rendering has
    no dot, as ["1e-7"] and not as the whole number ["0"]. *)
Lemma decimal_count_counterexample :
  (isInteger (num "1.5e21") = true /\
   contains_dot (toString (num "1.5e21")) = true /\
   _NumDecimals (num "1.5e21") = 5) /\
  (constructor 7%positive demo_props zero_heap = Ok (whole_component, zero_heap) /\
   contains_dot (toString (_impliedStep whole_component)) = false /\
   _precision whole_component = 0 /\
   read_bound whole_component tiny_heap = Num (num "1e-7") /\
   value (state (componentDidMount_callback whole_component tiny_heap)) = "1e-7" /\
   toFixed (num "1e-7") 0 = "0").
Proof. split; repeat split; vm_compute; reflexivity. Qed.

(** ** Scenarios *)

(** A property that is 0 gives the implied step 1 and the precision 0;
    typing ["2.5"] stores 2.5 and displays the text as typed, while a
    refresh of a component of that precision displays ["3"]. *)
Example scenario_precision_0 :
  constructor 7%positive demo_props zero_heap = Ok (whole_component, zero_heap) /\
  toString (_impliedStep whole_component) = "1" /\
  _precision whole_component = 0 /\
  (let st := _handleValueChanged "2.5" false (initial whole_component zero_heap) in
   read_bound whole_component (heap st) = Num (num "2.5") /\
   value (state (this st)) = "2.5" /\
   value (state (componentDidMount_callback whole_component (heap st))) = "3").
Proof. vm_compute. repeat split; reflexivity. Qed.

(** Between 0 and 10, a drag that computes [-3] stores 0 and displays
    ["0"]. *)
Example scenario_drag_below_min :
  let st := run [Focus; MouseDown (num "100"); MouseMove (num "140")] demo in
  text_of (Drag (num "140")) (run [Focus; MouseDown (num "100")] demo) = "-3" /\
  read_bound (this demo) (heap st) = Num (num "0") /\
  value (state (this st)) = "0".
Proof. vm_compute. repeat split; reflexivity. Qed.

(** The rendering of a number parses back to it, on samples. *)
Example rendering_parses_back :
  Forall (fun x => parseFloat (toString x) = x)
         [num "3.14159"; num "0.1"; num "-2.5"; num "1e21"; num "1.5e-7";
          num "5e-324"; num "1.7976931348623157e308"; num "123456789012345680000"].
Proof. repeat constructor. Qed.

(** * Further properties of the component *)

(** ** What no event changes *)

Lemma same_configuration_refl (c : InspectorNumber) : same_configuration c c.
Proof. repeat split; reflexivity. Qed.

Lemma same_configuration_trans (c1 c2 c3 : InspectorNumber) :
  same_configuration c1 c2 -> same_configuration c2 c3 -> same_configuration c1 c3.
Proof.
  intros (A1 & A2 & A3 & A4) (B1 & B2 & B3 & B4).
  repeat split; congruence.
Qed.

Lemma confined_refl (st : State) : confined st st.
Proof.
  split; [apply same_configuration_refl|]. repeat split; auto.
Qed.

Lemma confined_trans (s1 s2 s3 : State) :
  confined s1 s2 -> confined s2 s3 -> confined s1 s3.
Proof.
  intros (A1 & A2 & A3 & A4) (B1 & B2 & B3 & B4).
  pose proof A1 as (_ & Hp & _).
  unfold read_bound in *. rewrite Hp in *.
  split; [eapply same_configuration_trans; eassumption|].
  split; [congruence|]. split.
  - intros o q H. rewrite B3 by exact H. apply A3. exact H.
  - auto.
Qed.

(** A step that changes neither the heap nor the registrations and keeps
    the configuration is confined. *)
Lemma confined_local (st st' : State) :
  same_configuration (this st) (this st') ->
  handlers st' = handlers st -> heap st' = heap st -> confined st st'.
Proof.
  intros Hc Hh Hheap. split; [exact Hc|]. split; [exact Hh|].
  rewrite Hheap. split; auto.
Qed.

Lemma handleValueChanged_confined (text : string) (b : bool) (st : State) :
  confined st (_handleValueChanged text b st).
Proof.
  destruct (String.eqb_spec text "") as [->|Hne].
  - rewrite handleValueChanged_empty. apply confined_local; try reflexivity.
    repeat split; reflexivity.
  - destruct (handleValueChanged_nonempty text b st Hne) as (Hh & Ht & _ & Hhs & _).
    split; [rewrite Ht; repeat split; reflexivity|].
    split; [exact Hhs|]. rewrite Hh. split.
    + intros o q H. apply get_set_property_other. exact H.
    + intros _. unfold read_bound. rewrite get_set_property. reflexivity.
Qed.

Lemma commit_confined (st : State) : confined st (_handleValueFinishChanged st).
Proof.
  destruct (strict_equals (read_bound (this st) (heap st)) (_initialValue (this st))) eqn:E.
  - rewrite (commit_unchanged st E). apply confined_refl.
  - destruct (commit_changed st E) as (Hh & Ht & _ & Hhs & _).
    apply confined_local; try assumption.
    rewrite Ht. repeat split; reflexivity.
Qed.

Lemma commit_fields (st : State) :
  let st' := _handleValueFinishChanged st in
  document st' = document st /\ fresh st' = fresh st /\ focused st' = focused st /\
  _isFocused (this st') = _isFocused (this st) /\
  _mouseMoveListener (this st') = _mouseMoveListener (this st) /\
  _mouseUpListener (this st') = _mouseUpListener (this st) /\
  _lastMousePosition (this st') = _lastMousePosition (this st) /\
  _input (this st') = _input (this st).
Proof.
  intros st'. subst st'.
  destruct (strict_equals (read_bound (this st) (heap st)) (_initialValue (this st))) eqn:E.
  - rewrite (commit_unchanged st E). repeat split; reflexivity.
  - destruct (commit_changed st E) as (_ & Ht & _ & _ & Hd & Hf & Hn).
    rewrite Ht, Hd, Hf, Hn. repeat split; reflexivity.
Qed.

Lemma blurred_confined (st : State) : confined st (_handleInputBlurred st).
Proof.
  unfold _handleInputBlurred.
  eapply confined_trans; [|apply commit_confined].
  apply confined_local; try reflexivity. repeat split; reflexivity.
Qed.

Lemma blur_confined (st : State) : confined st (blur st).
Proof.
  unfold blur. destruct (focused st); [|apply confined_refl].
  eapply confined_trans; [|apply blurred_confined].
  apply confined_local; try reflexivity. repeat split; reflexivity.
Qed.

Lemma mouseMove_confined (y : number) (st : State) : confined st (mouseMoveListener y st).
Proof.
  unfold mouseMoveListener.
  eapply confined_trans; [apply handleValueChanged_confined|].
  apply confined_local; try reflexivity. repeat split; reflexivity.
Qed.

Lemma clicked_confined (y : number) (st : State) : confined st (_handleInputClicked y st).
Proof.
  unfold _handleInputClicked. destruct (_isFocused (this st)); simpl.
  - apply confined_local; try reflexivity. repeat split; reflexivity.
  - apply confined_refl.
Qed.

Lemma mouseUp_confined (st : State) : confined st (_handleMouseUp st).
Proof.
  change (_handleMouseUp st) with (_handleValueFinishChanged (teardown st)).
  eapply confined_trans; [|apply commit_confined].
  destruct (teardown_spec st) as (_ & _ & Ht & Hh).
  apply confined_local; try assumption.
  - rewrite Ht. repeat split; reflexivity.
  - unfold teardown.
    destruct (_mouseMoveListener (this st)), (_mouseUpListener (this st)) eqn:E;
      simpl; rewrite ?E; reflexivity.
Qed.

Lemma fold_confined {A : Type} (f : State -> A -> State) (l : list A) (st : State) :
  (forall s a, confined s (f s a)) -> confined st (fold_left f l st).
Proof.
  intros Hf. revert st. induction l as [|a l IH]; intros st; simpl.
  - apply confined_refl.
  - eapply confined_trans; [apply Hf|apply IH].
Qed.

Lemma dispatch_document_confined (type : string) (body : State -> State) (st : State) :
  (forall s, confined s (body s)) -> confined st (dispatch_document type body st).
Proof.
  intros Hb. unfold dispatch_document. apply fold_confined.
  intros s a. destruct (_ && _); [apply Hb|apply confined_refl].
Qed.

Lemma dispatch_confined (e : event) (st : State) : confined st (dispatch e st).
Proof.
  destruct e as [| |text|v|y|key|y|]; simpl.
  - apply confined_local; try reflexivity. repeat split; reflexivity.
  - apply blur_confined.
  - apply handleValueChanged_confined.
  - destruct (has_slider _); [apply handleValueChanged_confined|apply confined_refl].
  - apply clicked_confined.
  - destruct (String.eqb key "Enter"); [|apply confined_refl].
    unfold _handleEnterKeyPressed.
    eapply confined_trans; [|apply commit_confined].
    destruct (_input (this st)); [apply blur_confined|apply confined_refl].
  - apply dispatch_document_confined. intros s. apply mouseMove_confined.
  - apply dispatch_document_confined. intros s. apply mouseUp_confined.
Qed.

Lemma run_confined (es : list event) (st : State) : confined st (run es st).
Proof.
  unfold run. apply fold_confined. intros s a. apply dispatch_confined.
Qed.

(** ** Mouse down *)

Lemma clicked_unfocused (y : number) (st : State) :
  _isFocused (this st) = false -> _handleInputClicked y st = st.
Proof. intros H. unfold _handleInputClicked. rewrite H. reflexivity. Qed.

Lemma clicked_focused (y : number) (st : State) :
  _isFocused (this st) = true ->
  let st' := _handleInputClicked y st in
  let f := fresh st in
  document st' = document st ++ [("mousemove", f); ("mouseup", S f)] /\
  this st' = with_listeners (with_lastMousePosition (this st) y) (Some f) (Some (S f)) /\
  fresh st' = S (S f) /\
  heap st' = heap st /\
  handlers st' = handlers st /\
  focused st' = focused st /\
  trace st' = trace st ++ [CallAddEventListener "mousemove" f;
                           CallAddEventListener "mouseup" (S f)].
Proof.
  intros H. unfold _handleInputClicked. rewrite H. simpl.
  rewrite <- !app_assoc. repeat split; reflexivity.
Qed.

Lemma filter_known (d : list (string * listener)) (f : listener)
      (rs : list (string * listener)) :
  forallb (fun e => Nat.ltb (snd e) f) d = true ->
  (forall r, In r rs -> (f <= snd r)%nat) ->
  List.filter (detached rs) d = d.
Proof.
  intros Hd Hrs. induction d as [|e d IH]; simpl in *; [reflexivity|].
  apply andb_true_iff in Hd as [He Hd].
  assert (Hdet : detached rs e = true).
  { unfold detached. apply negb_true_iff.
    apply not_true_is_false. intros Hex.
    apply existsb_exists in Hex as (r & Hin & Hsame).
    unfold same_listener in Hsame. apply andb_true_iff in Hsame as [_ Hsame].
    apply Nat.eqb_eq in Hsame. apply Nat.ltb_lt in He.
    specialize (Hrs r Hin). simpl in *. lia. }
  rewrite Hdet, IH by exact Hd. reflexivity.
Qed.

Lemma mouse_up_after_click (y : number) (st : State) :
  _isFocused (this st) = true ->
  listeners_known st = true ->
  document (_handleMouseUp (_handleInputClicked y st)) = document st /\
  _mouseMoveListener (this (_handleMouseUp (_handleInputClicked y st))) = None /\
  _mouseUpListener (this (_handleMouseUp (_handleInputClicked y st))) = None.
Proof.
  intros Hf Hk.
  destruct (clicked_focused y st Hf) as (Hd & Ht & _).
  set (st1 := _handleInputClicked y st) in *.
  change (_handleMouseUp st1) with (_handleValueFinishChanged (teardown st1)).
  destruct (commit_fields (teardown st1)) as (Hd' & _ & _ & _ & Hm & Hu & _).
  destruct (teardown_spec st1) as (_ & Hd'' & Ht' & _).
  rewrite Hd', Hm, Hu, Ht', Hd'', Ht, Hd. simpl.
  split; [|split; reflexivity].
  unfold present. cbn [app]. rewrite List.filter_app.
  rewrite (filter_known _ (fresh st)); [| exact Hk | intros r [<-|[<-|[]]]; simpl; lia].
  unfold detached, same_listener. simpl. rewrite !Nat.eqb_refl. simpl.
  rewrite app_nil_r. reflexivity.
Qed.

(** ** The constructor *)

(** X1. The constructor throws, with the message
    "Only number are supported for InspectorNumber components.", exactly
    when the bound property is not a number and no default value is given;
    in every other case it returns a component whose bound property holds
    a number. *)
Theorem constructor_outcome (u : ident) (p : IInspectorNumberProps) (h : heap_t) :
  let v := get_property h (object p) (property p) in
  match constructor u p h with
  | Throw message =>
      message = "Only number are supported for InspectorNumber components." /\
      is_number v = false /\ defaultValue p = None
  | Ok (c, h') =>
      (is_number v = true \/ exists d, defaultValue p = Some d) /\
      is_number (read_bound c h') = true
  end.
Proof.
  unfold constructor, read_bound.
  destruct (defaultValue p) as [d|];
    destruct (get_property h (object p) (property p)) as [| |x] eqn:E; simpl;
    rewrite ?get_set_property, ?E; repeat split; eauto.
Qed.

(** X2. When the bound property is not a number and a default value is
    given, the constructor writes the default into [object[property]],
    takes it as the initial value and displays its string; no other
    property of the heap is changed. *)
Theorem constructor_installs_default (u : ident) (p : IInspectorNumberProps) (h : heap_t)
        (d : number) :
  defaultValue p = Some d ->
  is_number (get_property h (object p) (property p)) = false ->
  exists c,
    constructor u p h = Ok (c, set_property h (object p) (property p) (Num d)) /\
    read_bound c (set_property h (object p) (property p) (Num d)) = Num d /\
    _initialValue c = Num d /\
    value (state c) = _getFinalValueString c (Num d) /\
    forall o q, object p <> o \/ property p <> q ->
                get_property (set_property h (object p) (property p) (Num d)) o q =
                get_property h o q.
Proof.
  intros Hd Hn. unfold constructor, read_bound. rewrite Hd.
  destruct (get_property h (object p) (property p)) as [| |x]; try discriminate Hn;
    simpl; eexists; (split; [reflexivity|]); simpl; rewrite get_set_property;
    repeat split; try reflexivity; intros o q H; apply get_set_property_other; exact H.
Qed.

Lemma constructor_installs_default_witness :
  (defaultValue (with_default demo_props (Some (num "5"))) = Some (num "5") /\
   is_number (get_property ∅ (object (with_default demo_props (Some (num "5"))))
                           (property (with_default demo_props (Some (num "5"))))) = false) /\
  exists c,
    constructor 7%positive (with_default demo_props (Some (num "5"))) ∅ =
      Ok (c, set_property ∅ 1%positive "x" (Num (num "5"))) /\
    read_bound c (set_property ∅ 1%positive "x" (Num (num "5"))) = Num (num "5") /\
    _initialValue c = Num (num "5").
Proof.
  assert (H1 : defaultValue (with_default demo_props (Some (num "5"))) = Some (num "5"))
    by reflexivity.
  assert (H2 : is_number (get_property ∅ (object (with_default demo_props (Some (num "5"))))
                            (property (with_default demo_props (Some (num "5"))))) = false)
    by reflexivity.
  split; [split; assumption|].
  destruct (constructor_installs_default 7%positive (with_default demo_props (Some (num "5")))
              ∅ (num "5") H1 H2) as (c & Hc & Hr & Hi & _).
  exists c. split; [exact Hc|]. split; [exact Hr|exact Hi].
Defined.

(** X3. When the bound property already holds a number the constructor
    leaves the heap as it is, a default value being ignored; the number is
    the initial value and the one displayed. *)
Theorem constructor_keeps_a_number (u : ident) (p : IInspectorNumberProps) (h : heap_t)
        (x : number) :
  get_property h (object p) (property p) = Num x ->
  exists c,
    constructor u p h = Ok (c, h) /\
    _initialValue c = Num x /\
    value (state c) = _getFinalValueString c (Num x).
Proof.
  intros Hx. unfold constructor. rewrite Hx.
  destruct (defaultValue p) as [d|]; simpl; eexists; (split; [reflexivity|]); simpl;
    split; reflexivity.
Qed.

Lemma constructor_keeps_a_number_witness :
  get_property demo_heap (object (with_default demo_props (Some (num "5"))))
               (property (with_default demo_props (Some (num "5")))) = Num (num "1") /\
  exists c,
    constructor 7%positive (with_default demo_props (Some (num "5"))) demo_heap =
      Ok (c, demo_heap) /\
    _initialValue c = Num (num "1") /\
    value (state c) = _getFinalValueString c (Num (num "1")).
Proof.
  assert (H : get_property demo_heap (object (with_default demo_props (Some (num "5"))))
                (property (with_default demo_props (Some (num "5")))) = Num (num "1"))
    by (vm_compute; reflexivity).
  split; [exact H|].
  exact (constructor_keeps_a_number 7%positive (with_default demo_props (Some (num "5")))
           demo_heap (num "1") H).
Defined.

(** X4. Right after construction the commit step has nothing to report:
    it leaves the state as it is, unless the bound property is [NaN],
    which differs from itself, so that [onFinishChange(NaN, NaN)] is
    called. *)
Theorem fresh_component_has_nothing_to_commit (u : ident) (p : IInspectorNumberProps)
        (h h' : heap_t) (c : InspectorNumber) (st : State) :
  constructor u p h = Ok (c, h') ->
  this st = c -> heap st = h' ->
  (read_bound c h' <> Num NaN -> _handleValueFinishChanged st = st) /\
  (read_bound c h' = Num NaN ->
   onFinishChange p = true ->
   onFinishChange_calls (emitted st (_handleValueFinishChanged st)) = [(Num NaN, Num NaN)]).
Proof.
  intros Hc Ht Hh.
  destruct (constructor_display u p h h' c Hc) as (Hp & _ & _ & Hi & _).
  split.
  - intros Hnan. apply commit_unchanged. rewrite Ht, Hh, Hi.
    apply strict_equals_refl. exact Hnan.
  - intros Hnan Hcb.
    assert (E : strict_equals (read_bound (this st) (heap st)) (_initialValue (this st)) = false).
    { rewrite Ht, Hh, Hi, Hnan. reflexivity. }
    destruct (commit_changed st E) as (_ & _ & Htr & _).
    rewrite (emitted_app _ _ _ Htr).
    rewrite Ht, Hh, Hp, Hcb, Hi, Hnan.
    unfold onFinishChange_calls. rewrite omap_app. simpl.
    rewrite omap_observers by reflexivity. reflexivity.
Qed.

Lemma fresh_component_has_nothing_to_commit_witness :
  (constructor 7%positive demo_props demo_heap = Ok (demo_component, demo_heap) /\
   this (initial demo_component demo_heap) = demo_component /\
   heap (initial demo_component demo_heap) = demo_heap /\
   read_bound demo_component demo_heap <> Num NaN) /\
  _handleValueFinishChanged (initial demo_component demo_heap) =
    initial demo_component demo_heap.
Proof.
  assert (H1 : constructor 7%positive demo_props demo_heap = Ok (demo_component, demo_heap))
    by (vm_compute; reflexivity).
  assert (H2 : read_bound demo_component demo_heap <> Num NaN)
    by (vm_compute; discriminate).
  split; [repeat split; try assumption; reflexivity|].
  exact (proj1 (fresh_component_has_nothing_to_commit 7%positive demo_props demo_heap demo_heap
                  demo_component (initial demo_component demo_heap) H1 eq_refl eq_refl) H2).
Defined.

(** ** The bounds *)

Lemma lt_irrefl (x : number) : lt x x = false.
Proof.
  unfold lt, SFltb. pose proof (SFcompare_antisym x x) as H.
  destruct (SFcompare x x) as [[]|]; simpl in *; congruence.
Qed.

Lemma apply_bounds_max (lo : option number) (M v : number) :
  gt (apply_bounds lo (Some M) v) M = false.
Proof.
  unfold apply_bounds.
  set (w := match lo with Some m => if lt v m then m else v | None => v end).
  destruct (gt w M) eqn:E; [|exact E]. unfold gt. apply lt_irrefl.
Qed.

Lemma apply_bounds_min (m : number) (hi : option number) (v : number) :
  match hi with Some M => le m M = true | None => True end ->
  lt (apply_bounds (Some m) hi v) m = false.
Proof.
  intros Hhi. unfold apply_bounds.
  assert (H1 : lt (if lt v m then m else v) m = false).
  { destruct (lt v m) eqn:E; [apply lt_irrefl|exact E]. }
  destruct hi as [M|]; [|exact H1].
  destruct (gt (if lt v m then m else v) M); [|exact H1].
  apply le_not_gt. exact Hhi.
Qed.

(** X5. After a change with a text that is not empty the stored number
    is never above [max] when [max] is given, whatever [min] is; and it is
    never below [min] when [min] is given and [max] is absent or not below
    [min]. Each bound may be given without the other. *)
Theorem stored_value_respects_bounds (o : origin) (st : State) :
  text_of o st <> "" ->
  exists r,
    read_bound (this st) (heap (change o st)) = Num r /\
    (forall M, max (props (this st)) = Some M -> gt r M = false) /\
    (forall m, min (props (this st)) = Some m ->
               match max (props (this st)) with
               | Some M => le m M = true
               | None => True
               end ->
               lt r m = false).
Proof.
  intros Hne. destruct (change_nonempty o st Hne) as (Hh & _).
  eexists. split; [unfold read_bound; rewrite Hh; apply get_set_property|].
  unfold parsed. split.
  - intros M ->. apply apply_bounds_max.
  - intros m -> HM. apply apply_bounds_min. exact HM.
Qed.

Lemma stored_value_respects_bounds_witness :
  text_of (Keyboard "12") demo <> "" /\
  exists r,
    read_bound (this demo) (heap (change (Keyboard "12") demo)) = Num r /\
    gt r (num "10") = false /\
    lt r (num "0") = false.
Proof.
  assert (H : text_of (Keyboard "12") demo <> "") by discriminate.
  split; [exact H|].
  destruct (stored_value_respects_bounds (Keyboard "12") demo H) as (r & H1 & H2 & H3).
  exists r. split; [exact H1|]. split.
  - apply H2. reflexivity.
  - apply (H3 (num "0")); [reflexivity|]. vm_compute. reflexivity.
Defined.

(** ** Renderings are never empty *)

Lemma digits_fuel_grows (fuel : nat) (n : Z) (acc : string) :
  (String.length acc <= String.length (digits_fuel fuel n acc))%nat.
Proof.
  revert n acc. induction fuel as [|fuel IH]; intros n acc; cbn [digits_fuel]; [lia|].
  destruct (n <? 10).
  - cbn [String.length]. lia.
  - specialize (IH (n / 10) (String (digit_char (n mod 10)) acc)).
    cbn [String.length] in IH. lia.
Qed.

Lemma digits_nonempty (n : Z) : (1 <= String.length (digits n))%nat.
Proof.
  unfold digits. cbn [digits_fuel]. destruct (n <? 10).
  - cbn [String.length]. lia.
  - pose proof (digits_fuel_grows (Z.to_nat (Z.log2 n)) (n / 10)
                                  (String (digit_char (n mod 10)) "")) as H.
    cbn [String.length] in H. lia.
Qed.

Lemma format_decimal_nonempty (s : string) (k n : Z) :
  (1 <= String.length s)%nat -> (1 <= String.length (format_decimal s k n))%nat.
Proof.
  intros Hs. unfold format_decimal.
  repeat match goal with |- context [if ?b then _ else _] => destruct b end;
    rewrite ?length_append; cbn [String.length]; lia.
Qed.

Lemma toString_nonempty (x : number) : toString x <> "".
Proof.
  assert (H : (1 <= String.length (toString x))%nat).
  { unfold toString. destruct x as [s|s| |s m e].
    - simpl. lia.
    - destruct s; simpl; lia.
    - simpl. lia.
    - rewrite length_append. unfold toString_pos. destruct (shortest m e) as [j q].
      pose proof (format_decimal_nonempty (digits j) (strlen (digits j))
                    (strlen (digits j) + q) (digits_nonempty j)). lia. }
  intros E. rewrite E in H. simpl in H. lia.
Qed.

Lemma gesture_text_nonempty (o : origin) (st : State) :
  from_gesture o = true -> text_of o st <> "".
Proof.
  destruct o as [text|v|y]; simpl; intros H; try discriminate H; apply toString_nonempty.
Qed.

(** X6. A change that comes from the slider or from a drag never takes
    the early return for an empty text, the rendering of a number being
    never empty: the bound property is written and one notification for
    the written value is sent. *)
Theorem gesture_always_writes (o : origin) (st : State) :
  from_gesture o = true ->
  text_of o st <> "" /\
  heap (change o st) =
    set_property (heap st) (object (props (this st))) (property (props (this st)))
                 (Num (parsed (this st) (text_of o st))) /\
  notifications (emitted st (change o st)) =
    [(TValue (Num (parsed (this st) (text_of o st))), uid (this st))].
Proof.
  intros Hg. pose proof (gesture_text_nonempty o st Hg) as Hne.
  destruct (change_nonempty o st Hne) as (Hh & _ & Htr).
  split; [exact Hne|]. split; [exact Hh|].
  rewrite (emitted_app _ _ _ Htr). unfold notifications.
  rewrite omap_app. simpl. rewrite omap_observers by reflexivity.
  destruct (onChange (props (this st))); reflexivity.
Qed.

Lemma gesture_always_writes_witness :
  from_gesture (Slider (num "3.14159")) = true /\
  text_of (Slider (num "3.14159")) demo <> "" /\
  heap (change (Slider (num "3.14159")) demo) =
    set_property (heap demo) (object (props (this demo))) (property (props (this demo)))
                 (Num (parsed (this demo) (text_of (Slider (num "3.14159")) demo))) /\
  notifications (emitted demo (change (Slider (num "3.14159")) demo)) =
    [(TValue (Num (parsed (this demo) (text_of (Slider (num "3.14159")) demo))),
      uid (this demo))].
Proof.
  split; [reflexivity|].
  exact (gesture_always_writes (Slider (num "3.14159")) demo eq_refl).
Defined.

(** ** Sequences of events *)

(** X7. No sequence of events changes the identity of the component, its
    props, its precision, its implied step or the registrations of the
    notifier: precision and step are fixed by the constructor. *)
Theorem events_keep_the_configuration (es : list event) (st : State) :
  let st' := run es st in
  uid (this st') = uid (this st) /\
  props (this st') = props (this st) /\
  _precision (this st') = _precision (this st) /\
  _impliedStep (this st') = _impliedStep (this st) /\
  handlers st' = handlers st.
Proof.
  destruct (run_confined es st) as ((H1 & H2 & H3 & H4) & H5 & _).
  simpl. repeat split; assumption.
Qed.

(** X8. Whatever the events, every property of the heap other than
    [object[property]] keeps its value. *)
Theorem events_write_only_the_bound_property (es : list event) (st : State)
        (o : ref) (q : string) :
  object (props (this st)) <> o \/ property (props (this st)) <> q ->
  get_property (heap (run es st)) o q = get_property (heap st) o q.
Proof.
  intros H. destruct (run_confined es st) as (_ & _ & Hf & _). apply Hf. exact H.
Qed.

Lemma events_write_only_the_bound_property_witness :
  (object (props (this demo)) <> 1%positive \/ property (props (this demo)) <> "y") /\
  get_property (heap (run [Focus; Input "2.5"; Blur] demo)) 1%positive "y" =
    get_property (heap demo) 1%positive "y".
Proof.
  assert (H : object (props (this demo)) <> 1%positive \/ property (props (this demo)) <> "y")
    by (right; discriminate).
  split; [exact H|].
  exact (events_write_only_the_bound_property [Focus; Input "2.5"; Blur] demo 1%positive "y" H).
Defined.

(** X9. When the bound property holds a number, it holds a number after
    any sequence of events: the handlers only ever store numbers ([NaN]
    included). *)
Theorem events_keep_a_number (es : list event) (st : State) :
  is_number (read_bound (this st) (heap st)) = true ->
  is_number (read_bound (this (run es st)) (heap (run es st))) = true.
Proof.
  intros H. destruct (run_confined es st) as ((_ & Hp & _) & _ & _ & Hn).
  unfold read_bound in *. rewrite Hp. apply Hn. exact H.
Qed.

Lemma events_keep_a_number_witness :
  is_number (read_bound (this demo) (heap demo)) = true /\
  is_number (read_bound (this (run [Focus; Input "-"; Blur] demo))
                        (heap (run [Focus; Input "-"; Blur] demo))) = true.
Proof.
  assert (H : is_number (read_bound (this demo) (heap demo)) = true)
    by (vm_compute; reflexivity).
  split; [exact H|].
  exact (events_keep_a_number [Focus; Input "-"; Blur] demo H).
Defined.

Lemma dispatch_document_heap (type : string) (body : State -> State) (st : State) :
  (forall s, heap (body s) = heap s) -> heap (dispatch_document type body st) = heap st.
Proof.
  intros Hb. unfold dispatch_document.
  generalize (document st). intros l. revert st.
  induction l as [|a l IH]; intros st; simpl; [reflexivity|].
  rewrite IH. destruct (_ && _); [apply Hb|reflexivity].
Qed.

Lemma mouseUp_heap (st : State) : heap (_handleMouseUp st) = heap st.
Proof.
  change (_handleMouseUp st) with (_handleValueFinishChanged (teardown st)).
  rewrite commit_heap. apply teardown_spec.
Qed.

Lemma blur_heap (st : State) : heap (blur st) = heap st.
Proof.
  unfold blur, _handleInputBlurred. destruct (focused st); [|reflexivity].
  rewrite commit_heap. reflexivity.
Qed.

(** X10. Focus, blur, mouse down, key presses, mouse up and an edit that
    empties the input never write to the heap; only a change with a text
    that is not empty does. *)
Theorem only_changes_write_the_object (st : State) (y : number) (key : string) :
  heap (dispatch Focus st) = heap st /\
  heap (dispatch Blur st) = heap st /\
  heap (dispatch (MouseDown y) st) = heap st /\
  heap (dispatch (KeyDown key) st) = heap st /\
  heap (dispatch MouseUp st) = heap st /\
  heap (dispatch (Input "") st) = heap st.
Proof.
  split; [reflexivity|]. split; [apply blur_heap|]. split.
  { simpl. unfold _handleInputClicked. destruct (_isFocused (this st)); reflexivity. }
  split.
  { simpl. destruct (String.eqb key "Enter"); [|reflexivity].
    unfold _handleEnterKeyPressed. rewrite commit_heap.
    destruct (_input (this st)); [apply blur_heap|reflexivity]. }
  split; [|reflexivity].
  simpl. apply dispatch_document_heap. apply mouseUp_heap.
Qed.

(** ** The listeners of the reachable states *)

Lemma known_same (st st' : State) :
  document st' = document st -> fresh st' = fresh st ->
  listeners_known st = true -> listeners_known st' = true.
Proof. unfold listeners_known. intros -> ->. auto. Qed.

Lemma handleValueChanged_document (text : string) (b : bool) (st : State) :
  document (_handleValueChanged text b st) = document st /\
  fresh (_handleValueChanged text b st) = fresh st.
Proof.
  destruct (String.eqb_spec text "") as [->|Hne].
  - rewrite handleValueChanged_empty. split; reflexivity.
  - destruct (handleValueChanged_nonempty text b st Hne) as (_ & _ & _ & _ & Hd & _ & Hn).
    split; assumption.
Qed.

Lemma handleValueChanged_known (text : string) (b : bool) (st : State) :
  listeners_known st = true -> listeners_known (_handleValueChanged text b st) = true.
Proof. apply known_same; apply handleValueChanged_document. Qed.

Lemma commit_known (st : State) :
  listeners_known st = true -> listeners_known (_handleValueFinishChanged st) = true.
Proof. apply known_same; apply commit_fields. Qed.

Lemma blur_known (st : State) :
  listeners_known st = true -> listeners_known (blur st) = true.
Proof.
  unfold blur, _handleInputBlurred. destruct (focused st); [|auto].
  intros H. apply commit_known. exact H.
Qed.

Lemma clicked_known (y : number) (st : State) :
  listeners_known st = true -> listeners_known (_handleInputClicked y st) = true.
Proof.
  intros H. destruct (_isFocused (this st)) eqn:E.
  - destruct (clicked_focused y st E) as (Hd & _ & Hn & _).
    unfold listeners_known in *. rewrite Hd, Hn, forallb_app. simpl.
    apply andb_true_iff. split.
    + rewrite forallb_forall in *. intros e He. specialize (H e He).
      apply Nat.ltb_lt in H. apply Nat.ltb_lt. lia.
    + rewrite !(proj2 (Nat.ltb_lt _ _)) by lia. reflexivity.
  - rewrite clicked_unfocused by exact E. exact H.
Qed.

Lemma teardown_fresh (st : State) : fresh (teardown st) = fresh st.
Proof.
  unfold teardown.
  destruct (_mouseMoveListener (this st)), (_mouseUpListener (this st)) eqn:E;
    simpl; rewrite ?E; reflexivity.
Qed.

Lemma mouseUp_known (st : State) :
  listeners_known st = true -> listeners_known (_handleMouseUp st) = true.
Proof.
  intros H.
  change (_handleMouseUp st) with (_handleValueFinishChanged (teardown st)).
  apply commit_known. unfold listeners_known in *.
  destruct (teardown_spec st) as (_ & Hd & _). rewrite Hd, teardown_fresh.
  rewrite forallb_forall in *. intros e He. apply filter_In in He as [He _]. auto.
Qed.

Lemma dispatch_document_known (type : string) (body : State -> State) (st : State) :
  (forall s, listeners_known s = true -> listeners_known (body s) = true) ->
  listeners_known st = true -> listeners_known (dispatch_document type body st) = true.
Proof.
  intros Hb. unfold dispatch_document. generalize (document st). intros l. revert st.
  induction l as [|a l IH]; intros st H; simpl; [exact H|].
  apply IH. destruct (_ && _); [apply Hb|]; exact H.
Qed.

Lemma dispatch_known (e : event) (st : State) :
  listeners_known st = true -> listeners_known (dispatch e st) = true.
Proof.
  intros H. destruct e as [| |text|v|y|key|y|]; simpl.
  - exact H.
  - apply blur_known, H.
  - apply handleValueChanged_known, H.
  - destruct (has_slider _); [apply handleValueChanged_known|]; exact H.
  - apply clicked_known, H.
  - destruct (String.eqb key "Enter"); [|exact H].
    unfold _handleEnterKeyPressed. apply commit_known.
    destruct (_input (this st)); [apply blur_known|]; exact H.
  - apply dispatch_document_known; [|exact H].
    intros s Hs. unfold mouseMoveListener.
    eapply known_same; [| |eapply (handleValueChanged_known _ true s Hs)]; reflexivity.
  - apply dispatch_document_known; [|exact H]. apply mouseUp_known.
Qed.

Lemma run_known (es : list event) (st : State) :
  listeners_known st = true -> listeners_known (run es st) = true.
Proof.
  unfold run. revert st. induction es as [|e es IH]; intros st H; simpl; [exact H|].
  apply IH, dispatch_known, H.
Qed.

(** ** Mouse down and mouse up *)

Lemma same_listener_refl (type : string) (l : listener) :
  same_listener type l (type, l) = true.
Proof.
  unfold same_listener. simpl. rewrite String.eqb_refl, Nat.eqb_refl. reflexivity.
Qed.

(** X11. A mouse down after the input was blurred does nothing, the blur
    handler having cleared [_isFocused]; after the focus handler it records
    [pageY] and attaches two new listeners to the document, one for
    [mousemove] and one for [mouseup]. *)
Theorem mouse_down_needs_focus (y : number) (st : State) :
  _handleInputClicked y (_handleInputBlurred st) = _handleInputBlurred st /\
  document (_handleInputClicked y (_handleInputFocused st)) =
    document st ++ [("mousemove", fresh st); ("mouseup", S (fresh st))] /\
  _lastMousePosition (this (_handleInputClicked y (_handleInputFocused st))) = y.
Proof.
  split.
  - apply clicked_unfocused. unfold _handleInputBlurred.
    destruct (commit_fields (set_this (with_isFocused (this st) false) st))
      as (_ & _ & _ & Hf & _).
    rewrite Hf. reflexivity.
  - destruct (clicked_focused y (_handleInputFocused st)) as (Hd & Ht & _); [reflexivity|].
    rewrite Hd, Ht. split; reflexivity.
Qed.

(** X12. In every state reached from a new component by events, a mouse
    down on the focused input followed by [_handleMouseUp] leaves the
    listeners of the document as they were, and clears both references. *)
Theorem mouse_up_undoes_mouse_down (es : list event) (c : InspectorNumber) (h : heap_t)
        (y : number) :
  let st := run es (initial c h) in
  _isFocused (this st) = true ->
  document (_handleMouseUp (_handleInputClicked y st)) = document st /\
  _mouseMoveListener (this (_handleMouseUp (_handleInputClicked y st))) = None /\
  _mouseUpListener (this (_handleMouseUp (_handleInputClicked y st))) = None.
Proof.
  intros st Hf. apply mouse_up_after_click; [exact Hf|].
  apply run_known. reflexivity.
Qed.

Lemma mouse_up_undoes_mouse_down_witness :
  _isFocused (this (run [Focus] (initial demo_component demo_heap))) = true /\
  document (_handleMouseUp (_handleInputClicked (num "100")
                              (run [Focus] (initial demo_component demo_heap)))) =
    document (run [Focus] (initial demo_component demo_heap)) /\
  _mouseMoveListener
    (this (_handleMouseUp (_handleInputClicked (num "100")
                             (run [Focus] (initial demo_component demo_heap))))) = None /\
  _mouseUpListener
    (this (_handleMouseUp (_handleInputClicked (num "100")
                             (run [Focus] (initial demo_component demo_heap))))) = None.
Proof.
  split; [reflexivity|].
  exact (mouse_up_undoes_mouse_down [Focus] demo_component demo_heap (num "100") eq_refl).
Defined.

Lemma mouse_up_without_listeners (st : State) :
  _mouseMoveListener (this st) = None -> _mouseUpListener (this st) = None ->
  document (_handleMouseUp st) = document st.
Proof.
  intros Hm Hu.
  change (_handleMouseUp st) with (_handleValueFinishChanged (teardown st)).
  destruct (commit_fields (teardown st)) as (Hd & _).
  destruct (teardown_spec st) as (_ & Hd' & _).
  rewrite Hd, Hd', Hm, Hu. unfold present. cbn [app]. clear.
  induction (document st) as [|e d IH]; [reflexivity|].
  cbn [List.filter]. change (detached [] e) with true. cbv iota.
  rewrite IH. reflexivity.
Qed.

(** X13. A second mouse down before any mouse up overwrites the two
    references; [_handleMouseUp] then detaches the second pair only. The
    listeners of the first mouse down stay attached to the document, and a
    later [_handleMouseUp] does not remove them either. *)
Theorem second_mouse_down_leaks_listeners (es : list event) (c : InspectorNumber)
        (h : heap_t) (y1 y2 : number) :
  let st := run es (initial c h) in
  let released := _handleMouseUp (_handleInputClicked y2 (_handleInputClicked y1 st)) in
  _isFocused (this st) = true ->
  document released =
    document st ++ [("mousemove", fresh st); ("mouseup", S (fresh st))] /\
  _mouseMoveListener (this released) = None /\
  _mouseUpListener (this released) = None /\
  document (_handleMouseUp released) = document released.
Proof.
  intros st released Hf.
  destruct (clicked_focused y1 st Hf) as (Hd1 & Ht1 & Hn1 & _).
  set (st1 := _handleInputClicked y1 st) in *.
  assert (Hf1 : _isFocused (this st1) = true) by (rewrite Ht1; exact Hf).
  assert (Hk1 : listeners_known st1 = true)
    by (apply clicked_known, run_known; reflexivity).
  destruct (mouse_up_after_click y2 st1 Hf1 Hk1) as (Hd & Hm & Hu).
  fold released in Hd, Hm, Hu.
  rewrite Hd, Hd1. repeat split; try assumption.
  rewrite mouse_up_without_listeners by assumption. rewrite Hd, Hd1. reflexivity.
Qed.

Lemma second_mouse_down_leaks_listeners_witness :
  _isFocused (this (run [Focus] (initial demo_component demo_heap))) = true /\
  document (_handleMouseUp
              (_handleInputClicked (num "90")
                 (_handleInputClicked (num "100")
                    (run [Focus] (initial demo_component demo_heap))))) =
    [("mousemove", O); ("mouseup", 1%nat)].
Proof.
  split; [reflexivity|].
  exact (proj1 (second_mouse_down_leaks_listeners [Focus] demo_component demo_heap
                  (num "100") (num "90") eq_refl)).
Defined.

(** X14. With no listener attached before, a mouse down on the focused
    input makes a mouse move run the move listener once, which leaves
    [pageY] in [_lastMousePosition]; the mouse up runs [_handleMouseUp]
    once and leaves the document without listeners, so that a later mouse
    move changes nothing. *)
Theorem drag_gesture_wiring (st : State) (y y' y'' : number) :
  document st = [] ->
  _isFocused (this st) = true ->
  let down := dispatch (MouseDown y) st in
  let moved := dispatch (MouseMove y') down in
  let up := dispatch MouseUp moved in
  moved = mouseMoveListener y' down /\
  _lastMousePosition (this moved) = y' /\
  up = _handleMouseUp moved /\
  document up = [] /\
  dispatch (MouseMove y'') up = up.
Proof.
  intros Hd Hf down moved up.
  destruct (clicked_focused y st Hf) as (Hdd & Htd & _).
  change (_handleInputClicked y st) with down in Hdd, Htd. rewrite Hd in Hdd.
  simpl in Hdd.
  assert (Hmoved : moved = mouseMoveListener y' down).
  { subst moved. simpl. unfold dispatch_document. rewrite Hdd. simpl.
    rewrite Hdd. simpl. rewrite same_listener_refl. reflexivity. }
  assert (Hdm : document moved = document down).
  { rewrite Hmoved. unfold mouseMoveListener. simpl.
    apply handleValueChanged_document. }
  assert (Htm : _mouseMoveListener (this moved) = Some (fresh st) /\
                _mouseUpListener (this moved) = Some (S (fresh st))).
  { rewrite Hmoved. unfold mouseMoveListener. simpl.
    destruct (String.eqb_spec
                (toString (add (ToNumber (read_bound (this down) (heap down)))
                               (mul (sub (_lastMousePosition (this down)) y')
                                    (_impliedStep (this down))))) "") as [E|E].
    - exfalso. exact (toString_nonempty _ E).
    - destruct (handleValueChanged_nonempty _ true down E) as (_ & Ht & _).
      rewrite Ht, Htd. split; reflexivity. }
  assert (Hup : up = _handleMouseUp moved).
  { subst up. simpl. unfold dispatch_document. rewrite Hdm, Hdd. simpl.
    rewrite Hdm, Hdd. simpl. rewrite same_listener_refl. reflexivity. }
  assert (Hdu : document up = []).
  { rewrite Hup.
    change (_handleMouseUp moved) with (_handleValueFinishChanged (teardown moved)).
    destruct (commit_fields (teardown moved)) as (Hc & _).
    destruct (teardown_spec moved) as (_ & Hdt & _).
    destruct Htm as (Hm1 & Hm2).
    rewrite Hc, Hdt, Hm1, Hm2, Hdm, Hdd. unfold detached, same_listener. simpl.
    rewrite !Nat.eqb_refl. simpl. reflexivity. }
  split; [exact Hmoved|]. split; [rewrite Hmoved; reflexivity|].
  split; [exact Hup|]. split; [exact Hdu|].
  simpl. unfold dispatch_document. rewrite Hdu. reflexivity.
Qed.

Lemma drag_gesture_wiring_witness :
  (document (dispatch Focus demo) = [] /\ _isFocused (this (dispatch Focus demo)) = true) /\
  let down := dispatch (MouseDown (num "100")) (dispatch Focus demo) in
  let moved := dispatch (MouseMove (num "90")) down in
  let up := dispatch MouseUp moved in
  moved = mouseMoveListener (num "90") down /\
  _lastMousePosition (this moved) = num "90" /\
  up = _handleMouseUp moved /\
  document up = [] /\
  dispatch (MouseMove (num "80")) up = up.
Proof.
  split; [split; reflexivity|].
  exact (drag_gesture_wiring (dispatch Focus demo) (num "100") (num "90") (num "80")
           eq_refl eq_refl).
Defined.

(** ** A drag on a property that is not a number *)

Lemma add_nan_l (x : number) : add NaN x = NaN.
Proof. destruct x; reflexivity. Qed.

Lemma RoundToDecimal_nan (decimals : Z) : _RoundToDecimal NaN decimals = NaN.
Proof.
  unfold _RoundToDecimal, mul, div.
  destruct (Math.pow10 (of_Z decimals)); reflexivity.
Qed.

(** X15. A mouse move while the bound property is [NaN] (or missing,
    which [+] converts to [NaN]) stores [NaN] again and displays "NaN":
    a drag cannot repair a property that is not a number. *)
Theorem drag_cannot_leave_nan (y : number) (st : State) :
  ToNumber (read_bound (this st) (heap st)) = NaN ->
  read_bound (this st) (heap (mouseMoveListener y st)) = Num NaN /\
  value (state (this (mouseMoveListener y st))) = "NaN".
Proof.
  intros Hnan.
  assert (Htext : text_of (Drag y) st = "NaN").
  { simpl. rewrite Hnan, add_nan_l. reflexivity. }
  assert (Hne : text_of (Drag y) st <> "") by (rewrite Htext; discriminate).
  destruct (change_nonempty (Drag y) st Hne) as (Hh & Hv & _).
  assert (Hp : parsed (this st) (text_of (Drag y) st) = NaN).
  { rewrite Htext. unfold parsed.
    replace (parseFloat "NaN") with NaN by (vm_compute; reflexivity).
    apply apply_bounds_nan. }
  rewrite Hp in Hh, Hv.
  change (mouseMoveListener y st) with (change (Drag y) st). split.
  - unfold read_bound. rewrite Hh. apply get_set_property.
  - rewrite Hv. cbn [from_gesture]. rewrite RoundToDecimal_nan. reflexivity.
Qed.

Lemma drag_cannot_leave_nan_witness :
  ToNumber (read_bound (this (_handleValueChanged "-" false demo))
                       (heap (_handleValueChanged "-" false demo))) = NaN /\
  read_bound (this (_handleValueChanged "-" false demo))
    (heap (mouseMoveListener (num "3") (_handleValueChanged "-" false demo))) = Num NaN /\
  value (state (this (mouseMoveListener (num "3") (_handleValueChanged "-" false demo)))) =
    "NaN".
Proof.
  assert (H : ToNumber (read_bound (this (_handleValueChanged "-" false demo))
                                   (heap (_handleValueChanged "-" false demo))) = NaN)
    by (vm_compute; reflexivity).
  split; [exact H|].
  exact (drag_cannot_leave_nan (num "3") (_handleValueChanged "-" false demo) H).
Defined.

(** ** A typed edit *)

(** The state in which the commit of [Focus; Input text; Blur] runs. *)
Lemma typed_then_blurred (text : string) (st : State) :
  text <> "" ->
  let c := this st in
  let v := parsed c text in
  exists s,
    run [Focus; Input text; Blur] st = _handleValueFinishChanged s /\
    this s = with_isFocused (with_state c {| value := text |}) false /\
    heap s = set_property (heap st) (object (props c)) (property (props c)) (Num v) /\
    focused s = false /\
    handlers s = handlers st /\
    trace s =
      trace st ++ (if onChange (props c) then [CallOnChange v] else []) ++
      CallNotifyChange (TValue (Num v)) (uid c) ::
        map (fun h => CallObserver (subscriber h))
            (List.filter (InspectorNotifier.notified (TValue (Num v)) (uid c)) (handlers st)).
Proof.
  intros Hne c v.
  set (st1 := _handleInputFocused (set_focused true st)).
  destruct (handleValueChanged_nonempty text false st1 Hne)
    as (Hh & Ht & Htr & Hhs & _ & Hf & _).
  set (st2 := _handleValueChanged text false st1) in *.
  exists (set_this (with_isFocused (this st2) false) (set_focused false st2)).
  split.
  - unfold run. simpl. fold st1. fold st2. unfold blur. rewrite Hf. reflexivity.
  - simpl. rewrite Ht, Hh, Hhs, Htr. repeat split; reflexivity.
Qed.

(** X16. Focusing the input, typing a text that is not empty and leaving
    the input, when the number the text denotes differs from the initial
    value: the number is stored and becomes the initial value, the display
    is its final string, [onChange] is called once with it,
    [onFinishChange] once with it and the old initial value, and two
    notifications are sent, for the value and then for the object. *)
Theorem typed_edit_then_blur_reports_once (text : string) (st : State) :
  let c := this st in
  let v := parsed c text in
  let st' := run [Focus; Input text; Blur] st in
  text <> "" ->
  strict_equals (Num v) (_initialValue c) = false ->
  read_bound c (heap st') = Num v /\
  _initialValue (this st') = Num v /\
  value (state (this st')) = _getFinalValueString c (Num v) /\
  _isFocused (this st') = false /\
  onChange_calls (emitted st st') = (if onChange (props c) then [v] else []) /\
  onFinishChange_calls (emitted st st') =
    (if onFinishChange (props c) then [(Num v, _initialValue c)] else []) /\
  notifications (emitted st st') =
    [(TValue (Num v), uid c); (TObject (object (props c)), uid c)].
Proof.
  intros c v st' Hne Hdiff.
  destruct (typed_then_blurred text st Hne) as (s & Hrun & Ht & Hh & _ & Hhs & Htr).
  fold c v in Ht, Hh, Htr. fold st' in Hrun.
  assert (Hread : read_bound (this s) (heap s) = Num v).
  { rewrite Ht, Hh. apply get_set_property. }
  assert (E : strict_equals (read_bound (this s) (heap s)) (_initialValue (this s)) = false).
  { rewrite Hread, Ht. exact Hdiff. }
  destruct (commit_changed s E) as (Hh' & Ht' & Htr' & _).
  rewrite <- Hrun in Hh', Ht', Htr'. rewrite Hread in Ht', Htr'.
  rewrite Htr, Ht in Htr'. simpl in Htr'. rewrite <- !app_assoc in Htr'.
  rewrite (emitted_app _ _ _ Htr').
  split; [rewrite Hh', Hh; apply get_set_property|].
  rewrite Ht', Ht. split; [reflexivity|]. split; [reflexivity|]. split; [reflexivity|].
  unfold onChange_calls, onFinishChange_calls, notifications.
  rewrite !omap_app. simpl. rewrite ?omap_app. simpl.
  rewrite ?omap_observers by reflexivity.
  destruct (onChange (props c)), (onFinishChange (props c)); repeat split; reflexivity.
Qed.

Lemma typed_edit_then_blur_reports_once_witness :
  ("2.5" <> "" /\
   strict_equals (Num (parsed (this demo) "2.5")) (_initialValue (this demo)) = false) /\
  read_bound (this demo) (heap (run [Focus; Input "2.5"; Blur] demo)) =
    Num (parsed (this demo) "2.5") /\
  _initialValue (this (run [Focus; Input "2.5"; Blur] demo)) = Num (parsed (this demo) "2.5") /\
  onFinishChange_calls (emitted demo (run [Focus; Input "2.5"; Blur] demo)) =
    [(Num (parsed (this demo) "2.5"), _initialValue (this demo))].
Proof.
  assert (H1 : "2.5" <> "") by discriminate.
  assert (H2 : strict_equals (Num (parsed (this demo) "2.5")) (_initialValue (this demo)) = false)
    by (vm_compute; reflexivity).
  split; [split; assumption|].
  destruct (typed_edit_then_blur_reports_once "2.5" demo H1 H2)
    as (Ha & Hb & _ & _ & _ & Hc & _).
  split; [exact Ha|]. split; [exact Hb|exact Hc].
Defined.

(** X17. When the typed text denotes the initial value again, leaving the
    input reports nothing: [onFinishChange] is not called, the initial
    value stays, and the display keeps the text as typed, not the final
    string of the number. *)
Theorem retyping_the_baseline_reports_nothing (text : string) (st : State) :
  let c := this st in
  let v := parsed c text in
  let st' := run [Focus; Input text; Blur] st in
  text <> "" ->
  strict_equals (Num v) (_initialValue c) = true ->
  value (state (this st')) = text /\
  _initialValue (this st') = _initialValue c /\
  read_bound c (heap st') = Num v /\
  onFinishChange_calls (emitted st st') = [] /\
  notifications (emitted st st') = [(TValue (Num v), uid c)].
Proof.
  intros c v st' Hne Hsame.
  destruct (typed_then_blurred text st Hne) as (s & Hrun & Ht & Hh & _ & Hhs & Htr).
  fold c v in Ht, Hh, Htr. fold st' in Hrun.
  assert (Hread : read_bound (this s) (heap s) = Num v).
  { rewrite Ht, Hh. apply get_set_property. }
  assert (E : strict_equals (read_bound (this s) (heap s)) (_initialValue (this s)) = true).
  { rewrite Hread, Ht. exact Hsame. }
  rewrite (commit_unchanged s E) in Hrun. rewrite Hrun.
  rewrite (emitted_app _ _ _ Htr), Ht, Hh.
  split; [reflexivity|]. split; [reflexivity|]. split; [apply get_set_property|].
  unfold onFinishChange_calls, notifications.
  rewrite !omap_app. simpl. rewrite !omap_observers by reflexivity.
  destruct (onChange (props c)); split; reflexivity.
Qed.

Lemma retyping_the_baseline_reports_nothing_witness :
  ("1.0" <> "" /\
   strict_equals (Num (parsed (this demo) "1.0")) (_initialValue (this demo)) = true) /\
  value (state (this (run [Focus; Input "1.0"; Blur] demo))) = "1.0" /\
  onFinishChange_calls (emitted demo (run [Focus; Input "1.0"; Blur] demo)) = [].
Proof.
  assert (H1 : "1.0" <> "") by discriminate.
  assert (H2 : strict_equals (Num (parsed (this demo) "1.0")) (_initialValue (this demo)) = true)
    by (vm_compute; reflexivity).
  split; [split; assumption|].
  destruct (retyping_the_baseline_reports_nothing "1.0" demo H1 H2)
    as (Ha & _ & _ & Hb & _).
  split; [exact Ha|exact Hb].
Defined.

(** ** Mounting and the notifications of others *)

Lemma Register_In (s : ident) (t : target) (hs : list NotificationHandler) :
  In {| subscriber := s; observed := t |} (InspectorNotifier.Register s t hs).
Proof.
  unfold InspectorNotifier.Register.
  destruct (existsb (InspectorNotifier.owned_by s) hs) eqn:E.
  - apply existsb_exists in E as (h & Hin & Ho).
    apply in_map_iff. exists h. rewrite Ho. split; [reflexivity|exact Hin].
  - apply in_or_app. right. left. reflexivity.
Qed.

Section Refresh.
Variables (t : target) (caller : ident) (c1 : InspectorNumber) (h : heap_t).

Let step_ (st : State) (a : NotificationHandler) : State :=
  if InspectorNotifier.notified t caller a then InspectorNotifier.invoke a st else st.

Let cb := componentDidMount_callback c1 h.

Lemma notify_fold_refreshes (hs : list NotificationHandler) (s : State) :
  heap s = h -> uid (this s) = uid c1 -> this s = c1 \/ this s = cb ->
  (this (fold_left step_ hs s) = c1 \/ this (fold_left step_ hs s) = cb) /\
  (this s = cb \/
   (exists a, In a hs /\ InspectorNotifier.notified t caller a = true /\
              subscriber a = uid c1) ->
   this (fold_left step_ hs s) = cb).
Proof.
  revert s. induction hs as [|a hs IH]; intros s Hh Hu Ht; simpl.
  - split; [exact Ht|]. intros [H|(a & [] & _)]. exact H.
  - assert (Hstep : heap (step_ s a) = h /\ uid (this (step_ s a)) = uid c1 /\
                    (this (step_ s a) = c1 \/ this (step_ s a) = cb) /\
                    (this s = cb \/
                     (InspectorNotifier.notified t caller a = true /\ subscriber a = uid c1) ->
                     this (step_ s a) = cb)).
    { unfold step_. destruct (InspectorNotifier.notified t caller a) eqn:En.
      - destruct (invoke_frame a s) as (Hh' & _ & _ & _ & _ & Hu' & _).
        rewrite Hh', Hu'. split; [exact Hh|]. split; [exact Hu|].
        destruct (Pos.eqb_spec (subscriber a) (uid c1)) as [Es|Es].
        + assert (Hinv : this (InspectorNotifier.invoke a s) = cb).
          { unfold InspectorNotifier.invoke. simpl. rewrite Hu.
            rewrite (proj2 (Pos.eqb_eq _ _) Es). simpl. rewrite Hh.
            destruct Ht as [-> | ->]; reflexivity. }
          rewrite Hinv. split; [right; reflexivity|]. intros _. reflexivity.
        + rewrite invoke_other by (rewrite Hu; exact Es).
          split; [exact Ht|]. intros [H|[_ H]]; [exact H|contradiction].
      - split; [exact Hh|]. split; [exact Hu|]. split; [exact Ht|].
        intros [H|[H _]]; [exact H|discriminate H]. }
    destruct Hstep as (Hh1 & Hu1 & Ht1 & Hcb1).
    destruct (IH (step_ s a) Hh1 Hu1 Ht1) as (IH1 & IH2).
    split; [exact IH1|].
    intros [H|(a' & [<-|Hin] & Hn & Hs)].
    + apply IH2. left. apply Hcb1. left. exact H.
    + apply IH2. left. apply Hcb1. right. split; assumption.
    + apply IH2. right. exists a'. repeat split; assumption.
Qed.

Lemma notify_fold_skips (hs : list NotificationHandler) (s : State) :
  (forall a, In a hs -> subscriber a <> uid (this s)) ->
  this (fold_left step_ hs s) = this s.
Proof.
  revert s. induction hs as [|a hs IH]; intros s Hs; simpl; [reflexivity|].
  assert (Hstep : this (step_ s a) = this s).
  { unfold step_. destruct (InspectorNotifier.notified t caller a); [|reflexivity].
    apply invoke_other. apply Hs. left. reflexivity. }
  rewrite IH; [exact Hstep|].
  intros a' Hin. rewrite Hstep. apply Hs. right. exact Hin.
Qed.

End Refresh.

(** X18. Once mounted, a notification for the bound object sent by
    another caller makes the component display the final string of the
    current value of the property, without writing the heap and without
    touching the initial value; the next commit of the component therefore
    reports that value against the old initial value. The notifier is the
    one modelled from the specification. *)
Theorem external_change_refreshes_display (name : option string) (caller : ident)
        (st : State) :
  let c := this st in
  let v := read_bound c (heap st) in
  let st' := InspectorNotifier.NotifyChange (TObject (object (props c))) caller
               (componentDidMount name st) in
  caller <> uid c ->
  value (state (this st')) = _getFinalValueString c v /\
  heap st' = heap st /\
  _initialValue (this st') = _initialValue c /\
  (strict_equals v (_initialValue c) = false ->
   onFinishChange (props c) = true ->
   onFinishChange_calls (emitted st' (_handleValueFinishChanged st')) =
     [(v, _initialValue c)]).
Proof.
  intros c v st' Hc.
  set (c1 := with_mount c name (_input c)).
  set (t := TObject (object (props c))).
  assert (Hthis : this st' = componentDidMount_callback c1 (heap st)).
  { subst st'. unfold InspectorNotifier.NotifyChange.
    apply (notify_fold_refreshes t caller c1 (heap st)); try reflexivity.
    - left. reflexivity.
    - right. exists {| subscriber := uid c; observed := t |}.
      split; [apply Register_In|]. split; [|reflexivity].
      unfold InspectorNotifier.notified, InspectorNotifier.owned_by. simpl.
      rewrite Pos.eqb_refl. simpl. apply negb_true_iff, Pos.eqb_neq.
      intros E. apply Hc. symmetry. exact E. }
  assert (Hheap : heap st' = heap st).
  { subst st'. rewrite (proj1 (NotifyChange_frame _ _ _)). reflexivity. }
  rewrite Hthis, Hheap.
  split; [reflexivity|]. split; [reflexivity|]. split; [reflexivity|].
  intros Hdiff Hcb.
  assert (E : strict_equals (read_bound (this st') (heap st')) (_initialValue (this st')) = false).
  { rewrite Hthis, Hheap. exact Hdiff. }
  destruct (commit_changed st' E) as (_ & _ & Htr & _).
  rewrite (emitted_app _ _ _ Htr), Hthis, Hheap. simpl. fold c. rewrite Hcb.
  unfold onFinishChange_calls. rewrite omap_app. simpl.
  rewrite omap_observers by reflexivity. reflexivity.
Qed.

Lemma external_change_refreshes_display_witness :
  (8%positive <> uid (this stale_component) /\
   strict_equals (read_bound (this stale_component) (heap stale_component))
                 (_initialValue (this stale_component)) = false /\
   onFinishChange (props (this stale_component)) = true) /\
  let st' := InspectorNotifier.NotifyChange
               (TObject (object (props (this stale_component)))) 8%positive
               (componentDidMount None stale_component) in
  value (state (this st')) =
    _getFinalValueString (this stale_component)
      (read_bound (this stale_component) (heap stale_component)) /\
  _initialValue (this st') = _initialValue (this stale_component) /\
  onFinishChange_calls (emitted st' (_handleValueFinishChanged st')) =
    [(read_bound (this stale_component) (heap stale_component),
      _initialValue (this stale_component))].
Proof.
  assert (H1 : 8%positive <> uid (this stale_component)) by discriminate.
  assert (H2 : strict_equals (read_bound (this stale_component) (heap stale_component))
                             (_initialValue (this stale_component)) = false)
    by (vm_compute; reflexivity).
  assert (H3 : onFinishChange (props (this stale_component)) = true) by reflexivity.
  split; [repeat split; assumption|].
  destruct (external_change_refreshes_display None 8%positive stale_component H1)
    as (Ha & _ & Hb & Hc).
  split; [exact Ha|]. split; [exact Hb|exact (Hc H2 H3)].
Defined.

(** X19. After [componentWillUnmount] no notification changes the
    component, the registrations of other subscribers are kept, and
    unmounting again changes nothing. The notifier is the one modelled from
    the specification. *)
Theorem unmounted_component_is_not_refreshed (t : target) (caller : ident) (st : State) :
  let st' := componentWillUnmount st in
  this (InspectorNotifier.NotifyChange t caller st') = this st /\
  (forall a, subscriber a <> uid (this st) -> In a (handlers st) -> In a (handlers st')) /\
  componentWillUnmount st' = st'.
Proof.
  intros st'. split; [|split].
  - subst st'. unfold InspectorNotifier.NotifyChange.
    rewrite notify_fold_skips; [reflexivity|].
    simpl. intros a Hin. unfold InspectorNotifier.Unregister in Hin.
    apply filter_In in Hin as [_ Hin].
    unfold InspectorNotifier.owned_by in Hin.
    apply negb_true_iff, Pos.eqb_neq in Hin. exact Hin.
  - intros a Hne Hin. apply Unregister_others; assumption.
  - subst st'. unfold componentWillUnmount, set_handlers. simpl.
    rewrite Unregister_idempotent. reflexivity.
Qed.

Lemma unmounted_component_is_not_refreshed_witness :
  (subscriber {| subscriber := 8%positive; observed := TObject 1%positive |} <>
     uid (this demo_shared) /\
   In {| subscriber := 8%positive; observed := TObject 1%positive |} (handlers demo_shared)) /\
  this (InspectorNotifier.NotifyChange (TObject 1%positive) 8%positive
          (componentWillUnmount demo_shared)) = this demo_shared /\
  In {| subscriber := 8%positive; observed := TObject 1%positive |}
     (handlers (componentWillUnmount demo_shared)).
Proof.
  assert (H1 : subscriber {| subscriber := 8%positive; observed := TObject 1%positive |} <>
               uid (this demo_shared)) by discriminate.
  assert (H2 : In {| subscriber := 8%positive; observed := TObject 1%positive |}
                  (handlers demo_shared)) by (left; reflexivity).
  split; [split; assumption|].
  destruct (unmounted_component_is_not_refreshed (TObject 1%positive) 8%positive demo_shared)
    as (Ha & Hb & _).
  split; [exact Ha|exact (Hb _ H1 H2)].
Defined.

(** ** The length of a rendering *)

Lemma shortest_from_first (fuel : nat) (iv : interval) (q q0 : Z) :
  q0 <= q <= q0 + Z.of_nat fuel ->
  hit iv q0 = true ->
  exists j q',
    shortest_from fuel iv q = (j, q') /\ q0 <= q' <= q /\ hit iv q' = true /\
    j <= greatest_multiple iv q' /\
    (q' < q -> hit iv (q' + 1) = false).
Proof.
  revert q. induction fuel as [|fuel IH]; intros q Hq H0.
  - assert (q = q0) by lia. subst q. cbn [shortest_from].
    pose proof H0 as H0'. unfold hit in H0. rewrite H0.
    apply andb_prop in H0 as [Hle _]. apply Z.leb_le in Hle.
    eexists _, q0. repeat split; try lia. exact H0'.
  - cbn [shortest_from]. fold (hit iv q).
    destruct (hit iv q) eqn:Hh.
    + pose proof Hh as Hh'. unfold hit in Hh'.
      apply andb_prop in Hh' as [Hle _]. apply Z.leb_le in Hle.
      eexists _, q. repeat split; try lia. exact Hh.
    + assert (q <> q0) by (intros ->; congruence).
      destruct (IH (q - 1) ltac:(lia) H0) as (j & q' & Hs & Hq' & Hhit & Hj & Hfirst).
      exists j, q'. repeat split; try assumption; try lia.
      intros Hlt. destruct (Z.eq_dec q' (q - 1)) as [->|Hne'].
      * replace (q - 1 + 1) with q by lia. exact Hh.
      * apply Hfirst. lia.
Qed.

Lemma scale_pos (q E : Z) : 0 < scaleA q E /\ 0 < scaleB q E.
Proof.
  unfold scaleA, scaleB. split; apply Z.mul_pos_pos; apply Z.pow_pos_nonneg; lia.
Qed.

Lemma scale_succ (q E : Z) :
  scaleA (q + 1) E * scaleB q E = 10 * scaleA q E * scaleB (q + 1) E.
Proof.
  unfold scaleA, scaleB.
  destruct (Z.le_gt_cases 0 q) as [Hq|Hq].
  - rewrite (Z.max_l (q + 1) 0), (Z.max_l q 0), (Z.max_r (- q) 0),
      (Z.max_r (- (q + 1)) 0) by lia.
    rewrite Z.pow_add_r, Z.pow_0_r, Z.pow_1_r by lia. ring.
  - rewrite (Z.max_r (q + 1) 0), (Z.max_r q 0), (Z.max_l (- q) 0),
      (Z.max_l (- (q + 1)) 0) by lia.
    replace (- q) with (- (q + 1) + 1) at 1 by lia.
    rewrite Z.pow_add_r, Z.pow_0_r, Z.pow_1_r by lia. ring.
Qed.

(** Where no multiple of [10^q] lies in the interval, [10^q] exceeds
    its width. *)
Lemma no_hit_narrow (iv : interval) (q : Z) :
  1 <= iv_lo iv -> iv_lo iv + 3 <= iv_hi iv ->
  hit iv q = false ->
  3 * scaleB q (iv_exp iv) <= scaleA q (iv_exp iv).
Proof.
  intros Hlo Hhi Hno.
  destruct (scale_pos q (iv_exp iv)) as [HA HB].
  unfold hit, least_multiple, greatest_multiple in Hno.
  set (A := scaleA q (iv_exp iv)) in *. set (B := scaleB q (iv_exp iv)) in *.
  apply andb_false_iff in Hno.
  destruct (iv_closed iv).
  - pose proof (Z.mul_div_le (iv_hi iv * B) A HA) as G1.
    pose proof (Z.mul_succ_div_gt (iv_hi iv * B) A HA) as G2.
    pose proof (Z.mul_div_le (iv_lo iv * B + A - 1) A HA) as L1.
    pose proof (Z.mul_succ_div_gt (iv_lo iv * B + A - 1) A HA) as L2.
    destruct Hno as [Hno|Hno]; apply Z.leb_gt in Hno; nia.
  - pose proof (Z.mul_div_le (iv_hi iv * B - 1) A HA) as G1.
    pose proof (Z.mul_succ_div_gt (iv_hi iv * B - 1) A HA) as G2.
    pose proof (Z.mul_div_le (iv_lo iv * B) A HA) as L1.
    pose proof (Z.mul_succ_div_gt (iv_lo iv * B) A HA) as L2.
    destruct Hno as [Hno|Hno]; apply Z.leb_gt in Hno; nia.
Qed.

(** [2^L] is below [10^(L * 30103 / 100000 + 2)] for the exponents of
    doubles. *)
Lemma pow2_below_pow10 (L : Z) :
  -1100 <= L <= 1100 ->
  2 ^ Z.max L 0 * 10 ^ Z.max (- (L * 30103 / 100000 + 2)) 0 <=
  10 ^ Z.max (L * 30103 / 100000 + 2) 0 * 2 ^ Z.max (- L) 0.
Proof.
  intros HL.
  pose (check := fun L : Z =>
    2 ^ Z.max L 0 * 10 ^ Z.max (- (L * 30103 / 100000 + 2)) 0 <=?
    10 ^ Z.max (L * 30103 / 100000 + 2) 0 * 2 ^ Z.max (- L) 0).
  assert (Hall : forallb (fun n => check (Z.of_nat n - 1100)) (seq 0 2201) = true)
    by (vm_compute; reflexivity).
  rewrite forallb_forall in Hall.
  specialize (Hall (Z.to_nat (L + 1100))).
  rewrite Z2Nat.id in Hall by lia.
  replace (L + 1100 - 1100) with L in Hall by lia.
  apply Z.leb_le. apply Hall. apply in_seq. lia.
Qed.

Lemma interval_of_double (m : positive) (e : Z) :
  bounded prec emax m e = true ->
  let iv := rounding_interval m e in
  1 <= iv_lo iv /\ iv_lo iv + 3 <= iv_hi iv /\ iv_hi iv = 4 * Zpos m + 2 /\
  iv_hi iv < 2 ^ 55 /\ iv_exp iv = e - 2 /\ 2 <= Z.log2 (iv_hi iv) <= 54.
Proof.
  intros Hb iv. destruct (bounded_range m e Hb) as [Hm He].
  assert (H : 1 <= iv_lo iv /\ iv_lo iv + 3 <= iv_hi iv /\ iv_hi iv = 4 * Zpos m + 2 /\
              iv_exp iv = e - 2).
  { unfold iv, rounding_interval. cbn [iv_lo iv_hi iv_exp].
    destruct ((Zpos m =? 2 ^ 52) && (-1074 <? e)); lia. }
  destruct H as (H1 & H2 & H3 & H4).
  repeat split; try assumption; try lia.
  - rewrite H3. apply Z.log2_le_pow2; lia.
  - assert (Z.log2 (iv_hi iv) < 55); [|lia]. apply Z.log2_lt_pow2; lia.
Qed.

(** The descent starts above the number: no multiple of [10^q] is in the
    interval at the first exponent. *)
Lemma first_exponent_no_hit (m : positive) (e : Z) :
  bounded prec emax m e = true ->
  hit (rounding_interval m e) (first_exponent (rounding_interval m e)) = false.
Proof.
  intros Hb. destruct (bounded_range m e Hb) as [Hm He].
  destruct (interval_of_double m e Hb) as (Hlo & Hw & Hhi & Hhi' & Hexp & Hlog).
  set (iv := rounding_interval m e) in *.
  unfold first_exponent. rewrite Hexp.
  set (l := Z.log2 (iv_hi iv)) in *.
  set (L := l + 1 + (e - 2)).
  set (q := L * 30103 / 100000 + 2).
  pose proof (pow2_below_pow10 L ltac:(unfold L; lia)) as Hpow. fold q in Hpow.
  assert (Hlt : iv_hi iv < 2 ^ (l + 1)).
  { unfold l. apply Z.log2_spec. lia. }
  destruct (scale_pos q (e - 2)) as [HA HB].
  assert (Hscale : 2 ^ (l + 1) * scaleB q (e - 2) <= scaleA q (e - 2)).
  { unfold scaleA, scaleB in *.
    assert (Hsplit : 2 ^ (l + 1) * 2 ^ Z.max (e - 2) 0 * 2 ^ Z.max (- L) 0 =
                     2 ^ Z.max L 0 * 2 ^ Z.max (- (e - 2)) 0).
    { rewrite <- !Z.pow_add_r by lia. f_equal. unfold L. lia. }
    assert (HL : 0 < 2 ^ Z.max (- L) 0) by (apply Z.pow_pos_nonneg; lia).
    assert (HE : 0 < 2 ^ Z.max (- (e - 2)) 0) by (apply Z.pow_pos_nonneg; lia).
    set (a := 2 ^ (l + 1)) in *. set (b := 2 ^ Z.max (e - 2) 0) in *.
    set (c := 2 ^ Z.max (- L) 0) in *. set (d := 2 ^ Z.max L 0) in *.
    set (f := 2 ^ Z.max (- (e - 2)) 0) in *.
    set (g := 10 ^ Z.max (- q) 0) in *. set (k := 10 ^ Z.max q 0) in *.
    apply (Z.mul_le_mono_pos_r _ _ c HL).
    replace (a * (g * b) * c) with (a * b * c * g) by ring.
    rewrite Hsplit. nia. }
  unfold hit. apply andb_false_iff. right. apply Z.leb_gt.
  unfold greatest_multiple. rewrite Hexp.
  set (A := scaleA q (e - 2)) in *. set (B := scaleB q (e - 2)) in *.
  assert (Hsmall : iv_hi iv * B < A) by nia.
  destruct (iv_closed iv).
  - rewrite Z.div_small by nia. lia.
  - rewrite Z.div_small by nia. lia.
Qed.

(** The digits of a double: at most 18 of them, and a decimal exponent
    between -1076 and 311. *)
Lemma shortest_size (m : positive) (e : Z) :
  bounded prec emax m e = true ->
  exists j q,
    shortest m e = (j, q) /\ 1 <= j < 10 ^ 18 /\ -1076 <= q <= 311.
Proof.
  intros Hb. destruct (bounded_range m e Hb) as [Hm He].
  destruct (interval_of_double m e Hb) as (Hlo & Hw & Hhi & Hhi' & Hexp & Hlog).
  destruct (shortest_finds m e Hb) as (j0 & q0 & Hs0 & _ & _ & Hj1).
  set (iv := rounding_interval m e) in *.
  assert (Hq0 : Z.min 0 (e - 2) <= first_exponent iv <= Z.min 0 (e - 2) + Z.of_nat 1500).
  { unfold first_exponent. rewrite Hexp.
    set (t := Z.log2 (iv_hi iv) + 1 + (e - 2)) in *.
    assert (Hd1 : Z.min 0 (e - 2) - 2 <= t * 30103 / 100000).
    { apply Z.div_le_lower_bound; lia. }
    assert (Hd2 : t * 30103 / 100000 <= 309).
    { apply Z.div_le_upper_bound; lia. }
    lia. }
  assert (Hq0' : first_exponent iv <= 311).
  { unfold first_exponent. rewrite Hexp.
    set (t := Z.log2 (iv_hi iv) + 1 + (e - 2)) in *.
    assert (Hd2 : t * 30103 / 100000 <= 309).
    { apply Z.div_le_upper_bound; lia. }
    lia. }
  destruct (shortest_from_first 1500 iv (first_exponent iv) (Z.min 0 (e - 2)) Hq0 (hit_low m e))
    as (j & q & Hs & Hq & Hhit & Hj & Hfirst).
  assert (Hsame : (j0, q0) = (j, q)) by (rewrite <- Hs0; exact Hs).
  injection Hsame as -> ->.
  exists j, q. split; [exact Hs|]. split; [|lia]. split; [exact Hj1|].
  assert (Hlt : q < first_exponent iv).
  { destruct (Z.eq_dec q (first_exponent iv)) as [Eq|Ne]; [|lia].
    rewrite Eq in Hhit. unfold iv in Hhit.
    rewrite (first_exponent_no_hit m e Hb) in Hhit. discriminate Hhit. }
  pose proof (no_hit_narrow iv (q + 1) Hlo Hw (Hfirst Hlt)) as Hn.
  pose proof (scale_succ q (iv_exp iv)) as Hsucc.
  destruct (scale_pos q (iv_exp iv)) as [HA HB].
  destruct (scale_pos (q + 1) (iv_exp iv)) as [HA1 HB1].
  unfold greatest_multiple in Hj.
  set (A := scaleA q (iv_exp iv)) in *. set (B := scaleB q (iv_exp iv)) in *.
  set (A1 := scaleA (q + 1) (iv_exp iv)) in *. set (B1 := scaleB (q + 1) (iv_exp iv)) in *.
  assert (H3 : 3 * B <= 10 * A) by nia.
  assert (HjA : j * A <= iv_hi iv * B).
  { destruct (iv_closed iv).
    - pose proof (Z.mul_div_le (iv_hi iv * B) A HA). nia.
    - pose proof (Z.mul_div_le (iv_hi iv * B - 1) A HA). nia. }
  assert (3 * j <= 10 * iv_hi iv) by nia.
  assert (10 * 2 ^ 55 < 3 * 10 ^ 18) by (vm_compute; reflexivity).
  lia.
Qed.

Lemma substring_length_le (a b : nat) (s : string) :
  (String.length (substring a b s) <= b)%nat.
Proof.
  revert a b. induction s as [|c s IH]; intros a b.
  - destruct a, b; simpl; lia.
  - destruct a as [|a]; destruct b as [|b]; simpl; try lia.
    + specialize (IH O b). lia.
    + apply IH.
    + apply IH.
Qed.

Lemma digits_length_le (n k : Z) :
  0 <= n < 10 ^ k -> 1 <= k -> strlen (digits n) <= k.
Proof.
  intros Hn Hk. destruct (Z.eq_dec n 0) as [->|Hne].
  - unfold digits. cbn [digits_fuel]. change (0 <? 10) with true. cbv iota.
    unfold strlen. cbn [String.length]. lia.
  - destruct (digits_length n ltac:(lia)) as [H1 H2].
    assert (10 ^ (strlen (digits n) - 1) < 10 ^ k) by lia.
    apply Z.pow_lt_mono_r_iff in H; lia.
Qed.

Lemma format_decimal_length (s : string) (k q : Z) :
  strlen s = k -> 1 <= k <= 18 -> -1076 <= q <= 311 ->
  strlen (format_decimal s k (k + q)) <= 25.
Proof.
  intros Hs Hk Hq. unfold format_decimal.
  assert (Hsub : forall a b, strlen (substring a b s) <= Z.of_nat b).
  { intros a b. unfold strlen. pose proof (substring_length_le a b s). lia. }
  assert (Hexp : strlen (digits (Z.abs (k + q - 1))) <= 4).
  { apply digits_length_le; [|lia]. change (10 ^ 4) with 10000. lia. }
  destruct ((-5 <=? k + q) && (k + q <=? 21)) eqn:E1.
  - apply andb_prop in E1 as [E1 E2]. apply Z.leb_le in E1, E2.
    destruct (k <=? k + q) eqn:E3.
    + apply Z.leb_le in E3. rewrite strlen_append. unfold strlen at 2.
      rewrite length_zeros. lia.
    + destruct (0 <? k + q) eqn:E4.
      * apply Z.ltb_lt in E4. apply Z.leb_gt in E3.
        rewrite !strlen_append.
        pose proof (Hsub O (Z.to_nat (k + q))).
        pose proof (Hsub (Z.to_nat (k + q)) (Z.to_nat (k - (k + q)))).
        change (strlen ".") with 1. lia.
      * apply Z.ltb_ge in E4. rewrite !strlen_append. unfold strlen at 2.
        rewrite length_zeros. change (strlen "0.") with 2. lia.
  - destruct (k =? 1) eqn:E2.
    + rewrite !strlen_append. change (strlen "e") with 1.
      assert (strlen (if 0 <=? k + q - 1 then "+" else "-") = 1)
        by (destruct (0 <=? k + q - 1); reflexivity).
      apply Z.eqb_eq in E2. lia.
    + rewrite !strlen_append. change (strlen "e") with 1. change (strlen ".") with 1.
      assert (strlen (if 0 <=? k + q - 1 then "+" else "-") = 1)
        by (destruct (0 <=? k + q - 1); reflexivity).
      pose proof (Hsub O 1%nat). pose proof (Hsub 1%nat (Z.to_nat (k - 1))). lia.
Qed.

(** The rendering of a double has at most 26 characters. *)
Lemma toString_length (x : number) :
  valid_binary prec emax x = true -> 1 <= strlen (toString x) <= 26.
Proof.
  intros Hv. split.
  { pose proof (toString_nonempty x) as Hne. unfold strlen.
    destruct (toString x); [contradiction|]. cbn [String.length]. lia. }
  destruct x as [s|s| |s m e].
  - unfold toString. change (strlen "0") with 1. lia.
  - unfold toString. destruct s; vm_compute; discriminate.
  - unfold toString. vm_compute. discriminate.
  - unfold toString. rewrite strlen_append.
    assert (strlen (if s then "-" else "") <= 1) by (destruct s; vm_compute; discriminate).
    simpl in Hv. destruct (shortest_size m e Hv) as (j & q & Hs & Hj & Hq).
    unfold toString_pos. rewrite Hs.
    assert (Hk : 1 <= strlen (digits j) <= 18).
    { split; [apply digits_length; lia|]. apply digits_length_le; lia. }
    pose proof (format_decimal_length (digits j) (strlen (digits j)) q eq_refl Hk Hq). lia.
Qed.

Lemma indexOf_lt (s : string) (c : ascii) : indexOf s c < strlen s.
Proof.
  induction s as [|a s IH]; cbn [indexOf]; unfold strlen in *; cbn [String.length].
  - lia.
  - destruct (Ascii.eqb a c); [lia|]. destruct (indexOf s c <? 0) eqn:E; lia.
Qed.

(** The decimal count of a rendering is never negative, and at most 25
    for a double. *)
Lemma NumDecimals_range (x : number) :
  0 <= _NumDecimals x /\
  (valid_binary prec emax x = true -> _NumDecimals x <= 25).
Proof.
  unfold _NumDecimals. pose proof (indexOf_lt (toString x) ".") as Hlt.
  destruct (-1 <? indexOf (toString x) ".") eqn:E.
  - apply Z.ltb_lt in E. split; [lia|]. intros Hv.
    pose proof (toString_length x Hv). lia.
  - split; [lia|]. intros _. lia.
Qed.

(** X20. The precision the constructor derives from an implied step that
    is a double lies between 0 and 25, and no event changes it: the
    argument [_getFinalValueString] hands to [toFixed] is always within the
    0 to 100 that [toFixed] accepts. *)
Theorem precision_within_toFixed_range (u : ident) (p : IInspectorNumberProps)
        (h h' : heap_t) (c : InspectorNumber) :
  constructor u p h = Ok (c, h') ->
  valid_binary prec emax (_impliedStep c) = true ->
  0 <= _precision c <= 25 /\
  (forall es st, this st = c ->
     0 <= _precision (this (run es st)) <= 25).
Proof.
  intros Hc Hv.
  destruct (constructor_fields u p h h' c Hc) as (v & _ & _ & Hp).
  destruct (NumDecimals_range (_impliedStep c)) as [H0 H25].
  specialize (H25 Hv). rewrite <- Hp in *. split; [lia|].
  intros es st Ht.
  destruct (run_confined es st) as ((_ & _ & Hprec & _) & _).
  rewrite Hprec, Ht. lia.
Qed.

Lemma precision_within_toFixed_range_witness :
  (constructor 7%positive demo_props demo_heap = Ok (demo_component, demo_heap) /\
   valid_binary prec emax (_impliedStep demo_component) = true) /\
  0 <= _precision demo_component <= 25.
Proof.
  assert (H1 : constructor 7%positive demo_props demo_heap = Ok (demo_component, demo_heap))
    by (vm_compute; reflexivity).
  assert (H2 : valid_binary prec emax (_impliedStep demo_component) = true)
    by (vm_compute; reflexivity).
  split; [split; assumption|].
  exact (proj1 (precision_within_toFixed_range 7%positive demo_props demo_heap demo_heap
                  demo_component H1 H2)).
Defined.

(** ** A drag as one transaction *)

Lemma run_app (es1 es2 : list event) (st : State) :
  run (es1 ++ es2) st = run es2 (run es1 st).
Proof. unfold run. apply fold_left_app. Qed.

(** With one listener of each kind attached, a mouse event on the
    document runs its listener once. *)
Lemma dispatch_attached (f g : listener) (y : number) (st : State) :
  document st = [("mousemove", f); ("mouseup", g)] ->
  dispatch (MouseMove y) st = mouseMoveListener y st /\
  dispatch MouseUp st = _handleMouseUp st.
Proof.
  intros Hd. simpl. unfold dispatch_document. rewrite Hd. simpl. rewrite Hd. simpl.
  rewrite !same_listener_refl. split; reflexivity.
Qed.

Lemma mouseMove_spec (y : number) (st : State) :
  let c := this st in
  let st' := mouseMoveListener y st in
  document st' = document st /\
  handlers st' = handlers st /\
  props (this st') = props c /\
  uid (this st') = uid c /\
  _mouseMoveListener (this st') = _mouseMoveListener c /\
  _mouseUpListener (this st') = _mouseUpListener c /\
  _initialValue (this st') = _initialValue c /\
  exists es,
    trace st' = trace st ++ es /\
    onFinishChange_calls es = [] /\
    length (onChange_calls es) = (if onChange (props c) then 1%nat else O).
Proof.
  intros c st'. subst st'. unfold mouseMoveListener. cbv zeta.
  set (text := toString _).
  assert (Hne : text <> "") by apply toString_nonempty.
  destruct (handleValueChanged_nonempty text true st Hne)
    as (_ & Ht & Htr & Hhs & Hd & _).
  simpl. rewrite Ht, Hd, Hhs. simpl.
  repeat (split; [reflexivity|]).
  eexists. split; [exact Htr|].
  unfold onFinishChange_calls, onChange_calls. rewrite !omap_app. simpl.
  rewrite !omap_observers by reflexivity.
  fold c. destruct (onChange (props c)); split; reflexivity.
Qed.

Lemma moves_spec (f g : listener) (ys : list number) (st : State) :
  document st = [("mousemove", f); ("mouseup", g)] ->
  let c := this st in
  let st' := run (map MouseMove ys) st in
  document st' = document st /\
  handlers st' = handlers st /\
  props (this st') = props c /\
  uid (this st') = uid c /\
  _mouseMoveListener (this st') = _mouseMoveListener c /\
  _mouseUpListener (this st') = _mouseUpListener c /\
  _initialValue (this st') = _initialValue c /\
  exists es,
    trace st' = trace st ++ es /\
    onFinishChange_calls es = [] /\
    length (onChange_calls es) = (if onChange (props c) then length ys else O).
Proof.
  revert st. induction ys as [|y ys IH]; intros st Hd c st'.
  - subst st'. simpl. repeat (split; [reflexivity|]).
    exists []. rewrite app_nil_r. destruct (onChange (props c)); repeat split; reflexivity.
  - subst st'. change (run (map MouseMove (y :: ys)) st)
      with (run (map MouseMove ys) (dispatch (MouseMove y) st)).
    rewrite (proj1 (dispatch_attached f g y st Hd)).
    destruct (mouseMove_spec y st)
      as (Hd1 & Hh1 & Hp1 & Hu1 & Hm1 & Hup1 & Hi1 & es1 & Htr1 & Hf1 & Hc1).
    fold c in Hp1, Hu1, Hm1, Hup1, Hi1, Hc1.
    destruct (IH (mouseMoveListener y st) ltac:(rewrite Hd1; exact Hd))
      as (Hd2 & Hh2 & Hp2 & Hu2 & Hm2 & Hup2 & Hi2 & es2 & Htr2 & Hf2 & Hc2).
    rewrite Hd2, Hh2, Hp2, Hu2, Hm2, Hup2, Hi2.
    repeat (split; [assumption|]).
    exists (es1 ++ es2). split; [rewrite Htr2, Htr1, app_assoc; reflexivity|].
    unfold onFinishChange_calls, onChange_calls in *.
    rewrite !omap_app, Hf1, Hf2, length_app, Hc1, Hc2, Hp1.
    destruct (onChange (props c)); split; reflexivity.
Qed.

(** X21. A drag is one transaction. With no listener attached before, a
    mouse down on the focused input, any number of mouse moves and a mouse
    up leave the document without listeners; [onChange] is called once per
    move; [onFinishChange] is called once, with the final value of the
    property and the initial value of before the drag, or not at all when
    the two are equal; the final value then becomes the initial value. *)
Theorem drag_is_one_transaction (st : State) (y : number) (ys : list number) :
  let c := this st in
  let st' := run (MouseDown y :: map MouseMove ys ++ [MouseUp]) st in
  let v := read_bound c (heap st') in
  document st = [] ->
  _isFocused c = true ->
  document st' = [] /\
  length (onChange_calls (emitted st st')) =
    (if onChange (props c) then length ys else O) /\
  onFinishChange_calls (emitted st st') =
    (if onFinishChange (props c) && negb (strict_equals v (_initialValue c))
     then [(v, _initialValue c)] else []) /\
  _initialValue (this st') = (if strict_equals v (_initialValue c) then _initialValue c else v).
Proof.
  intros c st' v Hdoc Hfoc.
  destruct (clicked_focused y st Hfoc) as (Hd0 & Ht0 & _ & _ & _ & _ & Htr0).
  rewrite Hdoc in Hd0. simpl in Hd0.
  set (down := _handleInputClicked y st) in *.
  destruct (moves_spec _ _ ys down Hd0)
    as (Hd1 & _ & Hp1 & _ & Hm1 & Hup1 & Hi1 & es1 & Htr1 & Hf1 & Hc1).
  set (moved := run (map MouseMove ys) down) in *.
  rewrite Ht0 in Hp1, Hm1, Hup1, Hi1, Hc1. simpl in Hp1, Hm1, Hup1, Hi1, Hc1.
  fold c in Hp1, Hi1, Hc1. rewrite Hd0 in Hd1.
  assert (Hst' : st' = _handleValueFinishChanged (teardown moved)).
  { subst st'. change (run (MouseDown y :: map MouseMove ys ++ [MouseUp]) st)
      with (run (map MouseMove ys ++ [MouseUp]) down).
    rewrite run_app. fold moved. unfold run. simpl.
    apply (dispatch_attached _ _ y moved Hd1). }
  destruct (teardown_spec moved) as (Htr2 & Hd2 & Ht2 & Hh2).
  rewrite Hm1, Hup1, Hd1 in Hd2. rewrite Hm1, Hup1 in Htr2.
  unfold present in Hd2, Htr2. cbn [app map fst snd] in Hd2, Htr2.
  assert (Hd2' : document (teardown moved) = []).
  { rewrite Hd2. unfold detached. simpl. rewrite !same_listener_refl. simpl.
    rewrite ?orb_true_r. reflexivity. }
  set (t := teardown moved) in *.
  assert (Hread : read_bound (this t) (heap t) = v).
  { unfold v. rewrite Hst', commit_heap. unfold read_bound. rewrite Ht2. simpl.
    rewrite Hp1. reflexivity. }
  assert (Hinit : _initialValue (this t) = _initialValue c).
  { rewrite Ht2. simpl. exact Hi1. }
  assert (Hprops : props (this t) = props c).
  { rewrite Ht2. simpl. exact Hp1. }
  assert (Htrace : trace t = trace st ++
            ([CallAddEventListener "mousemove" (fresh st);
              CallAddEventListener "mouseup" (S (fresh st))] ++ es1 ++
             [CallRemoveEventListener "mousemove" (fresh st);
              CallRemoveEventListener "mouseup" (S (fresh st))])).
  { rewrite Htr2, Htr1, Htr0, <- !app_assoc. reflexivity. }
  destruct (strict_equals v (_initialValue c)) eqn:E.
  - assert (E' : strict_equals (read_bound (this t) (heap t)) (_initialValue (this t)) = true)
      by (rewrite Hread, Hinit; exact E).
    rewrite (commit_unchanged t E') in Hst'. rewrite Hst'.
    rewrite (emitted_app _ _ _ Htrace), Hd2', Hinit.
    unfold onChange_calls, onFinishChange_calls in *.
    rewrite !omap_app, Hf1, !length_app, Hc1, andb_false_r. simpl.
    repeat split; try reflexivity. lia.
  - assert (E' : strict_equals (read_bound (this t) (heap t)) (_initialValue (this t)) = false)
      by (rewrite Hread, Hinit; exact E).
    destruct (commit_changed t E') as (_ & Ht3 & Htr3 & _ & Hd3 & _).
    rewrite <- Hst' in Ht3, Htr3, Hd3.
    rewrite Hread, Hinit, Hprops, Htrace, <- app_assoc in Htr3.
    rewrite (emitted_app _ _ _ Htr3), Hd3, Hd2', Ht3, Hread.
    unfold onChange_calls, onFinishChange_calls in *.
    rewrite !omap_app, Hf1, !length_app, Hc1, andb_true_r. simpl.
    rewrite ?omap_app. simpl. rewrite ?omap_observers by reflexivity.
    destruct (onChange (props c)), (onFinishChange (props c)); simpl;
      repeat split; try reflexivity; lia.
Qed.

Lemma drag_is_one_transaction_witness :
  (document (dispatch Focus demo) = [] /\ _isFocused (this (dispatch Focus demo)) = true) /\
  document
    (run (MouseDown (num "100") :: map MouseMove [num "90"; num "80"] ++ [MouseUp])
         (dispatch Focus demo)) = [] /\
  length
    (onChange_calls
       (emitted (dispatch Focus demo)
          (run (MouseDown (num "100") :: map MouseMove [num "90"; num "80"] ++ [MouseUp])
               (dispatch Focus demo)))) = 2%nat /\
  onFinishChange_calls
    (emitted (dispatch Focus demo)
       (run (MouseDown (num "100") :: map MouseMove [num "90"; num "80"] ++ [MouseUp])
            (dispatch Focus demo))) = [(Num (num "3"), Num (num "1"))].
Proof.
  split; [split; reflexivity|].
  destruct (drag_is_one_transaction (dispatch Focus demo) (num "100") [num "90"; num "80"]
              eq_refl eq_refl) as (Ha & Hb & Hc & _).
  split; [exact Ha|]. split; [exact Hb|].
  rewrite Hc. vm_compute. reflexivity.
Defined.

(** ** A typed edit ended by the Enter key *)

(** X22. Focusing the input, typing a text that denotes a number other
    than [NaN] and different from the initial value, and pressing Enter:
    the number is stored and becomes the initial value, the display is its
    final string, and [onFinishChange] is called exactly once, with the
    number and the old initial value, whether or not the input element is
    attached. *)
Theorem typed_edit_then_enter_reports_once (text : string) (st : State) :
  let c := this st in
  let v := parsed c text in
  let st' := run [Focus; Input text; KeyDown "Enter"] st in
  text <> "" ->
  is_nan v = false ->
  strict_equals (Num v) (_initialValue c) = false ->
  read_bound c (heap st') = Num v /\
  _initialValue (this st') = Num v /\
  value (state (this st')) = _getFinalValueString c (Num v) /\
  onFinishChange_calls (emitted st st') =
    (if onFinishChange (props c) then [(Num v, _initialValue c)] else []) /\
  notifications (emitted st st') =
    [(TValue (Num v), uid c); (TObject (object (props c)), uid c)].
Proof.
  intros c v st' Hne Hnan Hdiff.
  set (st1 := _handleInputFocused (set_focused true st)).
  destruct (handleValueChanged_nonempty text false st1 Hne)
    as (Hh & Ht & Htr & Hhs & _ & Hf & _).
  set (st2 := _handleValueChanged text false st1) in *.
  change (parsed (this st1) text) with v in Hh, Htr.
  assert (Hrun : st' = _handleEnterKeyPressed st2).
  { subst st'. unfold run. simpl. reflexivity. }
  assert (Hread : read_bound (this st2) (heap st2) = Num v).
  { rewrite Ht, Hh. apply get_set_property. }
  assert (Hnot : read_bound (this st2) (heap st2) <> Num NaN).
  { rewrite Hread. intros E. injection E as E. rewrite E in Hnan. discriminate Hnan. }
  rewrite (enter_commits_once st2 Hnot), Hf, andb_true_r in Hrun.
  assert (Hcommit : exists s,
             st' = _handleValueFinishChanged s /\ heap s = heap st2 /\ trace s = trace st2 /\
             handlers s = handlers st2 /\ props (this s) = props c /\ uid (this s) = uid c /\
             _initialValue (this s) = _initialValue c /\ _precision (this s) = _precision c).
  { destruct (_input (this st2)); eexists; (split; [exact Hrun|]); simpl; rewrite Ht;
      repeat split; reflexivity. }
  destruct Hcommit as (s & Hs & Hsh & Hstr & Hshs & Hsp & Hsu & Hsi & Hsprec).
  assert (E : strict_equals (read_bound (this s) (heap s)) (_initialValue (this s)) = false).
  { unfold read_bound. rewrite Hsp, Hsh, Hh, get_set_property, Hsi. exact Hdiff. }
  assert (Hreads : read_bound (this s) (heap s) = Num v).
  { unfold read_bound. rewrite Hsp, Hsh, Hh. apply get_set_property. }
  destruct (commit_changed s E) as (Hh' & Ht' & Htr' & _).
  rewrite <- Hs in Hh', Ht', Htr'.
  rewrite Hreads, Hsp, Hsu, Hsi, Hstr, Htr, Hshs, Hhs in Htr'.
  simpl in Htr'. rewrite <- !app_assoc in Htr'.
  rewrite (emitted_app _ _ _ Htr').
  split; [rewrite Hh', Hsh, Hh; apply get_set_property|].
  rewrite Ht', Hreads. split; [reflexivity|]. split.
  { simpl. unfold _getFinalValueString. rewrite Hsprec. reflexivity. }
  unfold onFinishChange_calls, notifications.
  rewrite !omap_app. simpl. rewrite ?omap_app. simpl.
  rewrite ?omap_observers by reflexivity.
  change (this st) with c.
  destruct (onChange (props c)), (onFinishChange (props c)); repeat split; reflexivity.
Qed.

Lemma typed_edit_then_enter_reports_once_witness :
  ("2.5" <> "" /\
   is_nan (parsed (this demo) "2.5") = false /\
   strict_equals (Num (parsed (this demo) "2.5")) (_initialValue (this demo)) = false) /\
  _initialValue (this (run [Focus; Input "2.5"; KeyDown "Enter"] demo)) =
    Num (parsed (this demo) "2.5") /\
  onFinishChange_calls (emitted demo (run [Focus; Input "2.5"; KeyDown "Enter"] demo)) =
    [(Num (parsed (this demo) "2.5"), _initialValue (this demo))].
Proof.
  assert (H1 : "2.5" <> "") by discriminate.
  assert (H2 : is_nan (parsed (this demo) "2.5") = false) by (vm_compute; reflexivity).
  assert (H3 : strict_equals (Num (parsed (this demo) "2.5")) (_initialValue (this demo)) = false)
    by (vm_compute; reflexivity).
  split; [repeat split; assumption|].
  destruct (typed_edit_then_enter_reports_once "2.5" demo H1 H2 H3)
    as (_ & Ha & _ & Hb & _).
  split; [exact Ha|exact Hb].
Defined.

(** ** Rounding the values that have no digits *)

(** The power of ten of a decimal count is a positive finite number. *)
Lemma pow10_of_count (d : Z) :
  0 <= d <= 25 -> exists m e, Math.pow10 (of_Z d) = S754_finite false m e.
Proof.
  intros Hd.
  assert (H : d = 0 \/ d = 1 \/ d = 2 \/ d = 3 \/ d = 4 \/ d = 5 \/ d = 6 \/ d = 7 \/
              d = 8 \/ d = 9 \/ d = 10 \/ d = 11 \/ d = 12 \/ d = 13 \/ d = 14 \/
              d = 15 \/ d = 16 \/ d = 17 \/ d = 18 \/ d = 19 \/ d = 20 \/ d = 21 \/
              d = 22 \/ d = 23 \/ d = 24 \/ d = 25) by lia.
  repeat (destruct H as [->|H]; [eexists _, _; vm_compute; reflexivity|]).
  subst d. eexists _, _. vm_compute. reflexivity.
Qed.

(** X23. For a decimal count between 0 and 25, [_RoundToDecimal] returns
    [NaN], an infinity and a zero as they are, the sign included; the
    string a gesture displays for them is "NaN", "Infinity" and "0". *)
Theorem RoundToDecimal_keeps_special_values (decimals : Z) :
  0 <= decimals <= 25 ->
  _RoundToDecimal NaN decimals = NaN /\
  (forall s, _RoundToDecimal (S754_infinity s) decimals = S754_infinity s) /\
  (forall s, _RoundToDecimal (S754_zero s) decimals = S754_zero s) /\
  toString (_RoundToDecimal NaN decimals) = "NaN" /\
  toString (_RoundToDecimal Infinity decimals) = "Infinity" /\
  toString (_RoundToDecimal (of_Z 0) decimals) = "0".
Proof.
  intros Hd. destruct (pow10_of_count decimals Hd) as (m & e & Hp).
  assert (Hinf : forall s, _RoundToDecimal (S754_infinity s) decimals = S754_infinity s).
  { intros s. unfold _RoundToDecimal. rewrite Hp. destruct s; reflexivity. }
  assert (Hzero : forall s, _RoundToDecimal (S754_zero s) decimals = S754_zero s).
  { intros s. unfold _RoundToDecimal. rewrite Hp. destruct s; reflexivity. }
  split; [apply RoundToDecimal_nan|]. split; [exact Hinf|]. split; [exact Hzero|].
  split; [rewrite RoundToDecimal_nan; reflexivity|].
  split; [unfold Infinity; rewrite Hinf; reflexivity|].
  change (of_Z 0) with (S754_zero false). rewrite Hzero. reflexivity.
Qed.

Lemma RoundToDecimal_keeps_special_values_witness :
  0 <= 1 <= 25 /\
  _RoundToDecimal NaN 1 = NaN /\
  _RoundToDecimal (S754_infinity true) 1 = S754_infinity true /\
  _RoundToDecimal (S754_zero true) 1 = S754_zero true /\
  toString (_RoundToDecimal Infinity 1) = "Infinity".
Proof.
  assert (H : 0 <= 1 <= 25) by lia.
  split; [exact H|].
  destruct (RoundToDecimal_keeps_special_values 1 H) as (Ha & Hb & Hc & _ & Hd & _).
  split; [exact Ha|]. split; [apply Hb|]. split; [apply Hc|exact Hd].
Defined.
